(** * avatar/tools/react/api.py: the LLM dispatch-and-retry layer

    A shallow embedding of [get_gpt_output], [complete_text_claude],
    [complete_text_gemini], [complete_text_hf] and [get_llm_output_tools].

    The vendor SDKs, the process environment and the local inference runtime
    are outside the repository; they appear here as the fields of a [World]
    record (one oracle per external call), so every theorem holds for every
    behaviour of those collaborators.  What the Python code does around the
    calls (message normalisation, the retry loops, the [except ... as e]
    bindings, the JSON extraction, the process-wide cache) is translated
    statement by statement. *)

From Stdlib Require Import ZArith QArith Ascii String List Bool Lia.
From stdpp Require Import base option strings gmap.
Import ListNotations.

Local Open Scope string_scope.
Local Open Scope list_scope.
Local Open Scope Z_scope.

(** ** Python string operations used by api.py *)

Module PyStr.

Definition len (s : string) : Z := Z.of_nat (String.length s).

(** [s.startswith(p)] *)
Fixpoint startswith (p s : string) : bool :=
  match p, s with
  | EmptyString, _ => true
  | String a p', String b s' => if Ascii.eqb a b then startswith p' s' else false
  | String _ _, EmptyString => false
  end.

(** [sub in s] *)
Fixpoint contains (sub s : string) : bool :=
  if startswith sub s then true
  else match s with
       | EmptyString => false
       | String _ s' => contains sub s'
       end.

(** [s.find(sub)]: lowest index of an occurrence, or -1. *)
Fixpoint find_from (sub s : string) (i : Z) : Z :=
  if startswith sub s then i
  else match s with
       | EmptyString => -1
       | String _ s' => find_from sub s' (i + 1)
       end.

Definition find (s sub : string) : Z := find_from sub s 0.

(** [s.rfind(sub)]: highest index of an occurrence, or -1. *)
Fixpoint rfind_from (sub s : string) (i : Z) : Z :=
  match s with
  | EmptyString => if startswith sub s then i else -1
  | String _ s' =>
      let r := rfind_from sub s' (i + 1) in
      if 0 <=? r then r
      else if startswith sub s then i else -1
  end.

Definition rfind (s sub : string) : Z := rfind_from sub s 0.

(** Index normalisation of a slice bound: negative bounds count from the
    end, and every bound is clamped to [0, len]. *)
Definition clamp (n i : Z) : Z :=
  if i <? 0 then Z.max (i + n) 0 else Z.min i n.

(** [s[a:b]] *)
Definition slice (s : string) (a b : Z) : string :=
  let n := len s in
  let a' := clamp n a in
  let b' := clamp n b in
  String.substring (Z.to_nat a') (Z.to_nat (b' - a')) s.

(** [s[a:]] *)
Definition slice_from (s : string) (a : Z) : string := slice s a (len s).

Definition lower_char (c : ascii) : ascii :=
  let n := nat_of_ascii c in
  if (Nat.leb 65 n && Nat.leb n 90)%bool then ascii_of_nat (n + 32) else c.

(** [s.lower()] (on the ASCII letters, the only ones that can produce the
    letters of the word searched for in api.py). *)
Fixpoint lower (s : string) : string :=
  match s with
  | EmptyString => EmptyString
  | String c s' => String (lower_char c) (lower s')
  end.

(** [s.split(sep, 1)[1]]: what follows the first occurrence of [sep];
    [None] is the IndexError of indexing a one-element list. *)
Definition split1_second (s sep : string) : option string :=
  let i := find s sep in
  if i <? 0 then None else Some (slice_from s (i + len sep)).

End PyStr.

(** The double-quote character as a string. *)
Definition dq : string := String "034"%char EmptyString.

(** ** json.loads

    [json.loads] belongs to the Python standard library, not to the
    repository.  It is modelled here after the library's decoder
    (json/decoder.py and json/scanner.py, strict mode, default hooks):
    a value is an object, an array, a string, a number, [true], [false],
    [null], [NaN], [Infinity] or [-Infinity]; white space is space, tab,
    line feed and carriage return; anything left after the value is an
    error.  A number with a fraction or an exponent is kept as its lexeme
    (it stands for the float that Python builds from it).  Every failure of
    the decoder is the one exception JSONDecodeError. *)

#[warnings="-register-all"] Inductive json : Type :=
| JNull
| JBool (b : bool)
| JInt (z : Z)
| JFloat (lexeme : string)
| JStr (s : string)
| JArr (items : list json)
| JObj (members : list (string * json)).

Module Json.

Definition dquote : ascii := "034"%char.
Definition backslash : ascii := "092"%char.

Definition is_ws (c : ascii) : bool :=
  (Ascii.eqb c " " || Ascii.eqb c "009" || Ascii.eqb c "010"
   || Ascii.eqb c "013")%bool.

Fixpoint skip_ws (s : string) : string :=
  match s with
  | String c s' => if is_ws c then skip_ws s' else s
  | EmptyString => s
  end.

Definition is_digit (c : ascii) : bool :=
  let n := nat_of_ascii c in (Nat.leb 48 n && Nat.leb n 57)%bool.

Definition digit_val (c : ascii) : Z := Z.of_nat (nat_of_ascii c) - 48.

Definition hex_val (c : ascii) : option Z :=
  let n := nat_of_ascii c in
  if (Nat.leb 48 n && Nat.leb n 57)%bool then Some (Z.of_nat n - 48)
  else if (Nat.leb 65 n && Nat.leb n 70)%bool then Some (Z.of_nat n - 55)
  else if (Nat.leb 97 n && Nat.leb n 102)%bool then Some (Z.of_nat n - 87)
  else None.

(** Four hexadecimal digits of a [\u] escape. *)
Definition hex4 (s : string) : option (Z * string) :=
  match s with
  | String a (String b (String c (String d rest))) =>
      match hex_val a, hex_val b, hex_val c, hex_val d with
      | Some x, Some y, Some z, Some t =>
          Some (((x * 16 + y) * 16 + z) * 16 + t, rest)
      | _, _, _, _ => None
      end
  | _ => None
  end.

Definition byte (z : Z) : ascii := ascii_of_nat (Z.to_nat z).

(** The UTF-8 bytes of a code point (strings are byte strings here). *)
Definition utf8 (u : Z) : string :=
  if u <? 128 then String (byte u) ""
  else if u <? 2048 then
    String (byte (192 + u / 64)) (String (byte (128 + u mod 64)) "")
  else if u <? 65536 then
    String (byte (224 + u / 4096))
      (String (byte (128 + (u / 64) mod 64))
         (String (byte (128 + u mod 64)) ""))
  else
    String (byte (240 + u / 262144))
      (String (byte (128 + (u / 4096) mod 64))
         (String (byte (128 + (u / 64) mod 64))
            (String (byte (128 + u mod 64)) ""))).

(** A [\uXXXX] escape, after the [\u]; a high surrogate followed by an
    escaped low surrogate is one code point. *)
Definition unicode_escape (s : string) : option (string * string) :=
  match hex4 s with
  | None => None
  | Some (u, rest) =>
      if ((55296 <=? u) && (u <=? 56319))%bool then
        match rest with
        | String b (String "u" rest2) =>
            if Ascii.eqb b backslash then
              match hex4 rest2 with
              | Some (u2, rest3) =>
                  if ((56320 <=? u2) && (u2 <=? 57343))%bool
                  then Some (utf8 (65536 + (u - 55296) * 1024 + (u2 - 56320)),
                             rest3)
                  else Some (utf8 u, rest)
              | None => Some (utf8 u, rest)
              end
            else Some (utf8 u, rest)
        | _ => Some (utf8 u, rest)
        end
      else Some (utf8 u, rest)
  end.

Definition simple_escape (c : ascii) : option ascii :=
  if Ascii.eqb c dquote then Some dquote
  else if Ascii.eqb c backslash then Some backslash
  else if Ascii.eqb c "/" then Some "/"%char
  else if Ascii.eqb c "b" then Some "008"%char
  else if Ascii.eqb c "f" then Some "012"%char
  else if Ascii.eqb c "n" then Some "010"%char
  else if Ascii.eqb c "r" then Some "013"%char
  else if Ascii.eqb c "t" then Some "009"%char
  else None.

(** The body of a string literal, after its opening quote. *)
Fixpoint scanstring (fuel : nat) (s : string) : option (string * string) :=
  match fuel with
  | O => None
  | S fuel' =>
      match s with
      | EmptyString => None
      | String c rest =>
          if Ascii.eqb c dquote then Some ("", rest)
          else if Ascii.eqb c backslash then
            match rest with
            | EmptyString => None
            | String "u" rest' =>
                match unicode_escape rest' with
                | Some (bytes, rest'') =>
                    match scanstring fuel' rest'' with
                    | Some (t, r) => Some (bytes +:+ t, r)
                    | None => None
                    end
                | None => None
                end
            | String e rest' =>
                match simple_escape e with
                | Some x =>
                    match scanstring fuel' rest' with
                    | Some (t, r) => Some (String x t, r)
                    | None => None
                    end
                | None => None
                end
            end
          else if Nat.ltb (nat_of_ascii c) 32 then None
          else
            match scanstring fuel' rest with
            | Some (t, r) => Some (String c t, r)
            | None => None
            end
      end
  end.

(** A maximal run of digits: its value, its lexeme and what follows. *)
Fixpoint digits (s : string) (acc : Z) : Z * string * string :=
  match s with
  | String c s' =>
      if is_digit c then
        let '(v, lx, r) := digits s' (acc * 10 + digit_val c) in
        (v, String c lx, r)
      else (acc, "", s)
  | EmptyString => (acc, "", s)
  end.

(** The integer part [0|[1-9]\d*] of a number. *)
Definition int_part (s : string) : option (Z * string * string) :=
  match s with
  | String "0" rest => Some (0, "0", rest)
  | String c _ => if is_digit c then Some (digits s 0) else None
  | EmptyString => None
  end.

(** The optional fraction [\.\d+]. *)
Definition frac_part (s : string) : string * string :=
  match s with
  | String "." (String c _ as rest) =>
      if is_digit c then
        let '(_, lx, r) := digits rest 0 in ("." +:+ lx, r)
      else ("", s)
  | _ => ("", s)
  end.

(** The optional exponent [[eE][-+]?\d+]. *)
Definition exp_part (s : string) : string * string :=
  match s with
  | String e rest =>
      if (Ascii.eqb e "e" || Ascii.eqb e "E")%bool then
        match rest with
        | String sg (String c _ as rest') =>
            if ((Ascii.eqb sg "-" || Ascii.eqb sg "+") && is_digit c)%bool then
              let '(_, lx, r) := digits rest' 0 in
              (String e (String sg lx), r)
            else if is_digit sg then
              let '(_, lx, r) := digits rest 0 in (String e lx, r)
            else ("", s)
        | String c EmptyString =>
            if is_digit c then
              let '(_, lx, r) := digits rest 0 in (String e lx, r)
            else ("", s)
        | EmptyString => ("", s)
        end
      else ("", s)
  | EmptyString => ("", s)
  end.

Definition number (s : string) : option (json * string) :=
  let '(neg, body) :=
    match s with
    | String "-" s' => (true, s')
    | _ => (false, s)
    end in
  match int_part body with
  | None => None
  | Some (v, lx, rest) =>
      let '(fr, rest1) := frac_part rest in
      let '(ex, rest2) := exp_part rest1 in
      match fr, ex with
      | EmptyString, EmptyString =>
          Some (JInt (if neg then - v else v), rest2)
      | _, _ =>
          Some (JFloat ((if neg then "-" else "") +:+ lx +:+ fr +:+ ex), rest2)
      end
  end.

(** [d[k] = v] on an insertion-ordered dict. *)
Fixpoint dict_set (d : list (string * json)) (k : string) (v : json)
  : list (string * json) :=
  match d with
  | [] => [(k, v)]
  | (k', v') :: d' =>
      if String.eqb k k' then (k', v) :: d' else (k', v') :: dict_set d' k v
  end.

Section Containers.
(** [scan] is the decoder of one value (the scanner's [scan_once]). *)
Variable scan : string -> option (json * string).

(** The members of an object, from the first key's opening quote. *)
Fixpoint members (fuel : nat) (acc : list (string * json)) (s : string)
  : option (json * string) :=
  match fuel with
  | O => None
  | S fuel' =>
      match s with
      | String q rest =>
          if Ascii.eqb q dquote then
            match scanstring (S (String.length rest)) rest with
            | None => None
            | Some (key, rest1) =>
                match skip_ws rest1 with
                | String ":" rest2 =>
                    match scan (skip_ws rest2) with
                    | None => None
                    | Some (v, rest3) =>
                        let acc' := dict_set acc key v in
                        match skip_ws rest3 with
                        | String "}" rest4 => Some (JObj acc', rest4)
                        | String "," rest4 => members fuel' acc' (skip_ws rest4)
                        | _ => None
                        end
                    end
                | _ => None
                end
            end
          else None
      | EmptyString => None
      end
  end.

(** The items of an array, from the first item. *)
Fixpoint items (fuel : nat) (acc : list json) (s : string)
  : option (json * string) :=
  match fuel with
  | O => None
  | S fuel' =>
      match scan s with
      | None => None
      | Some (v, rest) =>
          match skip_ws rest with
          | String "]" rest1 => Some (JArr (acc ++ [v]), rest1)
          | String "," rest1 => items fuel' (acc ++ [v]) (skip_ws rest1)
          | _ => None
          end
      end
  end.
End Containers.

(** [scan_once]: one value at the head of [s]. *)
Fixpoint scan_once (fuel : nat) (s : string) : option (json * string) :=
  match fuel with
  | O => None
  | S fuel' =>
      match s with
      | EmptyString => None
      | String c rest =>
          if Ascii.eqb c dquote then
            match scanstring (S (String.length rest)) rest with
            | Some (t, r) => Some (JStr t, r)
            | None => None
            end
          else if Ascii.eqb c "{" then
            match skip_ws rest with
            | String "}" r => Some (JObj [], r)
            | body => members (scan_once fuel') (S (String.length body)) [] body
            end
          else if Ascii.eqb c "[" then
            match skip_ws rest with
            | String "]" r => Some (JArr [], r)
            | body => items (scan_once fuel') (S (String.length body)) [] body
            end
          else if PyStr.startswith "null" s then
            Some (JNull, PyStr.slice_from s 4)
          else if PyStr.startswith "true" s then
            Some (JBool true, PyStr.slice_from s 4)
          else if PyStr.startswith "false" s then
            Some (JBool false, PyStr.slice_from s 5)
          else
            match number s with
            | Some r => Some r
            | None =>
                if PyStr.startswith "NaN" s then
                  Some (JFloat "NaN", PyStr.slice_from s 3)
                else if PyStr.startswith "Infinity" s then
                  Some (JFloat "Infinity", PyStr.slice_from s 8)
                else if PyStr.startswith "-Infinity" s then
                  Some (JFloat "-Infinity", PyStr.slice_from s 9)
                else None
            end
      end
  end.

(** [json.loads(s)]: [None] stands for the raised JSONDecodeError. *)
Definition loads (s : string) : option json :=
  match scan_once (S (String.length s)) (skip_ws s) with
  | Some (v, rest) =>
      match skip_ws rest with
      | EmptyString => Some v
      | String _ _ => None
      end
  | None => None
  end.

End Json.

(** ** Data model *)

(** A role-tagged turn, the dict [{"role": ..., "content": ...}]. *)
Record Turn := mkTurn { role : string; content : string }.

(** [message] is a prompt string or a list of turns ([isinstance(message,
    str)] tells them apart). *)
Inductive Message :=
| MsgStr (s : string)
| MsgTurns (turns : list Turn).

(** A turn in the schema of the multimodal backend,
    [{"role": ..., "parts": [...]}]. *)
Record GeminiTurn := mkGeminiTurn { g_role : string; g_parts : list string }.

(** The keyword arguments that [get_llm_output_tools] receives and forwards
    ([history = None] is [None]; a tool specification is opaque). *)
Record Request := mkRequest {
  message : Message;
  tools : list string;
  model : string;
  max_tokens : Z;
  temperature : Q;
  json_object : bool;
  history : option (list Turn);
  return_raw : bool
}.

(** Exceptions.  [SdkError] is whatever a vendor SDK, the network or the
    inference runtime raises (its class name and its text); the others are
    raised by the Python code of api.py or by the interpreter. *)
Inductive exn :=
| SdkError (class text : string)
| JSONDecodeError (doc : string)
| UnboundLocalError (var : string)
| TypeError (text : string)
| ValueError (text : string)
| ImportError (text : string)
| IndexError (text : string).

(** A function-local variable that holds an exception: never assigned or
    deleted ([Unbound]), assigned [None], or bound to an exception.
    In Python 3 the name of [except Exception as e:] is deleted when the
    except clause is left, also when it is left by [continue]. *)
Inductive local_var :=
| Unbound
| BoundNone
| Bound (e : exn).

(** What [raise v] raises for a local variable named [name]. *)
Definition raise_local (name : string) (v : local_var) : exn :=
  match v with
  | Unbound => UnboundLocalError name
  | BoundNone => TypeError "exceptions must derive from BaseException"
  | Bound e => e
  end.

(** A backend-native response object: [raw_text] is what reading its text
    gives ([result.to_dict()["content"][0]['text']], [response.text]),
    which can raise. *)
Record raw_response := mkRaw { raw_body : string; raw_text : exn + string }.

(** What a caller returns. *)
Inductive value :=
| VText (s : string)
| VJson (j : json)
| VRaw (r : raw_response).

Record OpenAIRequest := mkOpenAIRequest {
  oa_messages : list Turn;
  oa_model : string;
  oa_temperature : Q;
  oa_max_tokens : Z;
  oa_response_format_json_object : bool
}.

Record ClaudeRequest := mkClaudeRequest {
  cl_messages : list Turn;
  cl_model : string;
  cl_temperature : Q;
  cl_max_tokens : Z;
  cl_tools : list string;
  cl_kwargs : list string
}.

Record GenerationConfig := mkGenerationConfig {
  max_output_tokens : Z;
  gc_temperature : Q;
  gc_kwargs : list string
}.

(** The two invocation shapes of the multimodal backend. *)
Inductive GeminiCall :=
| GenerateContent (model : string) (prompt : string) (cfg : GenerationConfig)
| SendMessage (model : string) (chat_history : list GeminiTurn)
    (prompt : string) (cfg : GenerationConfig).

Inductive device := Cuda | Cpu.

Record hf_model := mkHfModel { model_handle : nat }.
Record hf_tokenizer := mkHfTokenizer { tokenizer_handle : nat }.

Record GenerateArgs := mkGenerateArgs {
  ga_input_ids : list Z;
  ga_temperature : Q;
  ga_max_new_tokens : Z;
  ga_kwargs : list string
}.

(** Everything observable that a call does, in order. *)
Inductive event :=
| EvWarn (text : string)
| EvPrintExn (e : exn)
| EvPrintStr (text : string)
| EvPrintRetry (cnt : nat) (e : exn) (sleep_time : nat)
| EvPrintHfRetry (cnt : nat) (e : exn)
| EvPrintResult (result : value)
| EvPrintJsonError (cnt : nat) (e : exn)
| EvSleep (secs : nat)
| EvOpenAICreate (cnt : nat) (req : OpenAIRequest)
| EvAnthropicInit (api_key : option string)
| EvAnthropicCreate (cnt : nat) (req : ClaudeRequest)
| EvGenaiConfigure (api_key : string)
| EvGenaiCall (cnt : nat) (call : GeminiCall)
| EvLoadModel (checkpoint : string) (d : device)
| EvLoadTokenizer (checkpoint : string)
| EvTokenize (prompt : Message)
| EvHfGenerate (cnt : nat) (args : GenerateArgs).

(** The external collaborators: the environment, the vendor SDKs and the
    local inference runtime.  An oracle indexed by [cnt] answers the
    invocation made in the attempt [cnt] of the retry loop.
    - [openai_create]: [openai.OpenAI().chat.completions.create(...)]
      followed by [chat.choices[0].message.content], a text;
    - [anthropic_init]: [anthropic.Anthropic(api_key=api_key)], [Some e]
      when it raises;
    - [anthropic_create]: [anthropic_client.beta.tools.messages.create];
    - [genai_imported]: whether [import google.generativeai] succeeded;
    - [genai_call]: [GenerativeModel], [GenerationConfig] and then
      [generate_content] or [start_chat] and [send_message];
    - [genai_prepare]: the first of these calls alone, [GenerativeModel],
      [GenerationConfig] and, when its last argument is [Some h],
      [start_chat(history=h)]: [Some e] when one of them raises;
    - [hf_generate]: [hf_model.generate], the slicing of the prompt tokens,
      [batch_decode] and the choice of the first completion. *)
Record World := mkWorld {
  environ : string -> option string;
  openai_create : nat -> OpenAIRequest -> exn + string;
  anthropic_init : option string -> option exn;
  anthropic_create : nat -> ClaudeRequest -> exn + raw_response;
  genai_imported : bool;
  genai_configure : string -> option exn;
  genai_call : nat -> GeminiCall -> exn + raw_response;
  genai_prepare : nat -> string -> GenerationConfig -> option (list GeminiTurn)
                  -> option exn;
  cuda_is_available : bool;
  hf_load_model : string -> device -> exn + hf_model;
  hf_load_tokenizer : string -> exn + hf_tokenizer;
  hf_tokenize : hf_tokenizer -> Message -> device -> exn + list Z;
  hf_generate : nat -> hf_model -> hf_tokenizer -> GenerateArgs -> exn + string
}.

(** ** The effect monad: a log of events, the module-level dict
    [loaded_hf_models], and a result that is a value or a raised
    exception. *)

Inductive result (A : Type) :=
| Return (a : A)
| Raise (e : exn).
Arguments Return {A} a.
Arguments Raise {A} e.

(** A run: its events, the dict [loaded_hf_models] as the run leaves it,
    and its result. *)
Record outcome (A : Type) := mkOut {
  out_trace : list event;
  out_cache : gmap string (hf_model * hf_tokenizer);
  out_result : result A
}.
Arguments mkOut {A} _ _ _.
Arguments out_trace {A} _.
Arguments out_cache {A} _.
Arguments out_result {A} _.

(** A computation, run from a state of [loaded_hf_models]. *)
Definition M (A : Type) : Type :=
  gmap string (hf_model * hf_tokenizer) -> outcome A.

#[global] Instance M_ret : MRet M :=
  fun A (a : A) c => mkOut [] c (Return a).

Definition raise {A} (e : exn) : M A := fun c => mkOut [] c (Raise e).

#[global] Instance M_bind : MBind M :=
  fun A B (k : A -> M B) (m : M A) c =>
    let o := m c in
    match out_result o with
    | Return a =>
        let o' := k a (out_cache o) in
        mkOut (out_trace o ++ out_trace o') (out_cache o') (out_result o')
    | Raise e => mkOut (out_trace o) (out_cache o) (Raise e)
    end.

Definition emit (ev : event) : M unit := fun c => mkOut [ev] c (Return tt).

(** [try: m  except Exception as e: ...]: the handler receives [inl e]. *)
Definition try {A} (m : M A) : M (exn + A) :=
  fun c =>
    let o := m c in
    mkOut (out_trace o) (out_cache o)
      (Return (match out_result o with
               | Return a => inr a
               | Raise e => inl e
               end)).

(** Reading and assigning [loaded_hf_models]. *)
Definition get_cache : M (gmap string (hf_model * hf_tokenizer)) :=
  fun c => mkOut [] c (Return c).

Definition set_cache (c' : gmap string (hf_model * hf_tokenizer)) : M unit :=
  fun _ => mkOut [] c' (Return tt).

(** A computation without effects that returns or raises. *)
Definition lift {A} (r : exn + A) : M A :=
  match r with
  | inl e => raise e
  | inr a => mret a
  end.

(** An external call: it is logged, then returns or raises as the oracle
    says. *)
Definition external {A} (ev : event) (r : exn + A) : M A :=
  emit ev ;; lift r.

Definition print_retry (cnt : nat) (e : exn) (sleep_time : nat) : M unit :=
  emit (EvPrintRetry cnt e sleep_time).

Definition time_sleep (secs : nat) : M unit := emit (EvSleep secs).

(** [json.loads(text)] as a step that can raise. *)
Definition json_loads (text : string) : exn + value :=
  match Json.loads text with
  | Some j => inr (VJson j)
  | None => inl (JSONDecodeError text)
  end.

(** ** Module constants *)

Definition MAX_OPENAI_RETRY : nat := 5.
Definition OPENAI_SLEEP_TIME : nat := 60.
Definition MAX_CLAUDE_RETRY : nat := 100.
Definition CLAUDE_SLEEP_TIME : nat := 5.
Definition MAX_GEMINI_RETRY : nat := 5.
Definition GEMINI_SLEEP_TIME : nat := 30.

(** The set literal of api.py; the comma missing after
    "gpt-4-turbo-2024-04-09" makes Python join it with the next literal. *)
Definition registered_text_completion_llms : list string :=
  [ "gpt-4-1106-preview";
    "gpt-4-0125-preview"; "gpt-4-turbo-preview";
    "gpt-4-turbo"; "gpt-4-turbo-2024-04-09" +:+ "gpt-4-turbo";
    "claude-2.1";
    "claude-3-opus-20240229";
    "claude-3-sonnet-20240229";
    "claude-3-haiku-20240307";
    "huggingface/codellama/CodeLlama-7b-hf";
    "gemma-3-27b-it";
    "gemma-2-9b-it";
    "gemini-1.5-flash";
    "gemini-1.5-pro" ].

(** ** get_gpt_output (family A) *)

Definition user_turn (text : string) : Turn :=
  {| role := "user"; content := text |}.

(** Lines 45-54: the JSON instruction, the one-turn conversation, and
    [if history: messages = history + messages]. *)
Definition gpt_message (rq : Request) : Message :=
  if json_object rq then
    match message rq with
    | MsgStr s =>
        if negb (PyStr.contains "json" (PyStr.lower s))
        then MsgStr ("You are a helpful assistant designed to output JSON. " +:+ s)
        else MsgStr s
    | MsgTurns l => MsgTurns l
    end
  else message rq.

Definition gpt_messages (rq : Request) : list Turn :=
  let messages :=
    match gpt_message rq with
    | MsgStr s => [user_turn s]
    | MsgTurns l => l
    end in
  match history rq with
  | Some [] | None => messages
  | Some h => h ++ messages
  end.

Definition gpt_request (rq : Request) : OpenAIRequest :=
  {| oa_messages := gpt_messages rq;
     oa_model := model rq;
     oa_temperature := temperature rq;
     oa_max_tokens := max_tokens rq;
     oa_response_format_json_object := json_object rq |}.

(** Line 75: [result[result.find("{"):result.rfind("}")+1]]. *)
Definition gpt_extract (result : string) : string :=
  PyStr.slice result (PyStr.find result "{") (PyStr.rfind result "}" + 1).

(** Lines 73-77, the body of the second [try]. *)
Definition gpt_normalize (json_object : bool) (result : string) : exn + value :=
  if json_object then json_loads (gpt_extract result)
  else inr (VText result).

(** What [print(result)] shows in the second handler: [result] has been
    rebound to the slice when [json_object] is set. *)
Definition gpt_printed (json_object : bool) (result : string) : value :=
  if json_object then VText (gpt_extract result) else VText result.

(** Lines 57-81: [n] iterations are left, [cnt] is the loop variable and
    [error] the local variable of that name.  The bound and the delay are
    natural numbers: [range] of a bound below one is empty, and the delay
    of a retry policy is not negative. *)
Fixpoint gpt_loop (w : World) (req : OpenAIRequest) (json_object : bool)
  (sleep_time : nat) (n cnt : nat) (error : local_var) : M value :=
  match n with
  | O => raise (raise_local "error" error)
  | S n' =>
      r ← try (external (EvOpenAICreate cnt req) (openai_create w cnt req));
      match r with
      | inl e =>
          print_retry cnt e sleep_time ;;
          time_sleep sleep_time ;;
          gpt_loop w req json_object sleep_time n' (S cnt) (Bound e)
      | inr result =>
          r2 ← try (lift (gpt_normalize json_object result));
          match r2 with
          | inr v => mret v
          | inl e =>
              emit (EvPrintResult (gpt_printed json_object result)) ;;
              emit (EvPrintJsonError cnt e) ;;
              gpt_loop w req json_object sleep_time n' (S cnt) error
          end
      end
  end.

Definition get_gpt_output (w : World) (rq : Request)
  (max_retry sleep_time : nat) : M value :=
  gpt_loop w (gpt_request rq) (json_object rq) sleep_time max_retry 0 Unbound.

(** ** complete_text_claude (family B) *)

(** Lines 95-100: the client is created under a [try] whose handler only
    prints; the result says whether [anthropic_client] got bound. *)
Definition claude_setup (w : World) : M bool :=
  let api_key := environ w "ANTHROPIC_API_KEY" in
  r ← try (external (EvAnthropicInit api_key)
             (match anthropic_init w api_key with
              | Some e => inl e
              | None => inr tt
              end));
  match r with
  | inl e =>
      emit (EvPrintExn e) ;;
      emit (EvPrintStr "Anthropic API key not found.") ;;
      mret false
  | inr _ => mret true
  end.

(** Lines 102-110. *)
Definition claude_messages (rq : Request) : list Turn :=
  let messages :=
    match message rq with
    | MsgStr s =>
        if json_object rq
        then [user_turn ("You are a helpful assistant designed to output in JSON format." +:+ s)]
        else [user_turn s]
    | MsgTurns l => l
    end in
  match history rq with
  | Some h => h ++ messages
  | None => messages
  end.

Definition claude_request (rq : Request) (kwargs : list string) : ClaudeRequest :=
  {| cl_messages := claude_messages rq;
     cl_model := model rq;
     cl_temperature := temperature rq;
     cl_max_tokens := max_tokens rq;
     cl_tools := tools rq;
     cl_kwargs := kwargs |}.

(** Reading the text of a response object. *)
Definition response_text (r : raw_response) : exn + value :=
  match raw_text r with
  | inl e => inl e
  | inr t => inr (VText t)
  end.

(** Lines 116-125, the body of the first [try]; with [anthropic_client]
    unbound, evaluating the name raises. *)
Definition claude_attempt (w : World) (client_bound : bool)
  (req : ClaudeRequest) (return_raw : bool) (cnt : nat) : M value :=
  if client_bound then
    result ← external (EvAnthropicCreate cnt req) (anthropic_create w cnt req);
    if negb return_raw then lift (response_text result) else mret (VRaw result)
  else raise (UnboundLocalError "anthropic_client").

(** Lines 131-134 and 235-238, the body of the second [try] of families B
    and C: the whole text goes to [json.loads] (which rejects what is not
    text with a TypeError; with [return_raw] unset the result is text). *)
Definition parse_or_return (json_object return_raw : bool) (result : value)
  : exn + value :=
  if (json_object && negb return_raw)%bool then
    match result with
    | VText t => json_loads t
    | _ => inl (TypeError "the JSON object must be str, bytes or bytearray")
    end
  else inr result.

(** Lines 114-138 and 191-242: the retry loop of families B and C around
    an [attempt]; [e] is the local variable of that name, which each except
    clause binds and deletes on exit. *)
Fixpoint retry_loop (attempt : nat -> M value) (json_object return_raw : bool)
  (sleep_time : nat) (n cnt : nat) (e : local_var) : M value :=
  match n with
  | O => raise (raise_local "e" e)
  | S n' =>
      r ← try (attempt cnt);
      match r with
      | inl e1 =>
          print_retry cnt e1 sleep_time ;;
          time_sleep sleep_time ;;
          retry_loop attempt json_object return_raw sleep_time n' (S cnt) Unbound
      | inr result =>
          r2 ← try (lift (parse_or_return json_object return_raw result));
          match r2 with
          | inr v => mret v
          | inl e2 =>
              emit (EvPrintResult result) ;;
              emit (EvPrintJsonError cnt e2) ;;
              retry_loop attempt json_object return_raw sleep_time n' (S cnt) Unbound
          end
      end
  end.

Definition complete_text_claude (w : World) (rq : Request)
  (max_retry sleep_time : nat) (kwargs : list string) : M value :=
  client_bound ← claude_setup w;
  retry_loop
    (claude_attempt w client_bound (claude_request rq kwargs) (return_raw rq))
    (json_object rq) (return_raw rq) sleep_time max_retry 0 BoundNone.

(** ** complete_text_gemini (family C) *)

(** Lines 153-164: any failure of the set-up is printed and raised again
    (inside the handler, where [e] is still bound). *)
Definition gemini_setup (w : World) : M unit :=
  r ← try (match environ w "GEMINI_API_KEY" with
           | None | Some EmptyString =>
               raise (ValueError "GEMINI_API_KEY environment variable not found.")
           | Some api_key =>
               if negb (genai_imported w) then
                 raise (ImportError "google-generativeai package not installed. Please install it with: pip install google-generativeai")
               else
                 external (EvGenaiConfigure api_key)
                   (match genai_configure w api_key with
                    | Some e => inl e
                    | None => inr tt
                    end)
           end);
  match r with
  | inl e =>
      emit (EvPrintExn e) ;;
      emit (EvPrintStr "Gemini API setup failed.") ;;
      raise e
  | inr _ => mret tt
  end.

(** Lines 173-177 and 182-186: the conversion loop; a turn whose role is
    neither "user" nor "assistant" is appended nowhere. *)
Fixpoint gemini_convert (msgs : list Turn) : list GeminiTurn :=
  match msgs with
  | [] => []
  | msg :: rest =>
      if String.eqb (role msg) "user" then
        {| g_role := "user"; g_parts := [content msg] |} :: gemini_convert rest
      else if String.eqb (role msg) "assistant" then
        {| g_role := "model"; g_parts := [content msg] |} :: gemini_convert rest
      else gemini_convert rest
  end.

(** Lines 167-187. *)
Definition gemini_messages (rq : Request) : list GeminiTurn :=
  let messages :=
    match message rq with
    | MsgStr s =>
        if json_object rq
        then [ {| g_role := "user";
                  g_parts := ["You are a helpful assistant designed to output in JSON format. " +:+ s] |} ]
        else [ {| g_role := "user"; g_parts := [s] |} ]
    | MsgTurns l => gemini_convert l
    end in
  match history rq with
  | Some h => gemini_convert h ++ messages
  | None => messages
  end.

(** [t["parts"][0]] *)
Definition first_part (t : GeminiTurn) : exn + string :=
  match g_parts t with
  | p :: _ => inr p
  | [] => inl (IndexError "list index out of range")
  end.

(** Lines 212-223: which invocation is made.  [len(messages) == 1] is the
    one-element pattern; otherwise the chat is seeded with [messages[:-1]]
    and the live message is taken from [messages[-1]], which raises
    IndexError on the empty list. *)
Definition gemini_call_of (model : string) (messages : list GeminiTurn)
  (generation_config : GenerationConfig) : exn + GeminiCall :=
  match messages with
  | [m] =>
      match first_part m with
      | inr prompt => inr (GenerateContent model prompt generation_config)
      | inl e => inl e
      end
  | _ =>
      match last messages with
      | Some m =>
          match first_part m with
          | inr prompt =>
              inr (SendMessage model (removelast messages) prompt generation_config)
          | inl e => inl e
          end
      | None => inl (IndexError "list index out of range")
      end
  end.

(** Lines 194-209: both branches of [model.startswith("gemma")] build the
    same model and the same configuration. *)
Definition gemini_generation_config (model : string) (max_tokens : Z)
  (temperature : Q) (kwargs : list string) : GenerationConfig :=
  if PyStr.startswith "gemma" model
  then {| max_output_tokens := max_tokens; gc_temperature := temperature;
          gc_kwargs := kwargs |}
  else {| max_output_tokens := max_tokens; gc_temperature := temperature;
          gc_kwargs := kwargs |}.

(** Line 219: the chat that has been started when [messages[-1]] is
    indexed, on [messages[:-1]]; none when [len(messages) == 1]. *)
Definition gemini_started_chat (messages : list GeminiTurn)
  : option (list GeminiTurn) :=
  match messages with
  | [_] => None
  | _ => Some (removelast messages)
  end.

(** Lines 194-228, the body of the first [try].  The calls of the SDK come
    in the order of the code: [GenerativeModel] and [GenerationConfig],
    [start_chat] for a conversation that is not of length one, and then
    [generate_content] or [send_message] on the text indexed from
    [messages].  When the indexing succeeds they are answered together by
    [genai_call].  When it raises (the conversation is empty), the calls
    that precede it have been made, and an exception of theirs is the one
    of the attempt: [genai_prepare] is asked first. *)
Definition gemini_attempt (w : World) (model : string)
  (messages : list GeminiTurn) (max_tokens : Z) (temperature : Q)
  (kwargs : list string) (return_raw : bool) (cnt : nat) : M value :=
  let generation_config :=
    gemini_generation_config model max_tokens temperature kwargs in
  match gemini_call_of model messages generation_config with
  | inr call =>
      response ← external (EvGenaiCall cnt call) (genai_call w cnt call);
      if return_raw then mret (VRaw response) else lift (response_text response)
  | inl index_error =>
      lift (match genai_prepare w cnt model generation_config
                    (gemini_started_chat messages) with
            | Some e => inl e
            | None => inr tt
            end) ;;
      raise index_error
  end.

Definition complete_text_gemini (w : World) (rq : Request)
  (max_retry sleep_time : nat) (kwargs : list string) : M value :=
  gemini_setup w ;;
  retry_loop
    (gemini_attempt w (model rq) (gemini_messages rq) (max_tokens rq)
       (temperature rq) kwargs (return_raw rq))
    (json_object rq) (return_raw rq) sleep_time max_retry 0 BoundNone.

(** ** complete_text_hf (family D) *)

(** Lines 270-289: the handler prints and sleeps, and falls through to the
    next iteration; [e] is bound only inside the handler. *)
Fixpoint hf_loop (w : World) (m : hf_model) (t : hf_tokenizer)
  (args : GenerateArgs) (sleep_time : nat) (n cnt : nat) (e : local_var)
  : M value :=
  match n with
  | O => raise (raise_local "e" e)
  | S n' =>
      r ← try (external (EvHfGenerate cnt args) (hf_generate w cnt m t args));
      match r with
      | inr completion => mret (VText completion)
      | inl e1 =>
          emit (EvPrintHfRetry cnt e1) ;;
          time_sleep sleep_time ;;
          hf_loop w m t args sleep_time n' (S cnt) Unbound
      end
  end.

(** Lines 259-264: the look-up in [loaded_hf_models] and, on a miss, the
    two loads and the insertion. *)
Definition hf_lookup_or_load (w : World) (checkpoint : string) (d : device)
  : M (hf_model * hf_tokenizer) :=
  c ← get_cache;
  match c !! checkpoint with
  | Some loaded => mret loaded
  | None =>
      m ← external (EvLoadModel checkpoint d) (hf_load_model w checkpoint d);
      t ← external (EvLoadTokenizer checkpoint) (hf_load_tokenizer w checkpoint);
      set_cache (<[checkpoint := (m, t)]> c) ;;
      mret (m, t)
  end.

(** Lines 255-256: the JSON instruction is concatenated to the message,
    which raises TypeError when the message is a list. *)
Definition hf_prompt (json_object : bool) (message : Message) : exn + Message :=
  if json_object then
    match message with
    | MsgStr s =>
        inr (MsgStr ("You are a helpful assistant designed to output in JSON format." +:+ s))
    | MsgTurns _ =>
        inl (TypeError ("can only concatenate str (not " +:+ dq +:+ "list" +:+ dq +:+ ") to str"))
    end
  else inr message.

(** Line 257. *)
Definition hf_device (w : World) : device :=
  if cuda_is_available w then Cuda else Cpu.

(** Lines 255-269: everything before the loop, none of it under a [try];
    the result is the model, the tokenizer and the arguments of
    [hf_model.generate]. *)
Definition hf_prepare (w : World) (message : Message) (model : string)
  (max_tokens : Z) (temperature : Q) (json_object : bool)
  (kwargs : list string) : M (hf_model * hf_tokenizer * GenerateArgs) :=
  message ← lift (hf_prompt json_object message);
  let d := hf_device w in
  checkpoint ←
    match PyStr.split1_second model "/" with
    | Some name => mret name
    | None => raise (IndexError "list index out of range")
    end;
  loaded ← hf_lookup_or_load w checkpoint d;
  encoded_input ← external (EvTokenize message) (hf_tokenize w (snd loaded) message d);
  mret (fst loaded, snd loaded,
        {| ga_input_ids := encoded_input; ga_temperature := temperature;
           ga_max_new_tokens := max_tokens; ga_kwargs := kwargs |}).

Definition complete_text_hf (w : World) (message : Message) (model : string)
  (max_tokens : Z) (temperature : Q) (json_object : bool)
  (max_retry sleep_time : nat) (kwargs : list string) : M value :=
  p ← hf_prepare w message model max_tokens temperature json_object kwargs;
  hf_loop w (fst (fst p)) (snd (fst p)) (snd p) sleep_time max_retry 0 Unbound.

(** ** get_llm_output_tools, the dispatcher *)

Definition registered (model : string) : bool :=
  existsb (String.eqb model) registered_text_completion_llms.

Definition warn_unregistered (model : string) : M unit :=
  if negb (registered model)
  then emit (EvWarn ("Model " +:+ model +:+ " is not registered. You may still be able to use it."))
  else mret tt.

(** Lines 303-326.  The local caller has no parameter named [history],
    [tools] or [return_raw]: these three keys of the dict land in its
    [**kwargs], and it runs with its own defaults [max_retry=1] and
    [sleep_time=0]. *)
Definition get_llm_output_tools (w : World) (rq : Request) : M value :=
  warn_unregistered (model rq) ;;
  if PyStr.contains "gpt-4" (model rq) then
    get_gpt_output w rq MAX_OPENAI_RETRY OPENAI_SLEEP_TIME
  else if PyStr.contains "claude" (model rq) then
    complete_text_claude w rq MAX_CLAUDE_RETRY CLAUDE_SLEEP_TIME []
  else if (PyStr.contains "gemma" (model rq) || PyStr.contains "gemini" (model rq))%bool then
    complete_text_gemini w rq MAX_GEMINI_RETRY GEMINI_SLEEP_TIME []
  else if PyStr.contains "huggingface" (model rq) then
    complete_text_hf w (message rq) (model rq) (max_tokens rq) (temperature rq)
      (json_object rq) 1 0 ["history"; "tools"; "return_raw"]
  else raise (ValueError ("Model " +:+ model rq +:+ " not recognized.")).

(** ** Observations on a run *)

(** [prepend evs o]: the run [o] after the events [evs]. *)
Definition prepend {A} (evs : list event) (o : outcome A) : outcome A :=
  mkOut (evs ++ out_trace o) (out_cache o) (out_result o).

Definition is_sleep (ev : event) : bool :=
  match ev with
  | EvSleep _ => true
  | _ => false
  end.

(** The invocations of a collaborator outside the process. *)
Definition is_backend_call (ev : event) : bool :=
  match ev with
  | EvOpenAICreate _ _ | EvAnthropicInit _ | EvAnthropicCreate _ _
  | EvGenaiConfigure _ | EvGenaiCall _ _
  | EvLoadModel _ _ | EvLoadTokenizer _ | EvTokenize _ | EvHfGenerate _ _ => true
  | _ => false
  end.

Definition is_load (ev : event) : bool :=
  match ev with
  | EvLoadModel _ _ | EvLoadTokenizer _ => true
  | _ => false
  end.

(** [to_result r]: the result of a step that returns or raises as [r]. *)
Definition to_result {A} (r : exn + A) : result A :=
  match r with
  | inl e => Raise e
  | inr a => Return a
  end.

(** What attempt [cnt] of family A comes to: the answer of the backend,
    then lines 73-77. *)
Definition gpt_attempt_outcome (w : World) (req : OpenAIRequest)
  (json_object : bool) (cnt : nat) : exn + value :=
  match openai_create w cnt req with
  | inl e => inl e
  | inr text => gpt_normalize json_object text
  end.

(** What the first [try] of family B gives in attempt [cnt] once the
    client exists. *)
Definition claude_fetch (w : World) (req : ClaudeRequest) (return_raw : bool)
  (cnt : nat) : exn + value :=
  match anthropic_create w cnt req with
  | inl e => inl e
  | inr r => if negb return_raw then response_text r else inr (VRaw r)
  end.

(** What the first [try] of family C gives in attempt [cnt]. *)
Definition gemini_fetch (w : World) (call : exn + GeminiCall)
  (return_raw : bool) (cnt : nat) : exn + value :=
  match call with
  | inl e => inl e
  | inr call =>
      match genai_call w cnt call with
      | inl e => inl e
      | inr r => if return_raw then inr (VRaw r) else response_text r
      end
  end.

(** What the first [try] of family C gives in attempt [cnt] for the
    conversation [messages]. *)
Definition gemini_attempt_fetch (w : World) (model : string)
  (messages : list GeminiTurn) (generation_config : GenerationConfig)
  (return_raw : bool) (cnt : nat) : exn + value :=
  match gemini_call_of model messages generation_config with
  | inr call => gemini_fetch w (inr call) return_raw cnt
  | inl index_error =>
      inl (match genai_prepare w cnt model generation_config
                   (gemini_started_chat messages) with
           | Some e => e
           | None => index_error
           end)
  end.

(** What an attempt of family B or C comes to: the first [try], then the
    second. *)
Definition attempt_outcome (fetch : nat -> exn + value)
  (json_object return_raw : bool) (cnt : nat) : exn + value :=
  match fetch cnt with
  | inl e => inl e
  | inr v => parse_or_return json_object return_raw v
  end.

(** [rq] with another [history], another [return_raw]. *)
Definition with_history (h : option (list Turn)) (rq : Request) : Request :=
  {| message := message rq; tools := tools rq; model := model rq;
     max_tokens := max_tokens rq; temperature := temperature rq;
     json_object := json_object rq; history := h;
     return_raw := return_raw rq |}.

Definition with_return_raw (b : bool) (rq : Request) : Request :=
  {| message := message rq; tools := tools rq; model := model rq;
     max_tokens := max_tokens rq; temperature := temperature rq;
     json_object := json_object rq; history := history rq;
     return_raw := b |}.

(** [sub] occurs in [s]. *)
Definition Substring (sub s : string) : Prop :=
  exists pre post, s = pre +:+ sub +:+ post.

(** The events of [claude_setup]. *)
Definition claude_setup_trace (w : World) : list event :=
  EvAnthropicInit (environ w "ANTHROPIC_API_KEY")
  :: match anthropic_init w (environ w "ANTHROPIC_API_KEY") with
     | Some e => [EvPrintExn e; EvPrintStr "Anthropic API key not found."]
     | None => []
     end.

(** The events of [warn_unregistered]. *)
Definition warning_trace (model : string) : list event :=
  if registered model then []
  else [EvWarn ("Model " +:+ model +:+ " is not registered. You may still be able to use it.")].

(** What lines 266-269 give for a loaded pair: the tokenised prompt with
    the model, the tokenizer and the generation arguments, or the exception
    of the tokenizer. *)
Definition hf_prepared (w : World) (max_tokens : Z) (temperature : Q)
  (kwargs : list string) (m : hf_model) (t : hf_tokenizer) (prompt : Message)
  : result (hf_model * hf_tokenizer * GenerateArgs) :=
  match hf_tokenize w t prompt (hf_device w) with
  | inl e => Raise e
  | inr ids =>
      Return (m, t, {| ga_input_ids := ids; ga_temperature := temperature;
                       ga_max_new_tokens := max_tokens; ga_kwargs := kwargs |})
  end.

(** The roles of the generic turn representation. *)
Definition known_role (t : Turn) : Prop :=
  role t = "user" \/ role t = "assistant".

(** A turn in the schema of the multimodal backend, "assistant" renamed
    to "model". *)
Definition rename_role (t : Turn) : GeminiTurn :=
  {| g_role := if String.eqb (role t) "assistant" then "model" else role t;
     g_parts := [content t] |}.

(** ** Test vectors *)

(** The response text of the worked example: Sure! {"a": 1} Thanks *)
Definition sure_thanks : string :=
  "Sure! {" +:+ dq +:+ "a" +:+ dq +:+ ": 1} Thanks".

(** An exception of a vendor SDK. *)
Definition rate_limit : exn := SdkError "RateLimitError" "429 Too Many Requests".

(** An environment that holds both credentials. *)
Definition test_environ (name : string) : option string :=
  if String.eqb name "GEMINI_API_KEY" then Some "g-key"
  else if String.eqb name "ANTHROPIC_API_KEY" then Some "a-key"
  else None.

(** A response object whose text is [text]. *)
Definition text_response (text : string) : raw_response :=
  {| raw_body := text; raw_text := inr text |}.

(** A world in which attempt [cnt] of every backend raises or answers the
    text [answer cnt], every set-up step succeeds and the checkpoint loads. *)
Definition test_world (answer : nat -> exn + string) : World :=
  {| environ := test_environ;
     openai_create := fun cnt _ => answer cnt;
     anthropic_init := fun _ => None;
     anthropic_create := fun cnt _ =>
       match answer cnt with
       | inl e => inl e
       | inr text => inr (text_response text)
       end;
     genai_imported := true;
     genai_configure := fun _ => None;
     genai_call := fun cnt _ =>
       match answer cnt with
       | inl e => inl e
       | inr text => inr (text_response text)
       end;
     genai_prepare := fun _ _ _ _ => None;
     cuda_is_available := false;
     hf_load_model := fun _ _ => inr {| model_handle := 7 |};
     hf_load_tokenizer := fun _ => inr {| tokenizer_handle := 8 |};
     hf_tokenize := fun _ _ _ => inr [1; 2; 3];
     hf_generate := fun cnt _ _ _ => answer cnt |}.

(** The request [message="hi"] for [model], everything else at the defaults
    of [get_llm_output_tools] except [json_object]. *)
Definition test_request (model : string) (json_object : bool) : Request :=
  {| message := MsgStr "hi"; tools := []; model := model; max_tokens := 2048;
     temperature := 1%Q; json_object := json_object; history := None;
     return_raw := false |}.

(** The history of the worked example, [user:A, assistant:B], with the
    message "C". *)
Definition history_AB : list Turn :=
  [ {| role := "user"; content := "A" |};
    {| role := "assistant"; content := "B" |} ].

Definition request_ABC : Request :=
  {| message := MsgStr "C"; tools := []; model := "gpt-4-0125-preview";
     max_tokens := 2048; temperature := 1%Q; json_object := false;
     history := Some history_AB; return_raw := false |}.

(** A world without credentials, in which the client of family B cannot be
    created and the generative-AI library is missing; the backends answer
    as in [test_world]. *)
Definition bare_world (answer : nat -> exn + string) : World :=
  {| environ := fun _ => None;
     openai_create := openai_create (test_world answer);
     anthropic_init := fun _ => Some (SdkError "AnthropicError" "no API key");
     anthropic_create := anthropic_create (test_world answer);
     genai_imported := false;
     genai_configure := fun _ => None;
     genai_call := genai_call (test_world answer);
     genai_prepare := genai_prepare (test_world answer);
     cuda_is_available := false;
     hf_load_model := hf_load_model (test_world answer);
     hf_load_tokenizer := hf_load_tokenizer (test_world answer);
     hf_tokenize := hf_tokenize (test_world answer);
     hf_generate := hf_generate (test_world answer) |}.

(** [bare_world] with the credential of family C set. *)
Definition keyed_world (answer : nat -> exn + string) : World :=
  {| environ := test_environ;
     openai_create := openai_create (test_world answer);
     anthropic_init := fun _ => Some (SdkError "AnthropicError" "no API key");
     anthropic_create := anthropic_create (test_world answer);
     genai_imported := false;
     genai_configure := fun _ => None;
     genai_call := genai_call (test_world answer);
     genai_prepare := genai_prepare (test_world answer);
     cuda_is_available := false;
     hf_load_model := hf_load_model (test_world answer);
     hf_load_tokenizer := hf_load_tokenizer (test_world answer);
     hf_tokenize := hf_tokenize (test_world answer);
     hf_generate := hf_generate (test_world answer) |}.

(** The embedded object of the worked example, {"a": 1}, as text and as
    the value it parses to. *)
Definition object_a1_text : string := "{" +:+ dq +:+ "a" +:+ dq +:+ ": 1}".

Definition object_a1 : json := JObj [("a", JInt 1)].

(** A backend whose first answer is the text "oops" and whose later
    attempts raise [rate_limit]. *)
Definition oops_then_raise (cnt : nat) : exn + string :=
  match cnt with
  | O => inr "oops"
  | S _ => inl rate_limit
  end.

(** A backend whose first attempt raises [rate_limit] and whose later
    attempts answer the text "fine". *)
Definition raise_then_fine (cnt : nat) : exn + string :=
  match cnt with
  | O => inl rate_limit
  | S _ => inr "fine"
  end.

(** ** Further observations *)

(** The seconds slept in a run. *)
Fixpoint total_sleep (tr : list event) : nat :=
  match tr with
  | [] => 0%nat
  | EvSleep secs :: rest => (secs + total_sleep rest)%nat
  | _ :: rest => total_sleep rest
  end.

(** The invocations of a backend made by the attempts of a retry loop. *)
Definition is_invocation (ev : event) : bool :=
  match ev with
  | EvOpenAICreate _ _ | EvAnthropicCreate _ _ | EvGenaiCall _ _
  | EvHfGenerate _ _ => true
  | _ => false
  end.

Definition invocations (tr : list event) : nat :=
  length (List.filter is_invocation tr).

(** The test of the conversion loop of family C on a role. *)
Definition known_roleb (t : Turn) : bool :=
  (String.eqb (role t) "user" || String.eqb (role t) "assistant")%bool.

(** [rq] with another [message]. *)
Definition with_message (m : Message) (rq : Request) : Request :=
  {| message := m; tools := tools rq; model := model rq;
     max_tokens := max_tokens rq; temperature := temperature rq;
     json_object := json_object rq; history := history rq;
     return_raw := return_raw rq |}.

(** The JSON instruction of family A (line 47). *)
Definition gpt_json_instruction : string :=
  "You are a helpful assistant designed to output JSON. ".

(** ** example_gemini_usage.py: test_gemini_api

    Lines 20-57 of the demonstration script.  [import_api] is what the
    statement [from avatar.tools.react.api import ...] does: [None] when
    the module loads, [Some e] when it raises [e]; the outer handler
    catches ImportError only.  A print of an f-string that holds the
    response or an exception is logged as the print of that response or
    exception. *)

Definition test_request_gemma : Request :=
  {| message := MsgStr "What is the capital of France?"; tools := [];
     model := "gemma-3-27b-it"; max_tokens := 100; temperature := (7 # 10)%Q;
     json_object := false; history := None; return_raw := false |}.

Definition test_gemini_api (w : World) (import_api : option exn) : M bool :=
  match environ w "GEMINI_API_KEY" with
  | None | Some EmptyString =>
      emit (EvPrintStr "❌ GEMINI_API_KEY environment variable not set.") ;;
      emit (EvPrintStr "Please set it with: export GEMINI_API_KEY=your_api_key_here") ;;
      mret false
  | Some _ =>
      r ← try (
        lift (match import_api with
              | Some e => inl e
              | None => inr tt
              end) ;;
        emit (EvPrintStr "Testing Gemini text completion...") ;;
        emit (EvPrintStr "Input: What is the capital of France?") ;;
        r2 ← try (complete_text_gemini w test_request_gemma 5 30 []);
        match r2 with
        | inr response =>
            emit (EvPrintResult response) ;;
            mret true
        | inl api_error =>
            emit (EvPrintExn api_error) ;;
            emit (EvPrintStr "✓ Gemini integration is properly configured (function exists and can be called)") ;;
            mret true
        end);
      match r with
      | inr b => mret b
      | inl (ImportError text) =>
          emit (EvPrintExn (ImportError text)) ;;
          emit (EvPrintStr "Make sure google-generativeai is installed: pip install google-generativeai") ;;
          mret false
      | inl e => raise e
      end
  end.

(** A world in which the model of a checkpoint loads and its tokenizer
    does not. *)
Definition offline_world : World :=
  {| environ := test_environ;
     openai_create := fun _ _ => inl rate_limit;
     anthropic_init := fun _ => None;
     anthropic_create := fun _ _ => inl rate_limit;
     genai_imported := true;
     genai_configure := fun _ => None;
     genai_call := fun _ _ => inl rate_limit;
     genai_prepare := fun _ _ _ _ => None;
     cuda_is_available := false;
     hf_load_model := fun _ _ => inr {| model_handle := 7 |};
     hf_load_tokenizer := fun _ => inl (SdkError "OSError" "tokenizer files not found");
     hf_tokenize := fun _ _ _ => inr [1; 2; 3];
     hf_generate := fun _ _ _ _ => inr "unused" |}.

(** ** example_gemini_usage.py: demo_model_routing

    Line 66, the registered identifiers that the script lists as models of
    the multimodal family (the order of a Python set is not fixed; only
    membership is used). *)
Definition gemini_models : list string :=
  List.filter (fun model => (PyStr.contains "gemma" model
                             || PyStr.contains "gemini" model)%bool)
    registered_text_completion_llms.

(** Line 71, the identifiers the script reports as routed to
    [complete_text_gemini]. *)
Definition test_models : list string := ["gemma-3-27b-it"; "gemini-1.5-flash"].

(** A history that opens with a turn of another role, [system:S,
    assistant:B], with the message "C". *)
Definition history_SB : list Turn :=
  [ {| role := "system"; content := "S" |};
    {| role := "assistant"; content := "B" |} ].

Definition request_SBC : Request :=
  {| message := MsgStr "C"; tools := []; model := "gemini-1.5-flash";
     max_tokens := 2048; temperature := 1%Q; json_object := false;
     history := Some history_SB; return_raw := false |}.

(** * Properties *)

(** ** Checks of the string and JSON operations *)

Example find_ex : PyStr.find sure_thanks "{" = 6.
Proof. reflexivity. Qed.

Example rfind_ex : PyStr.rfind sure_thanks "}" = 13.
Proof. reflexivity. Qed.

Example slice_ex :
  PyStr.slice sure_thanks 6 (13 + 1) = "{" +:+ dq +:+ "a" +:+ dq +:+ ": 1}".
Proof. reflexivity. Qed.

Example slice_none_ex : PyStr.slice "no braces" (-1) (-1 + 1) = "".
Proof. reflexivity. Qed.

Example split_ex :
  PyStr.split1_second "huggingface/codellama/CodeLlama-7b-hf" "/"
  = Some "codellama/CodeLlama-7b-hf".
Proof. reflexivity. Qed.

Example loads_obj :
  Json.loads ("{" +:+ dq +:+ "a" +:+ dq +:+ ": 1}") = Some (JObj [("a", JInt 1)]).
Proof. vm_compute. reflexivity. Qed.

Example loads_sure : Json.loads sure_thanks = None.
Proof. vm_compute. reflexivity. Qed.

Example loads_empty : Json.loads "" = None.
Proof. vm_compute. reflexivity. Qed.

Example loads_nested :
  Json.loads (" [1, -2.5e3, true, null, {" +:+ dq +:+ "k" +:+ dq +:+ " : [ ]}, "
              +:+ dq +:+ "x\ny" +:+ dq +:+ "] ")
  = Some (JArr [JInt 1; JFloat "-2.5e3"; JBool true; JNull;
                JObj [("k", JArr [])]; JStr ("x" +:+ String "010" "y")]).
Proof. vm_compute. reflexivity. Qed.

Example loads_trailing_comma : Json.loads "[1,]" = None.
Proof. vm_compute. reflexivity. Qed.

Example loads_scalar : Json.loads "42" = Some (JInt 42).
Proof. vm_compute. reflexivity. Qed.

Example loads_duplicate_key :
  Json.loads ("{" +:+ dq +:+ "a" +:+ dq +:+ ":1," +:+ dq +:+ "a" +:+ dq +:+ ":2}")
  = Some (JObj [("a", JInt 2)]).
Proof. vm_compute. reflexivity. Qed.

Example loads_lone_brace : Json.loads "}" = None.
Proof. vm_compute. reflexivity. Qed.

Example slice_clamped :
  PyStr.slice "abcdef" (-100) 2 = "ab" /\ PyStr.slice "abcdef" 4 100 = "ef".
Proof. split; reflexivity. Qed.

(** When every attempt of family A fails in the JSON step, no exception was
    ever stored in [error], and the final [raise error] finds it unbound. *)
Example gpt_parse_failures_only :
  out_result (get_gpt_output (test_world (fun _ => inr "nope"))
                (test_request "gpt-4-0125-preview" true) 2 60 ∅)
  = Raise (UnboundLocalError "error").
Proof. vm_compute. reflexivity. Qed.

(** ** The steps of the three retry loops *)

Ltac run_monad :=
  cbv [mbind mret M_bind M_ret try external lift emit raise print_retry
       time_sleep get_cache set_cache prepend out_trace out_cache out_result];
  cbn [app].

Lemma prepend_nil {A} (o : outcome A) : prepend [] o = o.
Proof. destruct o; reflexivity. Qed.

Lemma prepend_app {A} (l1 l2 : list event) (o : outcome A) :
  prepend (l1 ++ l2) o = prepend l1 (prepend l2 o).
Proof. unfold prepend; cbn. by rewrite app_assoc. Qed.

Section GptSteps.
Variables (w : World) (req : OpenAIRequest) (json_object : bool) (sleep_time : nat).

Lemma gpt_loop_call_raises n cnt error c e :
  openai_create w cnt req = inl e ->
  gpt_loop w req json_object sleep_time (S n) cnt error c
  = prepend [EvOpenAICreate cnt req; EvPrintRetry cnt e sleep_time; EvSleep sleep_time]
      (gpt_loop w req json_object sleep_time n (S cnt) (Bound e) c).
Proof.
  intros H. cbn [gpt_loop]. run_monad. rewrite H.
  destruct (gpt_loop w req json_object sleep_time n (S cnt) (Bound e) c); reflexivity.
Qed.

Lemma gpt_loop_returns n cnt error c result v :
  openai_create w cnt req = inr result ->
  gpt_normalize json_object result = inr v ->
  gpt_loop w req json_object sleep_time (S n) cnt error c
  = mkOut [EvOpenAICreate cnt req] c (Return v).
Proof.
  intros H Hv. cbn [gpt_loop]. run_monad. rewrite H, Hv. reflexivity.
Qed.

Lemma gpt_loop_parse_raises n cnt error c result e :
  openai_create w cnt req = inr result ->
  gpt_normalize json_object result = inl e ->
  gpt_loop w req json_object sleep_time (S n) cnt error c
  = prepend [EvOpenAICreate cnt req;
             EvPrintResult (gpt_printed json_object result);
             EvPrintJsonError cnt e]
      (gpt_loop w req json_object sleep_time n (S cnt) error c).
Proof.
  intros H Hv. cbn [gpt_loop]. run_monad. rewrite H, Hv.
  destruct (gpt_loop w req json_object sleep_time n (S cnt) error c); reflexivity.
Qed.

End GptSteps.

Section RetrySteps.
Variables (attempt : nat -> M value) (json_object return_raw : bool)
  (sleep_time : nat).

Lemma retry_loop_attempt_raises n cnt e c tr c1 e1 :
  attempt cnt c = mkOut tr c1 (Raise e1) ->
  retry_loop attempt json_object return_raw sleep_time (S n) cnt e c
  = prepend (tr ++ [EvPrintRetry cnt e1 sleep_time; EvSleep sleep_time])
      (retry_loop attempt json_object return_raw sleep_time n (S cnt) Unbound c1).
Proof.
  intros H. cbn [retry_loop]. run_monad. rewrite H.
  destruct (retry_loop attempt json_object return_raw sleep_time n (S cnt) Unbound c1).
  cbn. by rewrite <- app_assoc.
Qed.

Lemma retry_loop_returns n cnt e c tr c1 result v :
  attempt cnt c = mkOut tr c1 (Return result) ->
  parse_or_return json_object return_raw result = inr v ->
  retry_loop attempt json_object return_raw sleep_time (S n) cnt e c
  = mkOut tr c1 (Return v).
Proof.
  intros H Hv. cbn [retry_loop]. run_monad. rewrite H, Hv. cbn.
  by rewrite app_nil_r.
Qed.

Lemma retry_loop_parse_raises n cnt e c tr c1 result e2 :
  attempt cnt c = mkOut tr c1 (Return result) ->
  parse_or_return json_object return_raw result = inl e2 ->
  retry_loop attempt json_object return_raw sleep_time (S n) cnt e c
  = prepend (tr ++ [EvPrintResult result; EvPrintJsonError cnt e2])
      (retry_loop attempt json_object return_raw sleep_time n (S cnt) Unbound c1).
Proof.
  intros H Hv. cbn [retry_loop]. run_monad. rewrite H, Hv.
  destruct (retry_loop attempt json_object return_raw sleep_time n (S cnt) Unbound c1).
  cbn. by rewrite <- app_assoc.
Qed.

End RetrySteps.

Section HfSteps.
Variables (w : World) (m : hf_model) (t : hf_tokenizer) (args : GenerateArgs)
  (sleep_time : nat).

Lemma hf_loop_generate_raises n cnt e c e1 :
  hf_generate w cnt m t args = inl e1 ->
  hf_loop w m t args sleep_time (S n) cnt e c
  = prepend [EvHfGenerate cnt args; EvPrintHfRetry cnt e1; EvSleep sleep_time]
      (hf_loop w m t args sleep_time n (S cnt) Unbound c).
Proof.
  intros H. cbn [hf_loop]. run_monad. rewrite H.
  destruct (hf_loop w m t args sleep_time n (S cnt) Unbound c); reflexivity.
Qed.

Lemma hf_loop_returns n cnt e c completion :
  hf_generate w cnt m t args = inr completion ->
  hf_loop w m t args sleep_time (S n) cnt e c
  = mkOut [EvHfGenerate cnt args] c (Return (VText completion)).
Proof.
  intros H. cbn [hf_loop]. run_monad. rewrite H. reflexivity.
Qed.

End HfSteps.

(** ** The attempts of families B and C *)

Lemma claude_attempt_unbound w req return_raw cnt c :
  claude_attempt w false req return_raw cnt c
  = mkOut [] c (Raise (UnboundLocalError "anthropic_client")).
Proof. reflexivity. Qed.

Lemma claude_attempt_run w req return_raw cnt c :
  claude_attempt w true req return_raw cnt c
  = mkOut [EvAnthropicCreate cnt req] c (to_result (claude_fetch w req return_raw cnt)).
Proof.
  unfold claude_attempt, claude_fetch. run_monad.
  destruct (anthropic_create w cnt req) as [e|r]; [reflexivity|].
  destruct return_raw; cbn; [reflexivity|].
  destruct (response_text r); reflexivity.
Qed.

Lemma gemini_attempt_run w model messages max_tokens temperature kwargs return_raw cnt c :
  let call := gemini_call_of model messages
                (gemini_generation_config model max_tokens temperature kwargs) in
  gemini_attempt w model messages max_tokens temperature kwargs return_raw cnt c
  = mkOut (match call with
           | inr cl => [EvGenaiCall cnt cl]
           | inl _ => []
           end) c
      (to_result (gemini_attempt_fetch w model messages
                    (gemini_generation_config model max_tokens temperature kwargs)
                    return_raw cnt)).
Proof.
  intros call. unfold gemini_attempt, gemini_attempt_fetch, gemini_fetch. fold call.
  cbv zeta. destruct call as [e|cl].
  - run_monad. by destruct (genai_prepare w cnt _ _ _).
  - run_monad. destruct (genai_call w cnt cl) as [e|r]; [reflexivity|].
    destruct return_raw; cbn; [reflexivity|].
    destruct (response_text r); reflexivity.
Qed.

Lemma gemini_attempt_run_call w model messages max_tokens temperature kwargs
    return_raw cnt c call :
  gemini_call_of model messages
    (gemini_generation_config model max_tokens temperature kwargs) = inr call ->
  gemini_attempt w model messages max_tokens temperature kwargs return_raw cnt c
  = mkOut [EvGenaiCall cnt call] c (to_result (gemini_fetch w (inr call) return_raw cnt)).
Proof.
  intros Hcall. rewrite gemini_attempt_run. cbv zeta.
  unfold gemini_attempt_fetch. by rewrite Hcall.
Qed.

(** ** Runs of the loop of family A *)

Section GptRuns.
Variables (w : World) (req : OpenAIRequest) (json_object : bool)
  (sleep_time : nat) (c : gmap string (hf_model * hf_tokenizer)).

(** The first attempt that comes to a value ends the loop, right after its
    invocation. *)
Lemma gpt_loop_first_return (k : nat) :
  forall (n cnt : nat) (error : local_var) (v : value),
    (forall i, (i < k)%nat ->
               exists e, gpt_attempt_outcome w req json_object (cnt + i) = inl e) ->
    gpt_attempt_outcome w req json_object (cnt + k) = inr v ->
    (k < n)%nat ->
    exists pre,
      gpt_loop w req json_object sleep_time n cnt error c
      = mkOut (pre ++ [EvOpenAICreate (cnt + k)%nat req]) c (Return v).
Proof.
  induction k as [|k IH]; intros n cnt error v Hfail Hok Hlt.
  - destruct n as [|n]; [lia|]. rewrite Nat.add_0_r in *.
    unfold gpt_attempt_outcome in Hok.
    destruct (openai_create w cnt req) as [e|text] eqn:Hcall; [discriminate|].
    exists []. by apply gpt_loop_returns with (result := text).
  - destruct n as [|n]; [lia|].
    destruct (Hfail 0%nat ltac:(lia)) as [e0 He0].
    rewrite Nat.add_0_r in He0.
    assert (Hfail' : forall i, (i < k)%nat ->
              exists e, gpt_attempt_outcome w req json_object (S cnt + i) = inl e).
    { intros i Hi. destruct (Hfail (S i) ltac:(lia)) as [e He].
      exists e. by rewrite Nat.add_succ_r in He. }
    rewrite Nat.add_succ_r in Hok |- *.
    unfold gpt_attempt_outcome in He0.
    destruct (openai_create w cnt req) as [e|text] eqn:Hcall.
    + destruct (IH n (S cnt) (Bound e) v Hfail' Hok ltac:(lia)) as [pre Hpre].
      eexists. rewrite (gpt_loop_call_raises _ _ _ _ _ _ _ _ _ Hcall), Hpre.
      unfold prepend; cbn [out_trace out_cache out_result].
      rewrite app_assoc. reflexivity.
    + destruct (IH n (S cnt) error v Hfail' Hok ltac:(lia)) as [pre Hpre].
      eexists. rewrite (gpt_loop_parse_raises _ _ _ _ _ _ _ _ _ _ Hcall He0), Hpre.
      unfold prepend; cbn [out_trace out_cache out_result].
      rewrite app_assoc. reflexivity.
Qed.

(** When every invocation raises, the variable [error] holds the exception
    of the last one at the final [raise error]. *)
Lemma gpt_loop_all_calls_raise (e : nat -> exn) (n : nat) :
  forall (cnt : nat) (error : local_var),
    (forall i, (i < n)%nat -> openai_create w (cnt + i) req = inl (e (cnt + i)%nat)) ->
    out_result (gpt_loop w req json_object sleep_time n cnt error c)
    = Raise (match n with
             | O => raise_local "error" error
             | S n' => e (cnt + n')%nat
             end).
Proof.
  induction n as [|n IH]; intros cnt error Hall; [reflexivity|].
  pose proof (Hall 0%nat ltac:(lia)) as H0. rewrite Nat.add_0_r in H0.
  rewrite (gpt_loop_call_raises _ _ _ _ _ _ _ _ _ H0).
  cbn [prepend out_result]. rewrite IH.
  - destruct n; cbn; [by rewrite Nat.add_0_r|]. by rewrite Nat.add_succ_r.
  - intros i Hi. specialize (Hall (S i) ltac:(lia)).
    by rewrite Nat.add_succ_r in Hall.
Qed.

(** A returned value is the normalised answer of some attempt. *)
Lemma gpt_loop_return_inv (n : nat) :
  forall (cnt : nat) (error : local_var) (v : value),
    out_result (gpt_loop w req json_object sleep_time n cnt error c) = Return v ->
    exists k text,
      (cnt <= k < cnt + n)%nat /\
      openai_create w k req = inr text /\
      gpt_normalize json_object text = inr v.
Proof.
  induction n as [|n IH]; intros cnt error v Hret; [discriminate|].
  destruct (openai_create w cnt req) as [e|text] eqn:Hcall.
  - rewrite (gpt_loop_call_raises _ _ _ _ _ _ _ _ _ Hcall) in Hret.
    destruct (IH _ _ _ Hret) as (k & t & Hk & H1 & H2).
    exists k, t. repeat split; try done; lia.
  - destruct (gpt_normalize json_object text) as [e|v'] eqn:Hnorm.
    + rewrite (gpt_loop_parse_raises _ _ _ _ _ _ _ _ _ _ Hcall Hnorm) in Hret.
      destruct (IH _ _ _ Hret) as (k & t & Hk & H1 & H2).
      exists k, t. repeat split; try done; lia.
    + rewrite (gpt_loop_returns _ _ _ _ _ _ _ _ _ _ Hcall Hnorm) in Hret.
      injection Hret as ->. exists cnt, text. repeat split; try done; lia.
Qed.

(** The loop of family A leaves [loaded_hf_models] alone. *)
Lemma gpt_loop_cache (n : nat) :
  forall (cnt : nat) (error : local_var),
    out_cache (gpt_loop w req json_object sleep_time n cnt error c) = c.
Proof.
  induction n as [|n IH]; intros cnt error; [reflexivity|].
  destruct (openai_create w cnt req) as [e|text] eqn:Hcall.
  - rewrite (gpt_loop_call_raises _ _ _ _ _ _ _ _ _ Hcall). apply IH.
  - destruct (gpt_normalize json_object text) as [e|v'] eqn:Hnorm.
    + rewrite (gpt_loop_parse_raises _ _ _ _ _ _ _ _ _ _ Hcall Hnorm). apply IH.
    + by rewrite (gpt_loop_returns _ _ _ _ _ _ _ _ _ _ Hcall Hnorm).
Qed.

(** Every event of the loop is an invocation with [req], a print of one
    of the two handlers, or a sleep of [sleep_time]. *)
Lemma gpt_loop_events (P : event -> Prop) (n : nat) :
  (forall cnt, P (EvOpenAICreate cnt req)) ->
  (forall cnt e, P (EvPrintRetry cnt e sleep_time)) ->
  P (EvSleep sleep_time) ->
  (forall v, P (EvPrintResult v)) ->
  (forall cnt e, P (EvPrintJsonError cnt e)) ->
  forall (cnt : nat) (error : local_var),
    Forall P (out_trace (gpt_loop w req json_object sleep_time n cnt error c)).
Proof.
  intros Hc Hp Hs Hr Hj. induction n as [|n IH]; intros cnt error; [constructor|].
  destruct (openai_create w cnt req) as [e|text] eqn:Hcall.
  - rewrite (gpt_loop_call_raises _ _ _ _ _ _ _ _ _ Hcall).
    cbn [prepend out_trace app]. repeat (constructor; [done|]). apply IH.
  - destruct (gpt_normalize json_object text) as [e|v'] eqn:Hnorm.
    + rewrite (gpt_loop_parse_raises _ _ _ _ _ _ _ _ _ _ Hcall Hnorm).
      cbn [prepend out_trace app]. repeat (constructor; [done|]). apply IH.
    + rewrite (gpt_loop_returns _ _ _ _ _ _ _ _ _ _ Hcall Hnorm).
      by repeat constructor.
Qed.

End GptRuns.

(** ** Runs of the loop of families B and C *)

Section RetryRuns.
Variables (attempt : nat -> M value) (json_object return_raw : bool)
  (sleep_time : nat) (c : gmap string (hf_model * hf_tokenizer)).
(** The attempts of both families log [tr cnt], leave the cache alone and
    return or raise as [fetch cnt]. *)
Variables (tr : nat -> list event) (fetch : nat -> exn + value).
Hypothesis attempt_run :
  forall cnt, attempt cnt c = mkOut (tr cnt) c (to_result (fetch cnt)).

Lemma retry_loop_step n cnt e :
  retry_loop attempt json_object return_raw sleep_time (S n) cnt e c
  = match fetch cnt with
    | inl e1 =>
        prepend (tr cnt ++ [EvPrintRetry cnt e1 sleep_time; EvSleep sleep_time])
          (retry_loop attempt json_object return_raw sleep_time n (S cnt) Unbound c)
    | inr result =>
        match parse_or_return json_object return_raw result with
        | inr v => mkOut (tr cnt) c (Return v)
        | inl e2 =>
            prepend (tr cnt ++ [EvPrintResult result; EvPrintJsonError cnt e2])
              (retry_loop attempt json_object return_raw sleep_time n (S cnt) Unbound c)
        end
    end.
Proof.
  pose proof (attempt_run cnt) as Hrun.
  destruct (fetch cnt) as [e1|result]; cbn [to_result] in Hrun.
  - by apply retry_loop_attempt_raises.
  - destruct (parse_or_return json_object return_raw result) as [e2|v] eqn:Hp.
    + by apply retry_loop_parse_raises.
    + by apply retry_loop_returns with (result := result).
Qed.

Lemma retry_loop_first_return (k : nat) :
  forall (n cnt : nat) (e : local_var) (v : value),
    (forall i, (i < k)%nat ->
               exists e1, attempt_outcome fetch json_object return_raw (cnt + i) = inl e1) ->
    attempt_outcome fetch json_object return_raw (cnt + k) = inr v ->
    (k < n)%nat ->
    exists pre,
      retry_loop attempt json_object return_raw sleep_time n cnt e c
      = mkOut (pre ++ tr (cnt + k)%nat) c (Return v).
Proof.
  induction k as [|k IH]; intros n cnt e v Hfail Hok Hlt.
  - destruct n as [|n]; [lia|]. rewrite Nat.add_0_r in *.
    rewrite retry_loop_step. unfold attempt_outcome in Hok.
    destruct (fetch cnt) as [e1|result]; [discriminate|].
    rewrite Hok. by exists [].
  - destruct n as [|n]; [lia|].
    destruct (Hfail 0%nat ltac:(lia)) as [e0 He0].
    rewrite Nat.add_0_r in He0.
    assert (Hfail' : forall i, (i < k)%nat ->
              exists e1, attempt_outcome fetch json_object return_raw (S cnt + i) = inl e1).
    { intros i Hi. destruct (Hfail (S i) ltac:(lia)) as [e1 He1].
      exists e1. by rewrite Nat.add_succ_r in He1. }
    rewrite Nat.add_succ_r in Hok |- *.
    destruct (IH n (S cnt) Unbound v Hfail' Hok ltac:(lia)) as [pre Hpre].
    rewrite retry_loop_step. unfold attempt_outcome in He0.
    destruct (fetch cnt) as [e1|result].
    + eexists. rewrite Hpre. unfold prepend; cbn [out_trace out_cache out_result].
      rewrite app_assoc. reflexivity.
    + rewrite He0. eexists. rewrite Hpre.
      unfold prepend; cbn [out_trace out_cache out_result].
      rewrite app_assoc. reflexivity.
Qed.

(** When no attempt comes to a value, the final [raise e] finds the
    variable [e] deleted by the except clause of the last attempt. *)
Lemma retry_loop_no_return (n : nat) :
  forall (cnt : nat) (e : local_var),
    (forall i, (i < n)%nat ->
               exists e1, attempt_outcome fetch json_object return_raw (cnt + i) = inl e1) ->
    out_result (retry_loop attempt json_object return_raw sleep_time n cnt e c)
    = Raise (raise_local "e" (match n with O => e | S _ => Unbound end)).
Proof.
  induction n as [|n IH]; intros cnt e Hall; [reflexivity|].
  destruct (Hall 0%nat ltac:(lia)) as [e0 He0]. rewrite Nat.add_0_r in He0.
  assert (Hall' : forall i, (i < n)%nat ->
            exists e1, attempt_outcome fetch json_object return_raw (S cnt + i) = inl e1).
  { intros i Hi. destruct (Hall (S i) ltac:(lia)) as [e1 He1].
    exists e1. by rewrite Nat.add_succ_r in He1. }
  rewrite retry_loop_step. unfold attempt_outcome in He0.
  destruct (fetch cnt) as [e1|result]; [|rewrite He0];
    cbn [prepend out_result]; rewrite (IH _ _ Hall'); by destruct n.
Qed.

(** The whole run when the first [try] raises in every attempt. *)
Lemma retry_loop_all_fetch_raise (ex : nat -> exn) (n : nat) :
  forall (cnt : nat) (e : local_var),
    (forall i, (i < n)%nat -> fetch (cnt + i) = inl (ex (cnt + i)%nat)) ->
    retry_loop attempt json_object return_raw sleep_time n cnt e c
    = mkOut
        (flat_map (fun i => tr i ++ [EvPrintRetry i (ex i) sleep_time; EvSleep sleep_time])
           (seq cnt n))
        c (Raise (raise_local "e" (match n with O => e | S _ => Unbound end))).
Proof.
  induction n as [|n IH]; intros cnt e Hall; [reflexivity|].
  pose proof (Hall 0%nat ltac:(lia)) as H0. rewrite Nat.add_0_r in H0.
  rewrite retry_loop_step, H0, (IH (S cnt) Unbound).
  - unfold prepend; cbn [out_trace out_cache out_result seq flat_map].
    by destruct n.
  - intros i Hi. specialize (Hall (S i) ltac:(lia)).
    by rewrite Nat.add_succ_r in Hall.
Qed.

Lemma retry_loop_return_inv (n : nat) :
  forall (cnt : nat) (e : local_var) (v : value),
    out_result (retry_loop attempt json_object return_raw sleep_time n cnt e c)
    = Return v ->
    exists k, (cnt <= k < cnt + n)%nat /\
              attempt_outcome fetch json_object return_raw k = inr v.
Proof.
  induction n as [|n IH]; intros cnt e v Hret; [discriminate|].
  rewrite retry_loop_step in Hret. unfold attempt_outcome.
  destruct (fetch cnt) as [e1|result] eqn:Hf.
  - destruct (IH _ _ _ Hret) as (k & Hk & H1). exists k. split; [lia|done].
  - destruct (parse_or_return json_object return_raw result) as [e2|v'] eqn:Hp.
    + destruct (IH _ _ _ Hret) as (k & Hk & H1). exists k. split; [lia|done].
    + injection Hret as ->. exists cnt. split; [lia|]. by rewrite Hf.
Qed.

Lemma retry_loop_cache (n : nat) :
  forall (cnt : nat) (e : local_var),
    out_cache (retry_loop attempt json_object return_raw sleep_time n cnt e c) = c.
Proof.
  induction n as [|n IH]; intros cnt e; [reflexivity|].
  rewrite retry_loop_step.
  destruct (fetch cnt) as [e1|result]; [apply IH|].
  destruct (parse_or_return json_object return_raw result); [apply IH|reflexivity].
Qed.

Lemma retry_loop_events (P : event -> Prop) (n : nat) :
  (forall cnt, Forall P (tr cnt)) ->
  (forall cnt e1, P (EvPrintRetry cnt e1 sleep_time)) ->
  P (EvSleep sleep_time) ->
  (forall v, P (EvPrintResult v)) ->
  (forall cnt e2, P (EvPrintJsonError cnt e2)) ->
  forall (cnt : nat) (e : local_var),
    Forall P (out_trace (retry_loop attempt json_object return_raw sleep_time n cnt e c)).
Proof.
  intros Ht Hp Hs Hr Hj. induction n as [|n IH]; intros cnt e; [constructor|].
  rewrite retry_loop_step.
  destruct (fetch cnt) as [e1|result].
  - cbn [prepend out_trace]. rewrite !Forall_app. repeat split; [done| |apply IH].
    by repeat constructor.
  - destruct (parse_or_return json_object return_raw result); [|apply Ht].
    cbn [prepend out_trace]. rewrite !Forall_app. repeat split; [done| |apply IH].
    by repeat constructor.
Qed.

End RetryRuns.

(** ** Runs of the loop of family D *)

Section HfRuns.
Variables (w : World) (m : hf_model) (t : hf_tokenizer) (args : GenerateArgs)
  (sleep_time : nat) (c : gmap string (hf_model * hf_tokenizer)).

Lemma hf_loop_first_return (k : nat) :
  forall (n cnt : nat) (e : local_var) (completion : string),
    (forall i, (i < k)%nat -> exists e1, hf_generate w (cnt + i) m t args = inl e1) ->
    hf_generate w (cnt + k) m t args = inr completion ->
    (k < n)%nat ->
    exists pre,
      hf_loop w m t args sleep_time n cnt e c
      = mkOut (pre ++ [EvHfGenerate (cnt + k)%nat args]) c (Return (VText completion)).
Proof.
  induction k as [|k IH]; intros n cnt e completion Hfail Hok Hlt.
  - destruct n as [|n]; [lia|]. rewrite Nat.add_0_r in *.
    exists []. by apply hf_loop_returns.
  - destruct n as [|n]; [lia|].
    destruct (Hfail 0%nat ltac:(lia)) as [e0 He0]. rewrite Nat.add_0_r in He0.
    rewrite Nat.add_succ_r in Hok |- *.
    destruct (IH n (S cnt) Unbound completion) as [pre Hpre]; [|done|lia|].
    { intros i Hi. destruct (Hfail (S i) ltac:(lia)) as [e1 He1].
      exists e1. by rewrite Nat.add_succ_r in He1. }
    eexists. rewrite (hf_loop_generate_raises _ _ _ _ _ _ _ _ _ _ He0), Hpre.
    unfold prepend; cbn [out_trace out_cache out_result].
    rewrite app_assoc. reflexivity.
Qed.

Lemma hf_loop_all_raise (n : nat) :
  forall (cnt : nat) (e : local_var),
    (forall i, (i < n)%nat -> exists e1, hf_generate w (cnt + i) m t args = inl e1) ->
    out_result (hf_loop w m t args sleep_time n cnt e c)
    = Raise (raise_local "e" (match n with O => e | S _ => Unbound end)).
Proof.
  induction n as [|n IH]; intros cnt e Hall; [reflexivity|].
  destruct (Hall 0%nat ltac:(lia)) as [e0 He0]. rewrite Nat.add_0_r in He0.
  rewrite (hf_loop_generate_raises _ _ _ _ _ _ _ _ _ _ He0).
  cbn [prepend out_result]. rewrite IH; [by destruct n|].
  intros i Hi. destruct (Hall (S i) ltac:(lia)) as [e1 He1].
  exists e1. by rewrite Nat.add_succ_r in He1.
Qed.

Lemma hf_loop_cache (n : nat) :
  forall (cnt : nat) (e : local_var),
    out_cache (hf_loop w m t args sleep_time n cnt e c) = c.
Proof.
  induction n as [|n IH]; intros cnt e; [reflexivity|].
  destruct (hf_generate w cnt m t args) as [e1|completion] eqn:Hg.
  - rewrite (hf_loop_generate_raises _ _ _ _ _ _ _ _ _ _ Hg). apply IH.
  - by rewrite (hf_loop_returns _ _ _ _ _ _ _ _ _ _ Hg).
Qed.

(** Every event of the loop is an invocation, the print of the handler or
    a sleep. *)
Lemma hf_loop_events (P : event -> Prop) (n : nat) :
  (forall cnt, P (EvHfGenerate cnt args)) ->
  (forall cnt e1, P (EvPrintHfRetry cnt e1)) ->
  P (EvSleep sleep_time) ->
  forall (cnt : nat) (e : local_var),
    Forall P (out_trace (hf_loop w m t args sleep_time n cnt e c)).
Proof.
  intros Hg Hp Hsl. induction n as [|n IH]; intros cnt e; [constructor|].
  destruct (hf_generate w cnt m t args) as [e1|completion] eqn:Hgen.
  - rewrite (hf_loop_generate_raises _ _ _ _ _ _ _ _ _ _ Hgen).
    cbn [prepend out_trace app]. repeat (constructor; [done|]). apply IH.
  - rewrite (hf_loop_returns _ _ _ _ _ _ _ _ _ _ Hgen). by repeat constructor.
Qed.

Lemma hf_loop_no_load (n cnt : nat) (e : local_var) :
  Forall (fun ev => is_load ev = false)
    (out_trace (hf_loop w m t args sleep_time n cnt e c)).
Proof. by apply hf_loop_events. Qed.

End HfRuns.

(** ** Sequencing *)

Lemma bind_return {A B} (m : M A) (k : A -> M B) c tr c1 a :
  m c = mkOut tr c1 (Return a) ->
  (m ≫= k) c = prepend tr (k a c1).
Proof. intros H. run_monad. rewrite H. by destruct (k a c1). Qed.

Lemma bind_raise {A B} (m : M A) (k : A -> M B) c tr c1 e :
  m c = mkOut tr c1 (Raise e) ->
  (m ≫= k) c = mkOut tr c1 (Raise e).
Proof. intros H. run_monad. by rewrite H. Qed.

Lemma outcome_eta {A} (o : outcome A) :
  o = mkOut (out_trace o) (out_cache o) (out_result o).
Proof. by destruct o. Qed.

(** ** The set-up steps *)

Lemma claude_setup_run w c :
  claude_setup w c
  = mkOut (claude_setup_trace w) c
      (Return (match anthropic_init w (environ w "ANTHROPIC_API_KEY") with
               | Some _ => false
               | None => true
               end)).
Proof.
  unfold claude_setup, claude_setup_trace. run_monad.
  by destruct (anthropic_init w (environ w "ANTHROPIC_API_KEY")).
Qed.

Lemma gemini_setup_cache w c : out_cache (gemini_setup w c) = c.
Proof.
  unfold gemini_setup. run_monad.
  destruct (environ w "GEMINI_API_KEY") as [[|a k]|]; try reflexivity.
  destruct (genai_imported w); cbn; [|reflexivity].
  by destruct (genai_configure w (String a k)).
Qed.

Lemma complete_text_claude_run w rq max_retry sleep_time kwargs c :
  complete_text_claude w rq max_retry sleep_time kwargs c
  = prepend (claude_setup_trace w)
      (retry_loop
         (claude_attempt w
            (match anthropic_init w (environ w "ANTHROPIC_API_KEY") with
             | Some _ => false
             | None => true
             end)
            (claude_request rq kwargs) (return_raw rq))
         (json_object rq) (return_raw rq) sleep_time max_retry 0 BoundNone c).
Proof.
  unfold complete_text_claude. by rewrite (bind_return _ _ _ _ _ _ (claude_setup_run w c)).
Qed.

Lemma complete_text_gemini_run w rq max_retry sleep_time kwargs c :
  out_result (gemini_setup w c) = Return tt ->
  complete_text_gemini w rq max_retry sleep_time kwargs c
  = prepend (out_trace (gemini_setup w c))
      (retry_loop
         (gemini_attempt w (model rq) (gemini_messages rq) (max_tokens rq)
            (temperature rq) kwargs (return_raw rq))
         (json_object rq) (return_raw rq) sleep_time max_retry 0 BoundNone c).
Proof.
  intros Hok. unfold complete_text_gemini.
  assert (H : gemini_setup w c = mkOut (out_trace (gemini_setup w c)) c (Return tt)).
  { rewrite (outcome_eta (gemini_setup w c)) at 1.
    by rewrite Hok, gemini_setup_cache. }
  by rewrite (bind_return _ _ _ _ _ _ H).
Qed.

Lemma complete_text_hf_run w message model max_tokens temperature json_object
    max_retry sleep_time kwargs c tr c1 m t args :
  hf_prepare w message model max_tokens temperature json_object kwargs c
  = mkOut tr c1 (Return (m, t, args)) ->
  complete_text_hf w message model max_tokens temperature json_object
    max_retry sleep_time kwargs c
  = prepend tr (hf_loop w m t args sleep_time max_retry 0 Unbound c1).
Proof. intros H. unfold complete_text_hf. by rewrite (bind_return _ _ _ _ _ _ H). Qed.

(** ** C2: what is raised when every attempt has failed *)

(** C2 (the code departs from the claim in three of the four callers).
    When every invocation raises, up to a bound of at least one attempt:
    [get_gpt_output] re-raises the exception of the last attempt, which it
    saved in [error]; [complete_text_claude], [complete_text_gemini] and
    [complete_text_hf] end in [raise e] with [e] already deleted by the
    except clause, so they raise UnboundLocalError for [e], whatever the
    backend raised. *)
Theorem C2_raised_after_exhaustion :
  forall (w : World) (rq : Request) (n sleep_time : nat) (kwargs : list string)
         (c : gmap string (hf_model * hf_tokenizer)) (ex : nat -> exn),
    (0 < n)%nat ->
    ((forall i, (i < n)%nat -> openai_create w i (gpt_request rq) = inl (ex i)) ->
     out_result (get_gpt_output w rq n sleep_time c) = Raise (ex (n - 1)%nat))
    /\
    ((forall i, (i < n)%nat ->
                anthropic_create w i (claude_request rq kwargs) = inl (ex i)) ->
     out_result (complete_text_claude w rq n sleep_time kwargs c)
     = Raise (UnboundLocalError "e"))
    /\
    (out_result (gemini_setup w c) = Return tt ->
     (forall i call, (i < n)%nat -> genai_call w i call = inl (ex i)) ->
     out_result (complete_text_gemini w rq n sleep_time kwargs c)
     = Raise (UnboundLocalError "e"))
    /\
    (forall tr c1 m t args,
       hf_prepare w (message rq) (model rq) (max_tokens rq) (temperature rq)
         (json_object rq) kwargs c = mkOut tr c1 (Return (m, t, args)) ->
       (forall i, (i < n)%nat -> hf_generate w i m t args = inl (ex i)) ->
       out_result (complete_text_hf w (message rq) (model rq) (max_tokens rq)
                     (temperature rq) (json_object rq) n sleep_time kwargs c)
       = Raise (UnboundLocalError "e")).
Proof.
  intros w rq n sleep_time kwargs c ex Hn. repeat split.
  - intros Hall. unfold get_gpt_output.
    rewrite (gpt_loop_all_calls_raise _ _ _ _ _ ex); [|done].
    destruct n; [lia|]. cbn. by rewrite Nat.sub_0_r.
  - intros Hall. rewrite complete_text_claude_run. cbn [prepend out_result].
    destruct (anthropic_init w (environ w "ANTHROPIC_API_KEY")).
    + rewrite retry_loop_no_return
        with (tr := fun _ => []) (fetch := fun _ => inl (UnboundLocalError "anthropic_client")).
      * destruct n; [lia|reflexivity].
      * intros cnt. apply claude_attempt_unbound.
      * intros i Hi. by eexists.
    + rewrite retry_loop_no_return
        with (tr := fun cnt => [EvAnthropicCreate cnt (claude_request rq kwargs)])
             (fetch := claude_fetch w (claude_request rq kwargs) (return_raw rq)).
      * destruct n; [lia|reflexivity].
      * intros cnt. apply claude_attempt_run.
      * intros i Hi. unfold attempt_outcome, claude_fetch. cbn.
        rewrite (Hall i Hi). by eexists.
  - intros Hsetup Hall. rewrite complete_text_gemini_run by done.
    cbn [prepend out_result].
    erewrite retry_loop_no_return; [| intros cnt; apply gemini_attempt_run |].
    + destruct n; [lia|reflexivity].
    + intros i Hi. unfold attempt_outcome, gemini_attempt_fetch, gemini_fetch.
      destruct (gemini_call_of _ _ _); [by eexists|].
      rewrite (Hall i _ Hi). by eexists.
  - intros tr c1 m t args Hprep Hall.
    rewrite (complete_text_hf_run _ _ _ _ _ _ _ _ _ _ _ _ _ _ _ Hprep).
    cbn [prepend out_result]. rewrite hf_loop_all_raise.
    + destruct n; [lia|reflexivity].
    + intros i Hi. rewrite Nat.add_0_l. eauto.
Qed.

(** C2, at a concrete input: every backend raises [rate_limit] in both of
    two attempts. *)
Lemma C2_raised_after_exhaustion_witness :
  let w := test_world (fun _ => inl rate_limit) in
  let rq := test_request "claude-2.1" false in
  out_result (get_gpt_output w rq 2 0 ∅) = Raise rate_limit
  /\ out_result (complete_text_claude w rq 2 0 [] ∅) = Raise (UnboundLocalError "e")
  /\ out_result (complete_text_gemini w rq 2 0 [] ∅) = Raise (UnboundLocalError "e")
  /\ out_result (complete_text_hf w (MsgStr "hi") "huggingface/a/b" 2048 1%Q false 2 0 [] ∅)
     = Raise (UnboundLocalError "e").
Proof.
  intros w rq.
  destruct (C2_raised_after_exhaustion w rq 2 0 [] ∅ (fun _ => rate_limit) ltac:(lia))
    as (HA & HB & HC & _).
  destruct (C2_raised_after_exhaustion w
              (test_request "huggingface/a/b" false) 2 0 [] ∅
              (fun _ => rate_limit) ltac:(lia))
    as (_ & _ & _ & HD).
  split; [|split; [|split]].
  - apply HA. reflexivity.
  - apply HB. reflexivity.
  - apply HC; reflexivity.
  - eapply HD; [vm_compute; reflexivity|reflexivity].
Defined.

(** ** C3: the dispatcher *)

Lemma append_cons (a : ascii) (p q : string) :
  String a p +:+ q = String a (p +:+ q).
Proof. reflexivity. Qed.

Lemma append_empty (q : string) : "" +:+ q = q.
Proof. reflexivity. Qed.

Lemma startswith_prefix (p s : string) :
  PyStr.startswith p s = true <-> exists post, s = p +:+ post.
Proof.
  revert s. induction p as [|a p IH]; intros s; cbn [PyStr.startswith].
  - split; [intros _; by exists s | done].
  - destruct s as [|b s].
    + split; [done | intros [post Hpost]; by rewrite append_cons in Hpost].
    + destruct (Ascii.eqb_spec a b) as [->|Hne].
      * rewrite IH. split; intros [post Hpost]; exists post;
          rewrite append_cons in *; congruence.
      * split; [done | intros [post Hpost]].
        rewrite append_cons in Hpost. congruence.
Qed.

(** Python's [sub in s] decides the occurrence of [sub] in [s]. *)
Lemma contains_Substring (sub s : string) :
  PyStr.contains sub s = true <-> Substring sub s.
Proof.
  induction s as [|a s IH].
  - cbn [PyStr.contains]. destruct (PyStr.startswith sub "") eqn:Hs.
    + split; [intros _ | done].
      apply startswith_prefix in Hs as [post Hpost]. by exists "", post.
    + split; [done|]. intros (pre & post & Heq).
      destruct pre; [|by rewrite append_cons in Heq]. rewrite append_empty in Heq.
      assert (PyStr.startswith sub "" = true) by (apply startswith_prefix; eauto).
      congruence.
  - cbn [PyStr.contains]. destruct (PyStr.startswith sub (String a s)) eqn:Hs.
    + split; [intros _ | done].
      apply startswith_prefix in Hs as [post Hpost]. by exists "", post.
    + rewrite IH. split.
      * intros (pre & post & ->). by exists (String a pre), post.
      * intros (pre & post & Heq). destruct pre as [|b pre].
        -- rewrite append_empty in Heq.
           assert (PyStr.startswith sub (String a s) = true)
             by (apply startswith_prefix; eauto).
           congruence.
        -- rewrite append_cons in Heq. injection Heq as -> ->. by exists pre, post.
Qed.

Lemma not_contains_Substring (sub s : string) :
  PyStr.contains sub s = false <-> ~ Substring sub s.
Proof.
  rewrite <- contains_Substring. by destruct (PyStr.contains sub s).
Qed.

Lemma warn_unregistered_run model c :
  warn_unregistered model c = mkOut (warning_trace model) c (Return tt).
Proof.
  unfold warn_unregistered, warning_trace. by destruct (registered model).
Qed.

(** C3.  The dispatcher tests the model identifier for "gpt-4", then
    "claude", then "gemma" or "gemini", then "huggingface", and its run is
    the run of the first caller that matches (after the warning for an
    unregistered identifier), with that family's constants: 5 attempts and
    60 s for family A, 100 and 5 for B, 5 and 30 for C.  An identifier that
    matches none raises ValueError "Model ... not recognized." with no
    backend invocation and no sleep in the trace. *)
Theorem C3_dispatch_by_substring :
  forall (w : World) (rq : Request) (c : gmap string (hf_model * hf_tokenizer)),
    (Substring "gpt-4" (model rq) ->
     get_llm_output_tools w rq c
     = prepend (warning_trace (model rq)) (get_gpt_output w rq 5 60 c))
    /\
    (~ Substring "gpt-4" (model rq) -> Substring "claude" (model rq) ->
     get_llm_output_tools w rq c
     = prepend (warning_trace (model rq)) (complete_text_claude w rq 100 5 [] c))
    /\
    (~ Substring "gpt-4" (model rq) -> ~ Substring "claude" (model rq) ->
     Substring "gemma" (model rq) \/ Substring "gemini" (model rq) ->
     get_llm_output_tools w rq c
     = prepend (warning_trace (model rq)) (complete_text_gemini w rq 5 30 [] c))
    /\
    (~ Substring "gpt-4" (model rq) -> ~ Substring "claude" (model rq) ->
     ~ Substring "gemma" (model rq) -> ~ Substring "gemini" (model rq) ->
     Substring "huggingface" (model rq) ->
     get_llm_output_tools w rq c
     = prepend (warning_trace (model rq))
         (complete_text_hf w (message rq) (model rq) (max_tokens rq)
            (temperature rq) (json_object rq) 1 0
            ["history"; "tools"; "return_raw"] c))
    /\
    (~ Substring "gpt-4" (model rq) -> ~ Substring "claude" (model rq) ->
     ~ Substring "gemma" (model rq) -> ~ Substring "gemini" (model rq) ->
     ~ Substring "huggingface" (model rq) ->
     get_llm_output_tools w rq c
     = mkOut (warning_trace (model rq)) c
         (Raise (ValueError ("Model " +:+ model rq +:+ " not recognized.")))
     /\ Forall (fun ev => is_backend_call ev = false /\ is_sleep ev = false)
          (out_trace (get_llm_output_tools w rq c))).
Proof.
  intros w rq c.
  assert (Hrun : forall k : M value,
             (warn_unregistered (model rq) ≫= fun _ => k) c
             = prepend (warning_trace (model rq)) (k c)).
  { intros k. by rewrite (bind_return _ _ _ _ _ _ (warn_unregistered_run (model rq) c)). }
  unfold get_llm_output_tools.
  repeat rewrite <- not_contains_Substring. repeat rewrite <- contains_Substring.
  split; [|split; [|split; [|split]]].
  - intros ->. apply Hrun.
  - intros -> ->. apply Hrun.
  - intros -> -> Hor. rewrite Hrun.
    by destruct Hor as [-> | ->]; [|rewrite orb_true_r].
  - intros -> -> -> -> ->. apply Hrun.
  - intros -> -> -> -> ->. cbn [orb]. rewrite Hrun.
    unfold prepend, raise. cbn [out_trace out_cache out_result].
    rewrite app_nil_r. split; [reflexivity|].
    unfold warning_trace. destruct (registered (model rq)); by repeat constructor.
Qed.

(** C3 on the identifiers named by the specification. *)
Lemma C3_dispatch_by_substring_witness :
  let w := test_world (fun _ => inl rate_limit) in
  get_llm_output_tools w (test_request "gemini-1.5-flash" false) ∅
  = complete_text_gemini w (test_request "gemini-1.5-flash" false) 5 30 [] ∅
  /\ get_llm_output_tools w (test_request "claude-3-opus-20240229" false) ∅
     = complete_text_claude w (test_request "claude-3-opus-20240229" false) 100 5 [] ∅
  /\ get_llm_output_tools w (test_request "totally-unknown-model" false) ∅
     = mkOut [EvWarn "Model totally-unknown-model is not registered. You may still be able to use it."]
         ∅ (Raise (ValueError "Model totally-unknown-model not recognized.")).
Proof.
  intros w. split; [|split].
  - destruct (C3_dispatch_by_substring w (test_request "gemini-1.5-flash" false) ∅)
      as (_ & _ & H & _).
    rewrite H; [apply prepend_nil| | |].
    + by intros ?%contains_Substring.
    + by intros ?%contains_Substring.
    + right. by exists "", "-1.5-flash".
  - destruct (C3_dispatch_by_substring w (test_request "claude-3-opus-20240229" false) ∅)
      as (_ & H & _).
    rewrite H; [apply prepend_nil| |].
    + by intros ?%contains_Substring.
    + by exists "", "-3-opus-20240229".
  - destruct (C3_dispatch_by_substring w (test_request "totally-unknown-model" false) ∅)
      as (_ & _ & _ & _ & H).
    apply H; by intros ?%contains_Substring.
Defined.

(** ** C4: history before message *)

(** Every invocation made by a caller carries the request, or is the call,
    built from its normalised conversation. *)
Lemma get_gpt_output_sends w rq n sleep_time c :
  Forall (fun ev => forall cnt req, ev = EvOpenAICreate cnt req -> req = gpt_request rq)
    (out_trace (get_gpt_output w rq n sleep_time c)).
Proof. apply gpt_loop_events; intros; congruence. Qed.

Lemma complete_text_claude_sends w rq n sleep_time kwargs c :
  Forall (fun ev => forall cnt req,
            ev = EvAnthropicCreate cnt req -> req = claude_request rq kwargs)
    (out_trace (complete_text_claude w rq n sleep_time kwargs c)).
Proof.
  rewrite complete_text_claude_run. cbn [prepend out_trace].
  apply Forall_app. split.
  - unfold claude_setup_trace.
    destruct (anthropic_init w (environ w "ANTHROPIC_API_KEY")); by repeat constructor.
  - destruct (anthropic_init w (environ w "ANTHROPIC_API_KEY")).
    + apply retry_loop_events
        with (tr := fun _ => []) (fetch := fun _ => inl (UnboundLocalError "anthropic_client"));
        [intros cnt; apply claude_attempt_unbound | constructor | ..];
        intros; congruence.
    + apply retry_loop_events
        with (tr := fun cnt => [EvAnthropicCreate cnt (claude_request rq kwargs)])
             (fetch := claude_fetch w (claude_request rq kwargs) (return_raw rq));
        [intros cnt; apply claude_attempt_run
        | intros cnt; repeat constructor; congruence | ..];
        intros; congruence.
Qed.

Lemma complete_text_gemini_sends w rq n sleep_time kwargs c :
  Forall (fun ev => forall cnt call,
            ev = EvGenaiCall cnt call ->
            gemini_call_of (model rq) (gemini_messages rq)
              (gemini_generation_config (model rq) (max_tokens rq) (temperature rq) kwargs)
            = inr call)
    (out_trace (complete_text_gemini w rq n sleep_time kwargs c)).
Proof.
  assert (Hsetup : Forall (fun ev => forall cnt call, ev = EvGenaiCall cnt call ->
                     gemini_call_of (model rq) (gemini_messages rq)
                       (gemini_generation_config (model rq) (max_tokens rq)
                          (temperature rq) kwargs) = inr call)
                     (out_trace (gemini_setup w c))).
  { unfold gemini_setup. run_monad.
    destruct (environ w "GEMINI_API_KEY") as [[|a k]|]; try by repeat constructor.
    destruct (genai_imported w); cbn; [|by repeat constructor].
    destruct (genai_configure w (String a k)); by repeat constructor. }
  destruct (out_result (gemini_setup w c)) as [[]|e] eqn:Hs.
  - rewrite complete_text_gemini_run by done. cbn [prepend out_trace].
    apply Forall_app. split; [done|].
    eapply retry_loop_events;
      [intros cnt; apply gemini_attempt_run
      | intros cnt; cbv zeta;
        destruct (gemini_call_of _ _ _) as [e|call]; repeat constructor; congruence
      | ..];
      intros; congruence.
  - unfold complete_text_gemini.
    rewrite (bind_raise _ _ c (out_trace (gemini_setup w c)) c e); [done|].
    rewrite (outcome_eta (gemini_setup w c)) at 1.
    by rewrite Hs, gemini_setup_cache.
Qed.

Lemma gemini_convert_known (l : list Turn) :
  Forall known_role l -> gemini_convert l = map rename_role l.
Proof.
  induction l as [|t l IH]; intros H; [reflexivity|].
  inversion H as [|? ? Hk Hl]; subst.
  cbn [gemini_convert map]. rewrite (IH Hl).
  destruct t as [r ct]. unfold known_role in Hk. cbn [role content] in *.
  by destruct Hk as [-> | ->].
Qed.

Lemma gemini_convert_filter (l : list Turn) :
  gemini_convert l = map rename_role (List.filter known_roleb l).
Proof.
  induction l as [|t l IH]; [reflexivity|].
  cbn [gemini_convert List.filter]. unfold known_roleb at 1. rewrite IH.
  destruct t as [r ct]. cbn [role content].
  destruct (String.eqb_spec r "user") as [->|Hu]; [reflexivity|].
  destruct (String.eqb_spec r "assistant") as [->|Ha]; reflexivity.
Qed.

Lemma gemini_convert_app (l1 l2 : list Turn) :
  gemini_convert (l1 ++ l2) = gemini_convert l1 ++ gemini_convert l2.
Proof. by rewrite !gemini_convert_filter, List.filter_app, map_app. Qed.

Lemma gemini_convert_shape (l : list Turn) :
  Forall (fun g => (g_role g = "user" \/ g_role g = "model")
                   /\ exists p, g_parts g = [p])
    (gemini_convert l).
Proof.
  induction l as [|t l IH]; [constructor|].
  cbn [gemini_convert].
  destruct (String.eqb (role t) "user"); [constructor; [|done]; split; eauto|].
  destruct (String.eqb (role t) "assistant"); [constructor; [|done]; split; eauto|].
  done.
Qed.

Lemma gemini_call_of_snoc model init t p ps cfg :
  g_parts t = p :: ps ->
  gemini_call_of model (init ++ [t]) cfg
  = inr (match init with
         | [] => GenerateContent model p cfg
         | _ :: _ => SendMessage model init p cfg
         end).
Proof.
  intros Hp. destruct init as [|a init].
  - cbn. unfold first_part. by rewrite Hp.
  - assert (Hshape : gemini_call_of model ((a :: init) ++ [t]) cfg
                     = match last ((a :: init) ++ [t]) with
                       | Some m =>
                           match first_part m with
                           | inr prompt =>
                               inr (SendMessage model
                                      (removelast ((a :: init) ++ [t])) prompt cfg)
                           | inl e => inl e
                           end
                       | None => inl (IndexError "list index out of range")
                       end).
    { unfold gemini_call_of. by destruct init. }
    rewrite Hshape, last_snoc, removelast_last. unfold first_part. by rewrite Hp.
Qed.

Lemma gemini_messages_shape (rq : Request) :
  Forall (fun g => (g_role g = "user" \/ g_role g = "model")
                   /\ exists p, g_parts g = [p])
    (gemini_messages rq).
Proof.
  unfold gemini_messages.
  assert (Hm : Forall (fun g => (g_role g = "user" \/ g_role g = "model")
                                /\ exists p, g_parts g = [p])
                 match message rq with
                 | MsgStr s =>
                     if json_object rq
                     then [ {| g_role := "user";
                               g_parts := ["You are a helpful assistant designed to output in JSON format. " +:+ s] |} ]
                     else [ {| g_role := "user"; g_parts := [s] |} ]
                 | MsgTurns l => gemini_convert l
                 end).
  { destruct (message rq) as [s|l]; [|apply gemini_convert_shape].
    destruct (json_object rq); repeat constructor; eauto. }
  destruct (history rq) as [h|]; [|done].
  apply Forall_app. split; [apply gemini_convert_shape | done].
Qed.

(** The first event of a loop that has an attempt left is the invocation
    of that attempt. *)
Lemma gpt_loop_starts w req json_object sleep_time n cnt error c :
  exists rest,
    out_trace (gpt_loop w req json_object sleep_time (S n) cnt error c)
    = EvOpenAICreate cnt req :: rest.
Proof.
  destruct (openai_create w cnt req) as [e|text] eqn:Hcall.
  - rewrite (gpt_loop_call_raises _ _ _ _ _ _ _ _ _ Hcall). by eexists.
  - destruct (gpt_normalize json_object text) as [e|v] eqn:Hnorm.
    + rewrite (gpt_loop_parse_raises _ _ _ _ _ _ _ _ _ _ Hcall Hnorm). by eexists.
    + rewrite (gpt_loop_returns _ _ _ _ _ _ _ _ _ _ Hcall Hnorm). by eexists.
Qed.

Lemma retry_loop_starts attempt json_object return_raw sleep_time c
    (tr : nat -> list event) (fetch : nat -> exn + value) n cnt e :
  (forall cnt, attempt cnt c = mkOut (tr cnt) c (to_result (fetch cnt))) ->
  exists rest,
    out_trace (retry_loop attempt json_object return_raw sleep_time (S n) cnt e c)
    = tr cnt ++ rest.
Proof.
  intros Hrun. rewrite (retry_loop_step _ _ _ _ _ _ _ Hrun).
  destruct (fetch cnt) as [e1|result].
  - cbn [prepend out_trace]. rewrite <- app_assoc. by eexists.
  - destruct (parse_or_return json_object return_raw result).
    + cbn [prepend out_trace]. rewrite <- app_assoc. by eexists.
    + cbn [out_trace]. exists []. by rewrite app_nil_r.
Qed.

(** C4 (as amended).  With [history] present, the conversation passed to
    the backend is the history followed by the turns of the message, in
    order, for the two commercial callers, roles unchanged.  The
    multimodal caller passes the converted history followed by the
    converted message, where the conversion keeps the turns of role "user"
    and "assistant" only, the latter renamed "model", each in the schema
    of that backend (so with these two roles only in the history, it is
    the whole history, renamed).  A message given as a list of turns
    contributes these turns, converted likewise.  Every invocation in a run
    carries this conversation, and a run with an attempt to make does make
    an invocation with it (for family B once the client exists, for family
    C once the set-up has passed): as the [messages] of the request for the
    commercial callers, and for the multimodal caller as a chat started on
    all the turns but the last to which the text of the last is sent
    ([generate_content] on that text when there is one turn). *)
Theorem C4_history_then_message :
  forall (rq : Request) (h : list Turn) (kwargs : list string),
    history rq = Some h ->
    oa_messages (gpt_request rq)
    = h ++ oa_messages (gpt_request (with_history None rq))
    /\ cl_messages (claude_request rq kwargs)
       = h ++ cl_messages (claude_request (with_history None rq) kwargs)
    /\ gemini_messages rq
       = map rename_role (List.filter known_roleb h)
         ++ gemini_messages (with_history None rq)
    /\ (Forall known_role h ->
        gemini_messages rq
        = map rename_role h ++ gemini_messages (with_history None rq))
    /\ (forall l, message rq = MsgTurns l ->
          oa_messages (gpt_request (with_history None rq)) = l
          /\ cl_messages (claude_request (with_history None rq) kwargs) = l
          /\ gemini_messages (with_history None rq)
             = map rename_role (List.filter known_roleb l)
          /\ (Forall known_role l ->
              gemini_messages (with_history None rq) = map rename_role l))
    /\ (forall w n sleep_time c,
          (Forall (fun ev => forall cnt req,
                     ev = EvOpenAICreate cnt req ->
                     oa_messages req
                     = h ++ oa_messages (gpt_request (with_history None rq)))
             (out_trace (get_gpt_output w rq n sleep_time c))
           /\ ((0 < n)%nat ->
               In (EvOpenAICreate 0 (gpt_request rq))
                 (out_trace (get_gpt_output w rq n sleep_time c))))
          /\ (Forall (fun ev => forall cnt req,
                        ev = EvAnthropicCreate cnt req ->
                        cl_messages req
                        = h ++ cl_messages (claude_request (with_history None rq) kwargs))
                (out_trace (complete_text_claude w rq n sleep_time kwargs c))
              /\ ((0 < n)%nat ->
                  anthropic_init w (environ w "ANTHROPIC_API_KEY") = None ->
                  In (EvAnthropicCreate 0 (claude_request rq kwargs))
                    (out_trace (complete_text_claude w rq n sleep_time kwargs c))))
          /\ (forall init t,
                map rename_role (List.filter known_roleb h)
                ++ gemini_messages (with_history None rq) = init ++ [t] ->
                exists p,
                  g_parts t = [p]
                  /\ Forall (fun ev => forall cnt call,
                               ev = EvGenaiCall cnt call ->
                               call
                               = match init with
                                 | [] =>
                                     GenerateContent (model rq) p
                                       (gemini_generation_config (model rq)
                                          (max_tokens rq) (temperature rq) kwargs)
                                 | _ :: _ =>
                                     SendMessage (model rq) init p
                                       (gemini_generation_config (model rq)
                                          (max_tokens rq) (temperature rq) kwargs)
                                 end)
                       (out_trace (complete_text_gemini w rq n sleep_time kwargs c))
                  /\ ((0 < n)%nat ->
                      out_result (gemini_setup w c) = Return tt ->
                      In (EvGenaiCall 0
                            match init with
                            | [] =>
                                GenerateContent (model rq) p
                                  (gemini_generation_config (model rq)
                                     (max_tokens rq) (temperature rq) kwargs)
                            | _ :: _ =>
                                SendMessage (model rq) init p
                                  (gemini_generation_config (model rq)
                                     (max_tokens rq) (temperature rq) kwargs)
                            end)
                        (out_trace (complete_text_gemini w rq n sleep_time kwargs c))))).
Proof.
  intros rq h kwargs Hh.
  assert (HA : oa_messages (gpt_request rq)
               = h ++ oa_messages (gpt_request (with_history None rq))).
  { cbn. unfold gpt_messages, gpt_message. cbn. rewrite Hh. by destruct h. }
  assert (HB : cl_messages (claude_request rq kwargs)
               = h ++ cl_messages (claude_request (with_history None rq) kwargs)).
  { cbn. unfold claude_messages. cbn. by rewrite Hh. }
  assert (HC : gemini_messages rq
               = map rename_role (List.filter known_roleb h)
                 ++ gemini_messages (with_history None rq)).
  { unfold gemini_messages. cbn. rewrite Hh. by rewrite gemini_convert_filter. }
  split; [done|]. split; [done|]. split; [done|]. split; [|split].
  - intros Hroles. unfold gemini_messages. cbn. rewrite Hh.
    by rewrite gemini_convert_known.
  - intros l Hl. cbn. unfold gpt_messages, gpt_message, claude_messages,
      gemini_messages. cbn. rewrite Hl.
    split; [by destruct (json_object rq)|]. split; [done|].
    split; [apply gemini_convert_filter | apply gemini_convert_known].
  - intros w n sleep_time c. split; [|split].
    + split.
      * eapply Forall_impl; [apply get_gpt_output_sends|].
        intros ev Hev cnt req ->. by rewrite (Hev cnt req eq_refl).
      * intros Hn. destruct n as [|n]; [lia|]. unfold get_gpt_output.
        destruct (gpt_loop_starts w (gpt_request rq) (json_object rq) sleep_time n
                    0%nat Unbound c) as [rest ->].
        by left.
    + split.
      * eapply Forall_impl; [apply complete_text_claude_sends|].
        intros ev Hev cnt req ->. by rewrite (Hev cnt req eq_refl).
      * intros Hn Hinit. destruct n as [|n]; [lia|].
        rewrite complete_text_claude_run, Hinit. cbn [prepend out_trace].
        destruct (retry_loop_starts
                    (claude_attempt w true (claude_request rq kwargs) (return_raw rq))
                    (json_object rq) (return_raw rq) sleep_time c
                    (fun cnt => [EvAnthropicCreate cnt (claude_request rq kwargs)])
                    (claude_fetch w (claude_request rq kwargs) (return_raw rq))
                    n 0%nat BoundNone
                    (fun cnt => claude_attempt_run _ _ _ cnt c)) as [rest ->].
        apply in_or_app. right. by left.
    + intros init t Hconv. rewrite <- HC in Hconv.
      pose proof (gemini_messages_shape rq) as Hshape. rewrite Hconv in Hshape.
      apply Forall_app in Hshape as [_ Ht].
      inversion Ht as [|? ? [_ [p Hp]] _]; subst.
      exists p. split; [done|].
      assert (Hcall : gemini_call_of (model rq) (gemini_messages rq)
                        (gemini_generation_config (model rq) (max_tokens rq)
                           (temperature rq) kwargs)
                      = inr match init with
                            | [] =>
                                GenerateContent (model rq) p
                                  (gemini_generation_config (model rq)
                                     (max_tokens rq) (temperature rq) kwargs)
                            | _ :: _ =>
                                SendMessage (model rq) init p
                                  (gemini_generation_config (model rq)
                                     (max_tokens rq) (temperature rq) kwargs)
                            end).
      { rewrite Hconv. by apply gemini_call_of_snoc with (ps := []). }
      split.
      * eapply Forall_impl; [apply complete_text_gemini_sends|].
        intros ev Hev cnt call ->. specialize (Hev cnt call eq_refl). congruence.
      * intros Hn Hsetup. destruct n as [|n]; [lia|].
        rewrite complete_text_gemini_run by done. cbn [prepend out_trace].
        destruct (retry_loop_starts
                    (gemini_attempt w (model rq) (gemini_messages rq) (max_tokens rq)
                       (temperature rq) kwargs (return_raw rq))
                    (json_object rq) (return_raw rq) sleep_time c
                    (fun cnt => [EvGenaiCall cnt _])
                    (gemini_fetch w (inr _) (return_raw rq))
                    n 0%nat BoundNone
                    (fun cnt => gemini_attempt_run_call _ _ _ _ _ _ _ cnt c _ Hcall))
          as [rest ->].
        apply in_or_app. right. by left.
Qed.

(** C4 on the worked example: history [user:A, assistant:B], message "C";
    the multimodal caller starts a chat on [user:A, model:B] and sends
    "C". *)
Lemma C4_history_then_message_witness :
  oa_messages (gpt_request request_ABC)
  = [ {| role := "user"; content := "A" |};
      {| role := "assistant"; content := "B" |};
      {| role := "user"; content := "C" |} ]
  /\ cl_messages (claude_request request_ABC [])
     = [ {| role := "user"; content := "A" |};
         {| role := "assistant"; content := "B" |};
         {| role := "user"; content := "C" |} ]
  /\ gemini_messages request_ABC
     = [ {| g_role := "user"; g_parts := ["A"] |};
         {| g_role := "model"; g_parts := ["B"] |};
         {| g_role := "user"; g_parts := ["C"] |} ]
  /\ In (EvGenaiCall 0
           (SendMessage "gpt-4-0125-preview"
              [ {| g_role := "user"; g_parts := ["A"] |};
                {| g_role := "model"; g_parts := ["B"] |} ]
              "C"
              {| max_output_tokens := 2048; gc_temperature := 1%Q; gc_kwargs := [] |}))
       (out_trace (complete_text_gemini (test_world (fun _ => inr "ok")) request_ABC
                     5 30 [] ∅)).
Proof.
  destruct (C4_history_then_message request_ABC history_AB [] eq_refl)
    as (HA & HB & _ & HC & _ & Hrun).
  split; [|split; [|split]].
  - rewrite HA. reflexivity.
  - rewrite HB. reflexivity.
  - rewrite HC; [reflexivity|].
    constructor; [by left|]. constructor; [by right|]. constructor.
  - destruct (Hrun (test_world (fun _ => inr "ok")) 5%nat 30%nat ∅) as (_ & _ & Hg).
    destruct (Hg [ {| g_role := "user"; g_parts := ["A"] |};
                   {| g_role := "model"; g_parts := ["B"] |} ]
                {| g_role := "user"; g_parts := ["C"] |} eq_refl)
      as (p & Hp & _ & Hin).
    injection Hp as <-. apply Hin; [lia | reflexivity].
Defined.

(** C4 as stated fails for the multimodal caller: with the history
    [system:S, assistant:B] and the message "C" the conversation is not
    the history followed by the message with "assistant" renamed; the
    turn of role "system" is dropped, and the chat is started on [model:B]
    alone. *)
Lemma C4_counterexample :
  history request_SBC = Some history_SB
  /\ gemini_messages request_SBC
     = [ {| g_role := "model"; g_parts := ["B"] |};
         {| g_role := "user"; g_parts := ["C"] |} ]
  /\ gemini_messages request_SBC
     <> map rename_role history_SB ++ gemini_messages (with_history None request_SBC)
  /\ complete_text_gemini (test_world (fun _ => inr "ok")) request_SBC 5 30 [] ∅
     = mkOut [EvGenaiConfigure "g-key";
              EvGenaiCall 0
                (SendMessage "gemini-1.5-flash"
                   [ {| g_role := "model"; g_parts := ["B"] |} ] "C"
                   {| max_output_tokens := 2048; gc_temperature := 1%Q;
                      gc_kwargs := [] |})]
         ∅ (Return (VText "ok")).
Proof.
  split; [reflexivity|]. split; [reflexivity|]. split; [discriminate|].
  vm_compute. reflexivity.
Qed.

(** ** C5: set-up failures *)

(** C5.  [complete_text_gemini] raises from its set-up, with no attempt
    made, when GEMINI_API_KEY is absent (ValueError) or when the key is
    there and the generative-AI library was not imported (ImportError): the
    trace holds only the two prints of the handler.  In
    [complete_text_claude] a failure to create the client is printed and
    the retry loop runs all its attempts, each failing on the unbound
    client and sleeping; the failure surfaces after the loop. *)
Theorem C5_setup_failure :
  forall (w : World) (rq : Request) (n sleep_time : nat) (kwargs : list string)
         (c : gmap string (hf_model * hf_tokenizer)),
    (environ w "GEMINI_API_KEY" = None ->
     complete_text_gemini w rq n sleep_time kwargs c
     = mkOut [EvPrintExn (ValueError "GEMINI_API_KEY environment variable not found.");
              EvPrintStr "Gemini API setup failed."]
         c (Raise (ValueError "GEMINI_API_KEY environment variable not found.")))
    /\
    (forall a key, environ w "GEMINI_API_KEY" = Some (String a key) ->
       genai_imported w = false ->
       exists text,
         complete_text_gemini w rq n sleep_time kwargs c
         = mkOut [EvPrintExn (ImportError text); EvPrintStr "Gemini API setup failed."]
             c (Raise (ImportError text)))
    /\
    (forall e, anthropic_init w (environ w "ANTHROPIC_API_KEY") = Some e ->
       complete_text_claude w rq n sleep_time kwargs c
       = mkOut
           ([EvAnthropicInit (environ w "ANTHROPIC_API_KEY");
             EvPrintExn e; EvPrintStr "Anthropic API key not found."]
            ++ flat_map
                 (fun cnt =>
                    [EvPrintRetry cnt (UnboundLocalError "anthropic_client") sleep_time;
                     EvSleep sleep_time])
                 (seq 0 n))
           c (Raise (raise_local "e" (match n with O => BoundNone | S _ => Unbound end)))).
Proof.
  intros w rq n sleep_time kwargs c. split; [|split].
  - intros Hkey. unfold complete_text_gemini, gemini_setup. run_monad.
    by rewrite Hkey.
  - intros a key Hkey Himp. eexists.
    unfold complete_text_gemini, gemini_setup. run_monad.
    rewrite Hkey, Himp. reflexivity.
  - intros e He. rewrite complete_text_claude_run. unfold claude_setup_trace.
    rewrite He.
    rewrite retry_loop_all_fetch_raise
      with (tr := fun _ => []) (fetch := fun _ => inl (UnboundLocalError "anthropic_client"))
           (ex := fun _ => UnboundLocalError "anthropic_client"); [reflexivity| |done].
    intros cnt. apply claude_attempt_unbound.
Qed.

(** C5 in a world without credentials, with the constants of the
    dispatcher for family C and two attempts for family B. *)
Lemma C5_setup_failure_witness :
  out_trace (complete_text_gemini (bare_world (fun _ => inr "ok"))
               (test_request "gemini-1.5-flash" false) 5 30 [] ∅)
  = [EvPrintExn (ValueError "GEMINI_API_KEY environment variable not found.");
     EvPrintStr "Gemini API setup failed."]
  /\ (exists text,
        out_result (complete_text_gemini (keyed_world (fun _ => inr "ok"))
                      (test_request "gemini-1.5-flash" false) 5 30 [] ∅)
        = Raise (ImportError text))
  /\ out_trace (complete_text_claude (bare_world (fun _ => inr "ok"))
                  (test_request "claude-2.1" false) 2 5 [] ∅)
     = [EvAnthropicInit None;
        EvPrintExn (SdkError "AnthropicError" "no API key");
        EvPrintStr "Anthropic API key not found.";
        EvPrintRetry 0 (UnboundLocalError "anthropic_client") 5; EvSleep 5;
        EvPrintRetry 1 (UnboundLocalError "anthropic_client") 5; EvSleep 5].
Proof.
  split; [|split].
  - destruct (C5_setup_failure (bare_world (fun _ => inr "ok"))
                (test_request "gemini-1.5-flash" false) 5 30 [] ∅) as (H & _).
    rewrite H; reflexivity.
  - destruct (C5_setup_failure (keyed_world (fun _ => inr "ok"))
                (test_request "gemini-1.5-flash" false) 5 30 [] ∅) as (_ & H & _).
    destruct (H "g"%char "-key" eq_refl eq_refl) as [text Ht].
    exists text. by rewrite Ht.
  - destruct (C5_setup_failure (bare_world (fun _ => inr "ok"))
                (test_request "claude-2.1" false) 2 5 [] ∅) as (_ & _ & H).
    rewrite (H _ eq_refl). reflexivity.
Defined.

(** ** C9: the cache of loaded checkpoints *)

Section HfPrepare.
Variables (w : World) (message : Message) (model : string) (max_tokens : Z)
  (temperature : Q) (json_object : bool) (kwargs : list string).

Lemma hf_prepare_hit c checkpoint prompt m t :
  hf_prompt json_object message = inr prompt ->
  PyStr.split1_second model "/" = Some checkpoint ->
  c !! checkpoint = Some (m, t) ->
  hf_prepare w message model max_tokens temperature json_object kwargs c
  = mkOut [EvTokenize prompt] c (hf_prepared w max_tokens temperature kwargs m t prompt).
Proof.
  intros Hp Hs Hc. unfold hf_prepare, hf_lookup_or_load, hf_prepared. run_monad.
  rewrite Hp, Hs, Hc. cbn.
  by destruct (hf_tokenize w t prompt (hf_device w)).
Qed.

Lemma hf_prepare_miss c checkpoint prompt m t :
  hf_prompt json_object message = inr prompt ->
  PyStr.split1_second model "/" = Some checkpoint ->
  c !! checkpoint = None ->
  hf_load_model w checkpoint (hf_device w) = inr m ->
  hf_load_tokenizer w checkpoint = inr t ->
  hf_prepare w message model max_tokens temperature json_object kwargs c
  = mkOut [EvLoadModel checkpoint (hf_device w); EvLoadTokenizer checkpoint;
           EvTokenize prompt]
      (<[checkpoint := (m, t)]> c) (hf_prepared w max_tokens temperature kwargs m t prompt).
Proof.
  intros Hp Hs Hc Hm Ht. unfold hf_prepare, hf_lookup_or_load, hf_prepared. run_monad.
  rewrite Hp, Hs, Hc, Hm, Ht. cbn.
  by destruct (hf_tokenize w t prompt (hf_device w)).
Qed.

(** Whatever happens before the loop, entries of the cache stay. *)
Lemma hf_prepare_keeps c k v :
  c !! k = Some v ->
  out_cache (hf_prepare w message model max_tokens temperature json_object kwargs c) !! k
  = Some v.
Proof.
  intros Hk. unfold hf_prepare, hf_lookup_or_load. run_monad.
  destruct (hf_prompt json_object message) as [e|prompt]; [done|].
  destruct (PyStr.split1_second model "/") as [checkpoint|]; [|done]. cbn.
  destruct (c !! checkpoint) as [[m t]|] eqn:Hc; cbn.
  - by destruct (hf_tokenize w t prompt (hf_device w)).
  - destruct (hf_load_model w checkpoint (hf_device w)) as [e|m]; [done|]. cbn.
    destruct (hf_load_tokenizer w checkpoint) as [e|t]; [done|]. cbn.
    assert (checkpoint <> k) by congruence.
    destruct (hf_tokenize w t prompt (hf_device w)); cbn;
      by rewrite lookup_insert_ne.
Qed.

(** With the checkpoint in the cache, nothing is loaded and the cache is
    left as it is. *)
Lemma hf_prepare_served c checkpoint loaded :
  PyStr.split1_second model "/" = Some checkpoint ->
  c !! checkpoint = Some loaded ->
  Forall (fun ev => is_load ev = false)
    (out_trace (hf_prepare w message model max_tokens temperature json_object kwargs c))
  /\ out_cache (hf_prepare w message model max_tokens temperature json_object kwargs c) = c.
Proof.
  intros Hs Hc. destruct loaded as [m t].
  destruct (hf_prompt json_object message) as [e|prompt] eqn:Hp.
  - unfold hf_prepare. run_monad. rewrite Hp. by split.
  - rewrite (hf_prepare_hit _ _ _ _ _ Hp Hs Hc). split; [|done].
    by repeat constructor.
Qed.

End HfPrepare.

Lemma complete_text_hf_outcome w message model max_tokens temperature json_object
    max_retry sleep_time kwargs c :
  let o := hf_prepare w message model max_tokens temperature json_object kwargs c in
  complete_text_hf w message model max_tokens temperature json_object
    max_retry sleep_time kwargs c
  = match out_result o with
    | Return p =>
        prepend (out_trace o)
          (hf_loop w (fst (fst p)) (snd (fst p)) (snd p) sleep_time max_retry 0
             Unbound (out_cache o))
    | Raise e => mkOut (out_trace o) (out_cache o) (Raise e)
    end.
Proof.
  intros o. unfold complete_text_hf. subst o.
  destruct (hf_prepare w message model max_tokens temperature json_object kwargs c)
    as [tr c1 [p|e]] eqn:Hprep.
  - by rewrite (bind_return _ _ _ _ _ _ Hprep).
  - by rewrite (bind_raise _ _ _ _ _ _ Hprep).
Qed.

Lemma complete_text_hf_cache w message model max_tokens temperature json_object
    max_retry sleep_time kwargs c :
  out_cache (complete_text_hf w message model max_tokens temperature json_object
               max_retry sleep_time kwargs c)
  = out_cache (hf_prepare w message model max_tokens temperature json_object kwargs c).
Proof.
  rewrite complete_text_hf_outcome.
  destruct (out_result _); [|done]. cbn [prepend out_cache]. apply hf_loop_cache.
Qed.

Lemma complete_text_hf_served w message model max_tokens temperature json_object
    max_retry sleep_time kwargs c checkpoint loaded :
  PyStr.split1_second model "/" = Some checkpoint ->
  c !! checkpoint = Some loaded ->
  Forall (fun ev => is_load ev = false)
    (out_trace (complete_text_hf w message model max_tokens temperature json_object
                  max_retry sleep_time kwargs c))
  /\ out_cache (complete_text_hf w message model max_tokens temperature json_object
                  max_retry sleep_time kwargs c) = c.
Proof.
  intros Hs Hc.
  destruct (hf_prepare_served w message model max_tokens temperature json_object
              kwargs c checkpoint loaded Hs Hc) as [Htr Hcache].
  split; [|by rewrite complete_text_hf_cache].
  rewrite complete_text_hf_outcome. destruct (out_result _); [|done].
  cbn [prepend out_trace]. apply Forall_app. split; [done|]. apply hf_loop_no_load.
Qed.

Lemma get_gpt_output_cache w rq max_retry sleep_time c :
  out_cache (get_gpt_output w rq max_retry sleep_time c) = c.
Proof. apply gpt_loop_cache. Qed.

Lemma complete_text_claude_cache w rq max_retry sleep_time kwargs c :
  out_cache (complete_text_claude w rq max_retry sleep_time kwargs c) = c.
Proof.
  rewrite complete_text_claude_run. cbn [prepend out_cache].
  destruct (anthropic_init w (environ w "ANTHROPIC_API_KEY")).
  - apply retry_loop_cache
      with (tr := fun _ => []) (fetch := fun _ => inl (UnboundLocalError "anthropic_client")).
    intros cnt. apply claude_attempt_unbound.
  - apply retry_loop_cache
      with (tr := fun cnt => [EvAnthropicCreate cnt (claude_request rq kwargs)])
           (fetch := claude_fetch w (claude_request rq kwargs) (return_raw rq)).
    intros cnt. apply claude_attempt_run.
Qed.

Lemma complete_text_gemini_cache w rq max_retry sleep_time kwargs c :
  out_cache (complete_text_gemini w rq max_retry sleep_time kwargs c) = c.
Proof.
  destruct (out_result (gemini_setup w c)) as [[]|e] eqn:Hs.
  - rewrite complete_text_gemini_run by done. cbn [prepend out_cache].
    eapply retry_loop_cache. intros cnt. apply gemini_attempt_run.
  - unfold complete_text_gemini.
    rewrite (bind_raise _ _ c (out_trace (gemini_setup w c)) c e).
    + done.
    + rewrite (outcome_eta (gemini_setup w c)) at 1.
      by rewrite Hs, gemini_setup_cache.
Qed.

(** No call through the dispatcher removes or replaces an entry of
    [loaded_hf_models]. *)
Lemma get_llm_output_tools_keeps w rq c k v :
  c !! k = Some v ->
  out_cache (get_llm_output_tools w rq c) !! k = Some v.
Proof.
  intros Hk. unfold get_llm_output_tools.
  rewrite (bind_return _ _ _ _ _ _ (warn_unregistered_run (model rq) c)).
  cbn [prepend out_cache].
  destruct (PyStr.contains "gpt-4" (model rq)); [by rewrite get_gpt_output_cache|].
  destruct (PyStr.contains "claude" (model rq)); [by rewrite complete_text_claude_cache|].
  destruct (_ || _)%bool; [by rewrite complete_text_gemini_cache|].
  destruct (PyStr.contains "huggingface" (model rq)); [|done].
  rewrite complete_text_hf_cache. by apply hf_prepare_keeps.
Qed.

(** A call that finds the checkpoint in the cache tokenizes with the
    cached tokenizer and generates with the cached model. *)
Lemma complete_text_hf_hit w message model max_tokens temperature json_object
    max_retry sleep_time kwargs c checkpoint prompt m t :
  PyStr.split1_second model "/" = Some checkpoint ->
  hf_prompt json_object message = inr prompt ->
  c !! checkpoint = Some (m, t) ->
  complete_text_hf w message model max_tokens temperature json_object
    max_retry sleep_time kwargs c
  = match hf_tokenize w t prompt (hf_device w) with
    | inl e => mkOut [EvTokenize prompt] c (Raise e)
    | inr ids =>
        prepend [EvTokenize prompt]
          (hf_loop w m t
             {| ga_input_ids := ids; ga_temperature := temperature;
                ga_max_new_tokens := max_tokens; ga_kwargs := kwargs |}
             sleep_time max_retry 0 Unbound c)
    end.
Proof.
  intros Hs Hp Hc. rewrite complete_text_hf_outcome. cbv zeta.
  rewrite (hf_prepare_hit _ _ _ _ _ _ _ _ _ _ _ _ Hp Hs Hc).
  unfold hf_prepared. by destruct (hf_tokenize w t prompt (hf_device w)).
Qed.

(** C9.  For a model identifier whose part after the first "/" is
    [checkpoint]: a call of [complete_text_hf] that finds the checkpoint
    absent and loads the model and the tokenizer leaves the pair in
    [loaded_hf_models] under [checkpoint] (whatever the tokenizer and the
    generation do afterwards); a call that finds the checkpoint in the
    cache loads nothing, leaves the cache as it is, and is served from the
    cache: it tokenizes with the cached tokenizer and generates with the
    cached model, so a later call for the checkpoint, whatever its other
    arguments, runs on the pair that the first call loaded; and no call of
    [complete_text_hf] or of the dispatcher removes or replaces an
    entry. *)
Theorem C9_checkpoint_loaded_once :
  forall (w : World) (message : Message) (model : string) (max_tokens : Z)
         (temperature : Q) (json_object : bool) (max_retry sleep_time : nat)
         (kwargs : list string) (c : gmap string (hf_model * hf_tokenizer))
         (checkpoint : string),
    PyStr.split1_second model "/" = Some checkpoint ->
    let o := complete_text_hf w message model max_tokens temperature json_object
               max_retry sleep_time kwargs c in
    (forall prompt m t,
       c !! checkpoint = None ->
       hf_prompt json_object message = inr prompt ->
       hf_load_model w checkpoint (hf_device w) = inr m ->
       hf_load_tokenizer w checkpoint = inr t ->
       out_cache o !! checkpoint = Some (m, t)
       /\ (exists rest,
             out_trace o
             = EvLoadModel checkpoint (hf_device w) :: EvLoadTokenizer checkpoint :: rest
             /\ Forall (fun ev => is_load ev = false) rest)
       /\ (forall message2 max_tokens2 temperature2 json_object2 max_retry2
                  sleep_time2 kwargs2 prompt2,
             hf_prompt json_object2 message2 = inr prompt2 ->
             complete_text_hf w message2 model max_tokens2 temperature2 json_object2
               max_retry2 sleep_time2 kwargs2 (out_cache o)
             = match hf_tokenize w t prompt2 (hf_device w) with
               | inl e => mkOut [EvTokenize prompt2] (out_cache o) (Raise e)
               | inr ids =>
                   prepend [EvTokenize prompt2]
                     (hf_loop w m t
                        {| ga_input_ids := ids; ga_temperature := temperature2;
                           ga_max_new_tokens := max_tokens2; ga_kwargs := kwargs2 |}
                        sleep_time2 max_retry2 0 Unbound (out_cache o))
               end))
    /\
    (forall loaded,
       c !! checkpoint = Some loaded ->
       Forall (fun ev => is_load ev = false) (out_trace o) /\ out_cache o = c)
    /\
    (forall m t prompt,
       c !! checkpoint = Some (m, t) ->
       hf_prompt json_object message = inr prompt ->
       o = match hf_tokenize w t prompt (hf_device w) with
           | inl e => mkOut [EvTokenize prompt] c (Raise e)
           | inr ids =>
               prepend [EvTokenize prompt]
                 (hf_loop w m t
                    {| ga_input_ids := ids; ga_temperature := temperature;
                       ga_max_new_tokens := max_tokens; ga_kwargs := kwargs |}
                    sleep_time max_retry 0 Unbound c)
           end)
    /\
    (forall k v, c !! k = Some v -> out_cache o !! k = Some v)
    /\
    (forall rq k v,
       c !! k = Some v -> out_cache (get_llm_output_tools w rq c) !! k = Some v).
Proof.
  intros w message model max_tokens temperature json_object max_retry sleep_time
    kwargs c checkpoint Hs o. subst o. split; [|split; [|split; [|split]]].
  - intros prompt m t Hc Hp Hm Ht.
    assert (Hin : out_cache (complete_text_hf w message model max_tokens temperature
                               json_object max_retry sleep_time kwargs c) !! checkpoint
                  = Some (m, t)).
    { rewrite complete_text_hf_cache.
      rewrite (hf_prepare_miss _ _ _ _ _ _ _ _ _ _ _ _ Hp Hs Hc Hm Ht).
      cbn [out_cache]. by rewrite lookup_insert_eq. }
    split; [exact Hin|]. split.
    + rewrite complete_text_hf_outcome.
      rewrite (hf_prepare_miss _ _ _ _ _ _ _ _ _ _ _ _ Hp Hs Hc Hm Ht).
      cbn [out_cache out_trace out_result].
      destruct (hf_prepared _ _ _ _ _ _ _) as [p|e];
        cbn [prepend out_trace app]; eexists; (split; [reflexivity|]).
      * constructor; [done|]. apply hf_loop_no_load.
      * by repeat constructor.
    + intros message2 max_tokens2 temperature2 json_object2 max_retry2 sleep_time2
        kwargs2 prompt2 Hp2.
      by apply complete_text_hf_hit with (checkpoint := checkpoint).
  - intros loaded Hc. by eapply complete_text_hf_served.
  - intros m t prompt Hc Hp.
    by apply complete_text_hf_hit with (checkpoint := checkpoint).
  - intros k v Hk. rewrite complete_text_hf_cache. by apply hf_prepare_keeps.
  - intros rq k v Hk. by apply get_llm_output_tools_keeps.
Qed.

(** C9 on two calls in a row for the default checkpoint: the first loads
    the pair (7, 8), the second, with another message, loads nothing and
    runs on that pair. *)
Lemma C9_checkpoint_loaded_once_witness :
  let w := test_world (fun _ => inr "completion") in
  let call := complete_text_hf w (MsgStr "hi")
                "huggingface/codellama/CodeLlama-7b-hf" 2000 (1 # 2)%Q false 1 0 [] in
  out_cache (call ∅) !! "codellama/CodeLlama-7b-hf"
  = Some ({| model_handle := 7 |}, {| tokenizer_handle := 8 |})
  /\ Forall (fun ev => is_load ev = false) (out_trace (call (out_cache (call ∅))))
  /\ out_cache (call (out_cache (call ∅))) = out_cache (call ∅)
  /\ complete_text_hf w (MsgStr "again") "huggingface/codellama/CodeLlama-7b-hf"
       100 (1 # 2)%Q false 1 0 [] (out_cache (call ∅))
     = prepend [EvTokenize (MsgStr "again")]
         (hf_loop w {| model_handle := 7 |} {| tokenizer_handle := 8 |}
            {| ga_input_ids := [1; 2; 3]; ga_temperature := (1 # 2)%Q;
               ga_max_new_tokens := 100; ga_kwargs := [] |}
            0 1 0 Unbound (out_cache (call ∅))).
Proof.
  intros w call.
  destruct (C9_checkpoint_loaded_once w (MsgStr "hi")
              "huggingface/codellama/CodeLlama-7b-hf" 2000 (1 # 2)%Q false 1 0 [] ∅
              "codellama/CodeLlama-7b-hf" eq_refl) as (Hfirst & _).
  destruct (Hfirst (MsgStr "hi") {| model_handle := 7 |} {| tokenizer_handle := 8 |}
              (lookup_empty _) eq_refl eq_refl eq_refl) as (Hin & _ & Hlater).
  destruct (C9_checkpoint_loaded_once w (MsgStr "hi")
              "huggingface/codellama/CodeLlama-7b-hf" 2000 (1 # 2)%Q false 1 0 []
              (out_cache (call ∅)) "codellama/CodeLlama-7b-hf" eq_refl)
    as (_ & Hserved & _).
  split; [exact Hin|]. split; [exact (proj1 (Hserved _ Hin))|].
  split; [exact (proj2 (Hserved _ Hin))|].
  exact (Hlater (MsgStr "again") 100 (1 # 2)%Q false 1%nat 0%nat [] (MsgStr "again")
           eq_refl).
Defined.

(** ** C6: a single string message *)

Lemma complete_text_hf_tokenizes w message model max_tokens temperature
    json_object max_retry sleep_time kwargs c prompt :
  hf_prompt json_object message = inr prompt ->
  Forall (fun ev => forall m, ev = EvTokenize m -> m = prompt)
    (out_trace (complete_text_hf w message model max_tokens temperature json_object
                  max_retry sleep_time kwargs c)).
Proof.
  intros Hp. rewrite complete_text_hf_outcome.
  assert (Hprep : Forall (fun ev => forall m, ev = EvTokenize m -> m = prompt)
            (out_trace (hf_prepare w message model max_tokens temperature
                          json_object kwargs c))).
  { unfold hf_prepare, hf_lookup_or_load. run_monad. rewrite Hp.
    destruct (PyStr.split1_second model "/") as [checkpoint|]; [|constructor]. cbn.
    destruct (c !! checkpoint) as [[m t]|]; cbn.
    - destruct (hf_tokenize w t prompt (hf_device w)); cbn;
        repeat constructor; congruence.
    - destruct (hf_load_model w checkpoint (hf_device w)) as [e|m]; cbn;
        [by repeat constructor|].
      destruct (hf_load_tokenizer w checkpoint) as [e|t]; cbn;
        [by repeat constructor|].
      destruct (hf_tokenize w t prompt (hf_device w)); cbn;
        repeat constructor; congruence. }
  destruct (out_result _); [|done].
  cbn [prepend out_trace]. apply Forall_app. split; [done|].
  by apply hf_loop_events.
Qed.

(** C6 (as amended).  A string message without history becomes one turn
    of role "user" in the three callers that build a conversation.  Its
    content is the input string when [json_object] is false; when
    [json_object] is true it is the input string after the JSON instruction
    of the caller (family A leaves out the instruction when the lower-cased
    message contains "json").  Family C holds the content as the one
    element of the turn's [parts].  [complete_text_hf] builds no
    conversation: what it hands to the tokenizer is the string, after the
    instruction when [json_object] is true. *)
Theorem C6_single_string_message :
  forall (rq : Request) (s : string) (kwargs : list string),
    message rq = MsgStr s ->
    history rq = None ->
    (json_object rq = false ->
     oa_messages (gpt_request rq) = [ {| role := "user"; content := s |} ]
     /\ cl_messages (claude_request rq kwargs) = [ {| role := "user"; content := s |} ]
     /\ gemini_messages rq = [ {| g_role := "user"; g_parts := [s] |} ])
    /\
    (json_object rq = true ->
     oa_messages (gpt_request rq)
     = [ {| role := "user";
            content := if PyStr.contains "json" (PyStr.lower s) then s
                       else "You are a helpful assistant designed to output JSON. " +:+ s |} ]
     /\ cl_messages (claude_request rq kwargs)
        = [ {| role := "user";
               content := "You are a helpful assistant designed to output in JSON format." +:+ s |} ]
     /\ gemini_messages rq
        = [ {| g_role := "user";
               g_parts := ["You are a helpful assistant designed to output in JSON format. " +:+ s] |} ])
    /\
    (forall w max_retry sleep_time c,
       Forall (fun ev => forall m, ev = EvTokenize m ->
                 m = MsgStr (if json_object rq
                             then "You are a helpful assistant designed to output in JSON format." +:+ s
                             else s))
         (out_trace (complete_text_hf w (message rq) (model rq) (max_tokens rq)
                       (temperature rq) (json_object rq) max_retry sleep_time
                       kwargs c))).
Proof.
  intros rq s kwargs Hm Hh. split; [|split].
  - intros Hj. cbn. unfold gpt_messages, gpt_message, claude_messages, gemini_messages.
    by rewrite Hm, Hh, Hj.
  - intros Hj. cbn. unfold gpt_messages, gpt_message, claude_messages, gemini_messages.
    rewrite Hm, Hh, Hj. split; [|done].
    by destruct (PyStr.contains "json" (PyStr.lower s)).
  - intros w max_retry sleep_time c. apply complete_text_hf_tokenizes.
    unfold hf_prompt. rewrite Hm. by destruct (json_object rq).
Qed.

(** C6 on the message "hi", without and with [json_object]. *)
Lemma C6_single_string_message_witness :
  oa_messages (gpt_request (test_request "gpt-4-0125-preview" false))
  = [ {| role := "user"; content := "hi" |} ]
  /\ gemini_messages (test_request "gemini-1.5-flash" false)
     = [ {| g_role := "user"; g_parts := ["hi"] |} ]
  /\ cl_messages (claude_request (test_request "claude-2.1" true) [])
     = [ {| role := "user";
            content := "You are a helpful assistant designed to output in JSON format.hi" |} ].
Proof.
  split; [|split].
  - destruct (C6_single_string_message (test_request "gpt-4-0125-preview" false)
                "hi" [] eq_refl eq_refl) as (H & _).
    by destruct (H eq_refl) as (-> & _).
  - destruct (C6_single_string_message (test_request "gemini-1.5-flash" false)
                "hi" [] eq_refl eq_refl) as (H & _).
    by destruct (H eq_refl) as (_ & _ & ->).
  - destruct (C6_single_string_message (test_request "claude-2.1" true)
                "hi" [] eq_refl eq_refl) as (_ & H & _).
    by destruct (H eq_refl) as (_ & -> & _).
Defined.

(** C6 as stated fails: with [json_object] set, the content of the turn
    that family A builds for the message "hi" is not "hi". *)
Lemma C6_counterexample :
  oa_messages (gpt_request (test_request "gpt-4-0125-preview" true))
  = [ {| role := "user";
         content := "You are a helpful assistant designed to output JSON. hi" |} ]
  /\ oa_messages (gpt_request (test_request "gpt-4-0125-preview" true))
     <> [ {| role := "user"; content := "hi" |} ].
Proof. split; [reflexivity | discriminate]. Qed.

(** ** The first attempt that comes to a value *)

Lemma get_gpt_output_first_return w rq n sleep_time c k v :
  (forall i, (i < k)%nat ->
     exists e, gpt_attempt_outcome w (gpt_request rq) (json_object rq) i = inl e) ->
  gpt_attempt_outcome w (gpt_request rq) (json_object rq) k = inr v ->
  (k < n)%nat ->
  exists pre,
    get_gpt_output w rq n sleep_time c
    = mkOut (pre ++ [EvOpenAICreate k (gpt_request rq)]) c (Return v).
Proof.
  intros Hfail Hok Hlt. unfold get_gpt_output.
  apply (gpt_loop_first_return _ _ _ _ _ k n 0%nat); done.
Qed.

Lemma complete_text_claude_first_return w rq n sleep_time kwargs c k v :
  anthropic_init w (environ w "ANTHROPIC_API_KEY") = None ->
  (forall i, (i < k)%nat ->
     exists e, attempt_outcome (claude_fetch w (claude_request rq kwargs) (return_raw rq))
                 (json_object rq) (return_raw rq) i = inl e) ->
  attempt_outcome (claude_fetch w (claude_request rq kwargs) (return_raw rq))
    (json_object rq) (return_raw rq) k = inr v ->
  (k < n)%nat ->
  exists pre,
    complete_text_claude w rq n sleep_time kwargs c
    = mkOut (pre ++ [EvAnthropicCreate k (claude_request rq kwargs)]) c (Return v).
Proof.
  intros Hinit Hfail Hok Hlt. rewrite complete_text_claude_run, Hinit.
  destruct (retry_loop_first_return
              (claude_attempt w true (claude_request rq kwargs) (return_raw rq))
              (json_object rq) (return_raw rq) sleep_time c
              (fun cnt => [EvAnthropicCreate cnt (claude_request rq kwargs)])
              (claude_fetch w (claude_request rq kwargs) (return_raw rq))
              (fun cnt => claude_attempt_run _ _ _ cnt c)
              k n 0%nat BoundNone v Hfail Hok Hlt) as [pre Hpre].
  exists (claude_setup_trace w ++ pre). rewrite Hpre.
  unfold prepend; cbn [out_trace out_cache out_result]. by rewrite app_assoc.
Qed.

Lemma complete_text_gemini_first_return w rq n sleep_time kwargs c k v call :
  out_result (gemini_setup w c) = Return tt ->
  gemini_call_of (model rq) (gemini_messages rq)
    (gemini_generation_config (model rq) (max_tokens rq) (temperature rq) kwargs)
  = inr call ->
  (forall i, (i < k)%nat ->
     exists e, attempt_outcome (gemini_fetch w (inr call) (return_raw rq))
                 (json_object rq) (return_raw rq) i = inl e) ->
  attempt_outcome (gemini_fetch w (inr call) (return_raw rq))
    (json_object rq) (return_raw rq) k = inr v ->
  (k < n)%nat ->
  exists pre,
    complete_text_gemini w rq n sleep_time kwargs c
    = mkOut (pre ++ [EvGenaiCall k call]) c (Return v).
Proof.
  intros Hsetup Hcall Hfail Hok Hlt. rewrite complete_text_gemini_run by done.
  destruct (retry_loop_first_return
              (gemini_attempt w (model rq) (gemini_messages rq) (max_tokens rq)
                 (temperature rq) kwargs (return_raw rq))
              (json_object rq) (return_raw rq) sleep_time c
              (fun cnt => [EvGenaiCall cnt call])
              (gemini_fetch w (inr call) (return_raw rq))) 
    with (k := k) (n := n) (cnt := 0%nat) (e := BoundNone) (v := v) as [pre Hpre];
    try done.
  { intros cnt. by apply gemini_attempt_run_call. }
  exists (out_trace (gemini_setup w c) ++ pre). rewrite Hpre.
  unfold prepend; cbn [out_trace out_cache out_result]. by rewrite app_assoc.
Qed.

Lemma complete_text_hf_first_return w message model max_tokens temperature
    json_object n sleep_time kwargs c tr c1 m t args k completion :
  hf_prepare w message model max_tokens temperature json_object kwargs c
  = mkOut tr c1 (Return (m, t, args)) ->
  (forall i, (i < k)%nat -> exists e, hf_generate w i m t args = inl e) ->
  hf_generate w k m t args = inr completion ->
  (k < n)%nat ->
  exists pre,
    complete_text_hf w message model max_tokens temperature json_object
      n sleep_time kwargs c
    = mkOut (pre ++ [EvHfGenerate k args]) c1 (Return (VText completion)).
Proof.
  intros Hprep Hfail Hok Hlt.
  rewrite (complete_text_hf_run _ _ _ _ _ _ _ _ _ _ _ _ _ _ _ Hprep).
  destruct (hf_loop_first_return w m t args sleep_time c1 k n 0%nat Unbound
              completion Hfail Hok Hlt) as [pre Hpre].
  exists (tr ++ pre). rewrite Hpre.
  unfold prepend; cbn [out_trace out_cache out_result]. by rewrite app_assoc.
Qed.

(** ** C1: the JSON extraction *)

(** C1 (as amended).  With [json_object] set, [get_gpt_output] parses the
    substring of the response text from its first "{" to its last "}" and
    returns the parsed value of the first attempt for which this works.
    [complete_text_claude] and [complete_text_gemini] (with [return_raw]
    unset) make no extraction: they parse the whole response text, and
    return the parsed value of the first attempt whose whole text
    parses. *)
Theorem C1_json_extraction :
  forall (w : World) (rq : Request) (n sleep_time : nat) (kwargs : list string)
         (c : gmap string (hf_model * hf_tokenizer)) (k : nat) (text : string)
         (j : json),
    json_object rq = true ->
    (k < n)%nat ->
    ((forall i, (i < k)%nat ->
        exists e, gpt_attempt_outcome w (gpt_request rq) (json_object rq) i = inl e) ->
     openai_create w k (gpt_request rq) = inr text ->
     Json.loads (PyStr.slice text (PyStr.find text "{") (PyStr.rfind text "}" + 1))
     = Some j ->
     out_result (get_gpt_output w rq n sleep_time c) = Return (VJson j))
    /\
    (return_raw rq = false ->
     anthropic_init w (environ w "ANTHROPIC_API_KEY") = None ->
     (forall i, (i < k)%nat ->
        exists e, attempt_outcome (claude_fetch w (claude_request rq kwargs) (return_raw rq))
                    (json_object rq) (return_raw rq) i = inl e) ->
     forall r, anthropic_create w k (claude_request rq kwargs) = inr r ->
     raw_text r = inr text ->
     Json.loads text = Some j ->
     out_result (complete_text_claude w rq n sleep_time kwargs c) = Return (VJson j))
    /\
    (return_raw rq = false ->
     out_result (gemini_setup w c) = Return tt ->
     forall call r,
       gemini_call_of (model rq) (gemini_messages rq)
         (gemini_generation_config (model rq) (max_tokens rq) (temperature rq) kwargs)
       = inr call ->
       (forall i, (i < k)%nat ->
          exists e, attempt_outcome (gemini_fetch w (inr call) (return_raw rq))
                      (json_object rq) (return_raw rq) i = inl e) ->
       genai_call w k call = inr r ->
       raw_text r = inr text ->
       Json.loads text = Some j ->
       out_result (complete_text_gemini w rq n sleep_time kwargs c) = Return (VJson j)).
Proof.
  intros w rq n sleep_time kwargs c k text j Hj Hlt. split; [|split].
  - intros Hfail Hcall Hparse.
    destruct (get_gpt_output_first_return w rq n sleep_time c k (VJson j)) as [pre ->];
      try done.
    unfold gpt_attempt_outcome, gpt_normalize, json_loads, gpt_extract.
    by rewrite Hcall, Hj, Hparse.
  - intros Hraw Hinit Hfail r Hcall Htext Hparse.
    destruct (complete_text_claude_first_return w rq n sleep_time kwargs c k (VJson j))
      as [pre ->]; try done.
    unfold attempt_outcome, claude_fetch, response_text, parse_or_return, json_loads.
    rewrite Hcall, Hraw, Hj, Htext. cbn. by rewrite Hparse.
  - intros Hraw Hsetup call r Hshape Hfail Hcall Htext Hparse.
    destruct (complete_text_gemini_first_return w rq n sleep_time kwargs c k (VJson j) call)
      as [pre ->]; try done.
    unfold attempt_outcome, gemini_fetch, response_text, parse_or_return, json_loads.
    rewrite Hcall, Hraw, Hj, Htext. cbn. by rewrite Hparse.
Qed.

(** C1 on the worked example for family A, and on the bare object for
    families B and C. *)
Lemma C1_json_extraction_witness :
  out_result (get_gpt_output (test_world (fun _ => inr sure_thanks))
                (test_request "gpt-4-0125-preview" true) 5 60 ∅)
  = Return (VJson object_a1)
  /\ out_result (complete_text_claude (test_world (fun _ => inr object_a1_text))
                   (test_request "claude-2.1" true) 100 5 [] ∅)
     = Return (VJson object_a1)
  /\ out_result (complete_text_gemini (test_world (fun _ => inr object_a1_text))
                   (test_request "gemini-1.5-flash" true) 5 30 [] ∅)
     = Return (VJson object_a1).
Proof.
  split; [|split].
  - destruct (C1_json_extraction (test_world (fun _ => inr sure_thanks))
                (test_request "gpt-4-0125-preview" true) 5 60 [] ∅ 0 sure_thanks
                object_a1 eq_refl ltac:(lia)) as (H & _).
    apply H; [intros i Hi; lia | reflexivity | vm_compute; reflexivity].
  - destruct (C1_json_extraction (test_world (fun _ => inr object_a1_text))
                (test_request "claude-2.1" true) 100 5 [] ∅ 0 object_a1_text
                object_a1 eq_refl ltac:(lia)) as (_ & H & _).
    apply (H eq_refl eq_refl) with (r := text_response object_a1_text);
      [intros i Hi; lia | reflexivity | reflexivity | vm_compute; reflexivity].
  - destruct (C1_json_extraction (test_world (fun _ => inr object_a1_text))
                (test_request "gemini-1.5-flash" true) 5 30 [] ∅ 0 object_a1_text
                object_a1 eq_refl ltac:(lia)) as (_ & _ & H).
    eapply (H eq_refl eq_refl) with (r := text_response object_a1_text);
      [reflexivity | intros i Hi; lia | reflexivity | reflexivity
      | vm_compute; reflexivity].
Defined.

(** C1 as stated fails for families B and C: on the response text
    Sure! {"a": 1} Thanks, given in every attempt, they do not return the
    embedded object; each attempt fails to parse and the call ends by
    raising. *)
Lemma C1_counterexample :
  let w := test_world (fun _ => inr sure_thanks) in
  out_result (complete_text_claude w (test_request "claude-2.1" true) 3 0 [] ∅)
  = Raise (UnboundLocalError "e")
  /\ out_result (complete_text_gemini w (test_request "gemini-1.5-flash" true) 3 0 [] ∅)
     = Raise (UnboundLocalError "e")
  /\ out_result (complete_text_claude w (test_request "claude-2.1" true) 3 0 [] ∅)
     <> Return (VJson object_a1)
  /\ out_result (complete_text_gemini w (test_request "gemini-1.5-flash" true) 3 0 [] ∅)
     <> Return (VJson object_a1).
Proof.
  assert (H1 : out_result (complete_text_claude (test_world (fun _ => inr sure_thanks))
                 (test_request "claude-2.1" true) 3 0 [] ∅)
               = Raise (UnboundLocalError "e")) by (vm_compute; reflexivity).
  assert (H2 : out_result (complete_text_gemini (test_world (fun _ => inr sure_thanks))
                 (test_request "gemini-1.5-flash" true) 3 0 [] ∅)
               = Raise (UnboundLocalError "e")) by (vm_compute; reflexivity).
  cbv zeta. rewrite H1, H2. by repeat split.
Qed.

(** ** C8: returning on the first success *)

(** C8 (as amended).  In each of the four callers, when attempt [k], below
    the bound, is the first that comes to a value (its invocation returns
    and, where the caller normalises the answer, the normalisation
    succeeds too), the call returns that value and the invocation of
    attempt [k] is the last event of the run: no sleep follows it and no
    later attempt is made. *)
Theorem C8_return_on_first_success :
  forall (w : World) (rq : Request) (n sleep_time : nat) (kwargs : list string)
         (c : gmap string (hf_model * hf_tokenizer)) (k : nat),
    (k < n)%nat ->
    (forall v,
       (forall i, (i < k)%nat ->
          exists e, gpt_attempt_outcome w (gpt_request rq) (json_object rq) i = inl e) ->
       gpt_attempt_outcome w (gpt_request rq) (json_object rq) k = inr v ->
       exists pre,
         get_gpt_output w rq n sleep_time c
         = mkOut (pre ++ [EvOpenAICreate k (gpt_request rq)]) c (Return v))
    /\
    (forall v,
       anthropic_init w (environ w "ANTHROPIC_API_KEY") = None ->
       (forall i, (i < k)%nat ->
          exists e, attempt_outcome (claude_fetch w (claude_request rq kwargs) (return_raw rq))
                      (json_object rq) (return_raw rq) i = inl e) ->
       attempt_outcome (claude_fetch w (claude_request rq kwargs) (return_raw rq))
         (json_object rq) (return_raw rq) k = inr v ->
       exists pre,
         complete_text_claude w rq n sleep_time kwargs c
         = mkOut (pre ++ [EvAnthropicCreate k (claude_request rq kwargs)]) c (Return v))
    /\
    (forall v call,
       out_result (gemini_setup w c) = Return tt ->
       gemini_call_of (model rq) (gemini_messages rq)
         (gemini_generation_config (model rq) (max_tokens rq) (temperature rq) kwargs)
       = inr call ->
       (forall i, (i < k)%nat ->
          exists e, attempt_outcome (gemini_fetch w (inr call) (return_raw rq))
                      (json_object rq) (return_raw rq) i = inl e) ->
       attempt_outcome (gemini_fetch w (inr call) (return_raw rq))
         (json_object rq) (return_raw rq) k = inr v ->
       exists pre,
         complete_text_gemini w rq n sleep_time kwargs c
         = mkOut (pre ++ [EvGenaiCall k call]) c (Return v))
    /\
    (forall tr c1 m t args completion,
       hf_prepare w (message rq) (model rq) (max_tokens rq) (temperature rq)
         (json_object rq) kwargs c = mkOut tr c1 (Return (m, t, args)) ->
       (forall i, (i < k)%nat -> exists e, hf_generate w i m t args = inl e) ->
       hf_generate w k m t args = inr completion ->
       exists pre,
         complete_text_hf w (message rq) (model rq) (max_tokens rq) (temperature rq)
           (json_object rq) n sleep_time kwargs c
         = mkOut (pre ++ [EvHfGenerate k args]) c1 (Return (VText completion))).
Proof.
  intros w rq n sleep_time kwargs c k Hlt. split; [|split; [|split]].
  - intros v Hfail Hok. by apply get_gpt_output_first_return.
  - intros v Hinit Hfail Hok. by apply complete_text_claude_first_return.
  - intros v call Hsetup Hcall Hfail Hok. by apply complete_text_gemini_first_return.
  - intros tr c1 m t args completion Hprep Hfail Hok.
    by eapply complete_text_hf_first_return.
Qed.

(** C8 as stated fails: with [json_object] set, the invocation of attempt 0
    returns the text "oops", and [get_gpt_output] does not return; it makes
    attempt 1, whose invocation raises, sleeps, and raises. *)
Lemma C8_counterexample :
  let w := test_world oops_then_raise in
  let rq := test_request "gpt-4-0125-preview" true in
  openai_create w 0 (gpt_request rq) = inr "oops"
  /\ get_gpt_output w rq 2 60 ∅
     = mkOut [EvOpenAICreate 0 (gpt_request rq);
              EvPrintResult (VText "");
              EvPrintJsonError 0 (JSONDecodeError "");
              EvOpenAICreate 1 (gpt_request rq);
              EvPrintRetry 1 rate_limit 60;
              EvSleep 60]
         ∅ (Raise rate_limit).
Proof. split; [reflexivity | vm_compute; reflexivity]. Qed.

(** C8 on a backend that raises once and then answers: families A and D
    return the answer of attempt 1, and its invocation ends the run. *)
Lemma C8_return_on_first_success_witness :
  let w := test_world raise_then_fine in
  let rq := test_request "gpt-4-0125-preview" false in
  let rd := test_request "huggingface/codellama/CodeLlama-7b-hf" false in
  let oa := get_gpt_output w rq 5 60 ∅ in
  let od := complete_text_hf w (message rd) (model rd) (max_tokens rd)
              (temperature rd) (json_object rd) 5 60 [] ∅ in
  (out_result oa = Return (VText "fine")
   /\ last (out_trace oa) = Some (EvOpenAICreate 1 (gpt_request rq)))
  /\ (out_result od = Return (VText "fine")
      /\ exists args, last (out_trace od) = Some (EvHfGenerate 1 args)).
Proof.
  intros w rq rd oa od.
  destruct (C8_return_on_first_success w rq 5 60 [] ∅ 1 ltac:(lia)) as (HA & _).
  destruct (C8_return_on_first_success w rd 5 60 [] ∅ 1 ltac:(lia))
    as (_ & _ & _ & HD).
  split.
  - destruct (HA (VText "fine")) as [pre Hpre].
    + intros i Hi. assert (i = 0%nat) as -> by lia. by eexists.
    + reflexivity.
    + subst oa. rewrite Hpre. cbn [out_result out_trace].
      split; [reflexivity | apply last_snoc].
  - destruct (HD [EvLoadModel "codellama/CodeLlama-7b-hf" Cpu;
                  EvLoadTokenizer "codellama/CodeLlama-7b-hf";
                  EvTokenize (MsgStr "hi")]
                (<["codellama/CodeLlama-7b-hf" :=
                     ({| model_handle := 7 |}, {| tokenizer_handle := 8 |})]> ∅)
                {| model_handle := 7 |} {| tokenizer_handle := 8 |}
                {| ga_input_ids := [1; 2; 3]; ga_temperature := 1%Q;
                   ga_max_new_tokens := 2048; ga_kwargs := [] |} "fine")
      as [pre Hpre].
    + subst rd. apply hf_prepare_miss; reflexivity.
    + intros i Hi. assert (i = 0%nat) as -> by lia. by eexists.
    + reflexivity.
    + subst od. rewrite Hpre. cbn [out_result out_trace].
      split; [reflexivity|]. eexists. apply last_snoc.
Defined.

(** ** C7: a response without a pair of braces *)

Lemma substring_zero_len (s : string) (k : nat) : String.substring k 0 s = "".
Proof. revert k. induction s as [|a s IH]; intros [|k]; cbn; auto. Qed.

Lemma substring_one (s : string) (k : nat) (ch : ascii) :
  String.get k s = Some ch -> String.substring k 1 s = String ch "".
Proof.
  revert k. induction s as [|a s IH]; intros [|k] H; cbn in *; try discriminate.
  - injection H as ->. by rewrite substring_zero_len.
  - by apply IH.
Qed.

Lemma find_from_range (sub s : string) (i : Z) :
  0 <= i -> PyStr.find_from sub s i = -1 \/ i <= PyStr.find_from sub s i.
Proof.
  revert i. induction s as [|a s IH]; intros i Hi; cbn [PyStr.find_from].
  - destruct (PyStr.startswith sub ""); lia.
  - destruct (PyStr.startswith sub (String a s)); [lia|].
    destruct (IH (i + 1) ltac:(lia)); lia.
Qed.

(** [rfind] of the closing brace is -1 or the index of a closing brace. *)
Lemma rfind_from_brace (s : string) (i : Z) :
  0 <= i ->
  PyStr.rfind_from "}" s i = -1
  \/ (i <= PyStr.rfind_from "}" s i < i + PyStr.len s
      /\ String.get (Z.to_nat (PyStr.rfind_from "}" s i - i)) s = Some "}"%char).
Proof.
  revert i. induction s as [|a s IH]; intros i Hi; cbn [PyStr.rfind_from].
  - by left.
  - assert (Hlen : PyStr.len (String a s) = PyStr.len s + 1)
      by (unfold PyStr.len; cbn [String.length]; lia).
    destruct (IH (i + 1) ltac:(lia)) as [Hr | (Hb & Hg)].
    + rewrite Hr. cbn [Z.leb Z.compare]. cbn [PyStr.startswith].
      destruct (Ascii.eqb_spec "}" a) as [<-|Hne]; [right | by left].
      split; [unfold PyStr.len in *; lia|]. by rewrite Z.sub_diag.
    + destruct (Z.leb_spec 0 (PyStr.rfind_from "}" s (i + 1))); [|lia].
      right. split; [lia|].
      replace (Z.to_nat (PyStr.rfind_from "}" s (i + 1) - i))
        with (S (Z.to_nat (PyStr.rfind_from "}" s (i + 1) - (i + 1)))) by lia.
      exact Hg.
Qed.

(** Without a "{" before a "}", the slice of line 75 is empty or is the
    single closing brace that ends the text. *)
Lemma gpt_extract_no_pair (text : string) :
  PyStr.find text "{" = -1 \/ PyStr.rfind text "}" < PyStr.find text "{" ->
  gpt_extract text = "" \/ gpt_extract text = "}".
Proof.
  intros H. unfold gpt_extract, PyStr.slice.
  pose proof (rfind_from_brace text 0 ltac:(lia)) as Hr.
  pose proof (find_from_range "{" text 0 ltac:(lia)) as Hf.
  fold (PyStr.rfind text "}") in Hr. fold (PyStr.find text "{") in Hf.
  set (f := PyStr.find text "{") in *. set (r := PyStr.rfind text "}") in *.
  set (n := PyStr.len text) in *.
  assert (Hn : 0 <= n) by (unfold n, PyStr.len; lia).
  destruct (decide (f = -1 /\ r = n - 1 /\ 0 <= r)) as [(Hf1 & Hrn & Hr0)|Hno].
  - right. destruct Hr as [Hr|(Hb & Hg)]; [lia|].
    assert (Ha : PyStr.clamp n f = n - 1) by (unfold PyStr.clamp; rewrite Hf1; cbn; lia).
    assert (Hb' : PyStr.clamp n (r + 1) = n).
    { unfold PyStr.clamp. destruct (Z.ltb_spec (r + 1) 0); lia. }
    rewrite Ha, Hb'. replace (Z.to_nat (n - (n - 1))) with 1%nat by lia.
    apply substring_one. rewrite Z.sub_0_r in Hg.
    by replace (Z.to_nat (n - 1)) with (Z.to_nat r) by lia.
  - left.
    replace (Z.to_nat (PyStr.clamp n (r + 1) - PyStr.clamp n f)) with 0%nat;
      [apply substring_zero_len|].
    unfold PyStr.clamp.
    destruct (Z.ltb_spec (r + 1) 0), (Z.ltb_spec f 0); lia.
Qed.

Lemma gpt_extract_no_brace (text : string) :
  PyStr.find text "{" = -1 -> PyStr.rfind text "}" = -1 -> gpt_extract text = "".
Proof.
  intros Hf Hr. unfold gpt_extract, PyStr.slice. rewrite Hf, Hr.
  assert (Hz : Z.to_nat (PyStr.clamp (PyStr.len text) (-1 + 1)
                         - PyStr.clamp (PyStr.len text) (-1)) = 0%nat).
  { unfold PyStr.clamp, PyStr.len.
    destruct (Z.ltb_spec (-1 + 1) 0), (Z.ltb_spec (-1) 0); lia. }
  rewrite Hz. apply substring_zero_len.
Qed.

Lemma loads_no_pair (text : string) :
  PyStr.find text "{" = -1 \/ PyStr.rfind text "}" < PyStr.find text "{" ->
  Json.loads (gpt_extract text) = None.
Proof.
  intros H. by destruct (gpt_extract_no_pair text H) as [-> | ->].
Qed.

Lemma parse_or_return_json_not_text (x : value) (t : string) :
  parse_or_return true false x <> inr (VText t).
Proof.
  unfold parse_or_return, json_loads. cbn.
  destruct x as [t'| |]; [|done..]. by destruct (Json.loads t').
Qed.

Lemma complete_text_claude_json_not_text w rq n sleep_time kwargs c t :
  json_object rq = true -> return_raw rq = false ->
  out_result (complete_text_claude w rq n sleep_time kwargs c) <> Return (VText t).
Proof.
  intros Hj Hraw Hret. rewrite complete_text_claude_run in Hret.
  cbn [prepend out_result] in Hret.
  destruct (anthropic_init w (environ w "ANTHROPIC_API_KEY")).
  - apply retry_loop_return_inv
      with (tr := fun _ => []) (fetch := fun _ => inl (UnboundLocalError "anthropic_client"))
      in Hret as (k & _ & Hout); [done|].
    intros cnt. apply claude_attempt_unbound.
  - apply retry_loop_return_inv
      with (tr := fun cnt => [EvAnthropicCreate cnt (claude_request rq kwargs)])
           (fetch := claude_fetch w (claude_request rq kwargs) (return_raw rq))
      in Hret as (k & _ & Hout); [|intros cnt; apply claude_attempt_run].
    unfold attempt_outcome in Hout. rewrite Hj, Hraw in Hout.
    destruct (claude_fetch _ _ _ k); [done|].
    by apply parse_or_return_json_not_text in Hout.
Qed.

Lemma complete_text_gemini_json_not_text w rq n sleep_time kwargs c t :
  json_object rq = true -> return_raw rq = false ->
  out_result (complete_text_gemini w rq n sleep_time kwargs c) <> Return (VText t).
Proof.
  intros Hj Hraw Hret.
  destruct (out_result (gemini_setup w c)) as [[]|e] eqn:Hs.
  - rewrite complete_text_gemini_run in Hret by done.
    cbn [prepend out_result] in Hret.
    eapply retry_loop_return_inv in Hret as (k & _ & Hout);
      [|intros cnt; apply gemini_attempt_run].
    unfold attempt_outcome in Hout. rewrite Hj, Hraw in Hout.
    destruct (gemini_attempt_fetch _ _ _ _ _ k); [done|].
    by apply parse_or_return_json_not_text in Hout.
  - unfold complete_text_gemini in Hret.
    rewrite (bind_raise _ _ c (out_trace (gemini_setup w c)) c e) in Hret; [done|].
    rewrite (outcome_eta (gemini_setup w c)) at 1.
    by rewrite Hs, gemini_setup_cache.
Qed.

(** Attempts of family A that answer with text whose slice does not parse
    are consumed one after the other, without a sleep and without touching
    [error]. *)
Lemma gpt_loop_parse_failures w req sleep_time c (texts : nat -> string) (k : nat) :
  forall (n cnt : nat) (error : local_var),
    (forall i, (i < k)%nat ->
       openai_create w (cnt + i) req = inr (texts (cnt + i)%nat)
       /\ Json.loads (gpt_extract (texts (cnt + i)%nat)) = None) ->
    gpt_loop w req true sleep_time (k + n) cnt error c
    = prepend
        (flat_map (fun i => [EvOpenAICreate i req;
                             EvPrintResult (VText (gpt_extract (texts i)));
                             EvPrintJsonError i (JSONDecodeError (gpt_extract (texts i)))])
           (seq cnt k))
        (gpt_loop w req true sleep_time n (cnt + k) error c).
Proof.
  induction k as [|k IH]; intros n cnt error Hall.
  - cbn [Nat.add seq flat_map]. by rewrite prepend_nil, Nat.add_0_r.
  - destruct (Hall 0%nat ltac:(lia)) as [Hcall Hloads]. rewrite Nat.add_0_r in Hcall, Hloads.
    change (S k + n)%nat with (S (k + n)).
    rewrite (gpt_loop_parse_raises w req true sleep_time (k + n) cnt error c
               (texts cnt) (JSONDecodeError (gpt_extract (texts cnt))) Hcall).
    + rewrite (IH n (S cnt) error).
      * cbn [seq flat_map gpt_printed]. rewrite Nat.add_succ_r.
        unfold prepend; cbn [out_trace out_cache out_result app]. reflexivity.
      * intros i Hi. specialize (Hall (S i) ltac:(lia)).
        by rewrite Nat.add_succ_r in Hall.
    + unfold gpt_normalize, json_loads. by rewrite Hloads.
Qed.

(** C7 (as amended).  With [json_object] set:
    - in [get_gpt_output] an attempt whose response text has no "{"
      followed by a "}" (one of the two is missing, or the last "}" comes
      before the first "{") does not return: the slice of line 75 does not
      parse (it is empty when both braces are missing), the handler prints,
      and the loop goes on with the next attempt, one attempt fewer being
      left, without sleeping; a call whose first [k] attempts are of this
      kind has made [k] invocations and no sleep when it reaches attempt
      [k], and ends in UnboundLocalError for [error] when [k] is the bound;
      the call never returns response text as such;
    - [complete_text_claude] and [complete_text_gemini], with [return_raw]
      unset, make no slice and parse the whole text: the attempt is
      consumed in the same way exactly when the whole text is not valid
      JSON, and a text that is valid JSON is returned parsed at once, also
      when it holds no brace;
    - [complete_text_hf] does not parse: it returns the completion of the
      first attempt that generates one, as text, whatever it holds. *)
Theorem C7_no_brace_pair_consumes_attempt :
  forall (w : World) (rq : Request) (sleep_time : nat)
         (c : gmap string (hf_model * hf_tokenizer)),
    json_object rq = true ->
    (forall (n cnt : nat) (error : local_var) (text : string),
       openai_create w cnt (gpt_request rq) = inr text ->
       PyStr.find text "{" = -1 \/ PyStr.rfind text "}" < PyStr.find text "{" ->
       Json.loads (gpt_extract text) = None
       /\ gpt_loop w (gpt_request rq) (json_object rq) sleep_time (S n) cnt error c
          = prepend [EvOpenAICreate cnt (gpt_request rq);
                     EvPrintResult (VText (gpt_extract text));
                     EvPrintJsonError cnt (JSONDecodeError (gpt_extract text))]
              (gpt_loop w (gpt_request rq) (json_object rq) sleep_time n (S cnt) error c)
       /\ (PyStr.find text "{" = -1 -> PyStr.rfind text "}" = -1 ->
           gpt_extract text = ""))
    /\ (forall (k n : nat) (texts : nat -> string),
          (forall i, (i < k)%nat ->
             openai_create w i (gpt_request rq) = inr (texts i)
             /\ (PyStr.find (texts i) "{" = -1
                 \/ PyStr.rfind (texts i) "}" < PyStr.find (texts i) "{")) ->
          get_gpt_output w rq (k + n) sleep_time c
          = prepend
              (flat_map
                 (fun i => [EvOpenAICreate i (gpt_request rq);
                            EvPrintResult (VText (gpt_extract (texts i)));
                            EvPrintJsonError i (JSONDecodeError (gpt_extract (texts i)))])
                 (seq 0 k))
              (gpt_loop w (gpt_request rq) (json_object rq) sleep_time n k Unbound c)
          /\ get_gpt_output w rq k sleep_time c
             = mkOut
                 (flat_map
                    (fun i => [EvOpenAICreate i (gpt_request rq);
                               EvPrintResult (VText (gpt_extract (texts i)));
                               EvPrintJsonError i
                                 (JSONDecodeError (gpt_extract (texts i)))])
                    (seq 0 k))
                 c (Raise (UnboundLocalError "error")))
    /\ (forall max_retry t,
          out_result (get_gpt_output w rq max_retry sleep_time c) <> Return (VText t))
    /\ (return_raw rq = false ->
        forall max_retry kwargs t,
          out_result (complete_text_claude w rq max_retry sleep_time kwargs c)
          <> Return (VText t)
          /\ out_result (complete_text_gemini w rq max_retry sleep_time kwargs c)
             <> Return (VText t))
    /\ (return_raw rq = false ->
        forall (n : nat) (kwargs : list string) (r : raw_response) (whole : string),
          anthropic_init w (environ w "ANTHROPIC_API_KEY") = None ->
          anthropic_create w 0 (claude_request rq kwargs) = inr r ->
          raw_text r = inr whole ->
          (Json.loads whole = None ->
           complete_text_claude w rq (S n) sleep_time kwargs c
           = prepend
               (claude_setup_trace w
                ++ [EvAnthropicCreate 0 (claude_request rq kwargs);
                    EvPrintResult (VText whole);
                    EvPrintJsonError 0 (JSONDecodeError whole)])
               (retry_loop
                  (claude_attempt w true (claude_request rq kwargs) (return_raw rq))
                  (json_object rq) (return_raw rq) sleep_time n 1 Unbound c))
          /\ (forall j, Json.loads whole = Some j ->
                complete_text_claude w rq (S n) sleep_time kwargs c
                = mkOut (claude_setup_trace w
                         ++ [EvAnthropicCreate 0 (claude_request rq kwargs)])
                    c (Return (VJson j))))
    /\ (return_raw rq = false ->
        forall (n : nat) (kwargs : list string) (call : GeminiCall) (r : raw_response)
               (whole : string),
          out_result (gemini_setup w c) = Return tt ->
          gemini_call_of (model rq) (gemini_messages rq)
            (gemini_generation_config (model rq) (max_tokens rq) (temperature rq) kwargs)
          = inr call ->
          genai_call w 0 call = inr r ->
          raw_text r = inr whole ->
          (Json.loads whole = None ->
           complete_text_gemini w rq (S n) sleep_time kwargs c
           = prepend
               (out_trace (gemini_setup w c)
                ++ [EvGenaiCall 0 call;
                    EvPrintResult (VText whole);
                    EvPrintJsonError 0 (JSONDecodeError whole)])
               (retry_loop
                  (gemini_attempt w (model rq) (gemini_messages rq) (max_tokens rq)
                     (temperature rq) kwargs (return_raw rq))
                  (json_object rq) (return_raw rq) sleep_time n 1 Unbound c))
          /\ (forall j, Json.loads whole = Some j ->
                complete_text_gemini w rq (S n) sleep_time kwargs c
                = mkOut (out_trace (gemini_setup w c) ++ [EvGenaiCall 0 call])
                    c (Return (VJson j))))
    /\ (return_raw rq = false ->
        forall (n cnt : nat) (attempt : nat -> M value) (tr : list event)
               (whole : string) (e : local_var),
          attempt cnt c = mkOut tr c (Return (VText whole)) ->
          Json.loads whole = None ->
          retry_loop attempt (json_object rq) (return_raw rq) sleep_time (S n) cnt e c
          = prepend (tr ++ [EvPrintResult (VText whole);
                            EvPrintJsonError cnt (JSONDecodeError whole)])
              (retry_loop attempt (json_object rq) (return_raw rq) sleep_time n
                 (S cnt) Unbound c))
    /\ (forall (n : nat) (kwargs : list string) (tr : list event)
               (c1 : gmap string (hf_model * hf_tokenizer)) (m : hf_model)
               (t : hf_tokenizer) (args : GenerateArgs) (text : string),
          hf_prepare w (message rq) (model rq) (max_tokens rq) (temperature rq)
            (json_object rq) kwargs c = mkOut tr c1 (Return (m, t, args)) ->
          hf_generate w 0 m t args = inr text ->
          complete_text_hf w (message rq) (model rq) (max_tokens rq) (temperature rq)
            (json_object rq) (S n) sleep_time kwargs c
          = mkOut (tr ++ [EvHfGenerate 0 args]) c1 (Return (VText text))).
Proof.
  intros w rq sleep_time c Hj.
  split; [|split; [|split; [|split; [|split; [|split; [|split]]]]]].
  - intros n cnt error text Hcall Hno.
    pose proof (loads_no_pair text Hno) as Hloads.
    split; [done|]. split; [|apply gpt_extract_no_brace].
    rewrite Hj.
    rewrite (gpt_loop_parse_raises w (gpt_request rq) true sleep_time n cnt error c
               text (JSONDecodeError (gpt_extract text)) Hcall); [done|].
    unfold gpt_normalize, json_loads. by rewrite Hloads.
  - intros k n texts Hall.
    assert (Hall' : forall i, (i < k)%nat ->
              openai_create w (0 + i) (gpt_request rq) = inr (texts (0 + i)%nat)
              /\ Json.loads (gpt_extract (texts (0 + i)%nat)) = None).
    { intros i Hi. destruct (Hall i Hi) as [Hcall Hno].
      split; [done | by apply loads_no_pair]. }
    unfold get_gpt_output. rewrite Hj. split.
    + by rewrite (gpt_loop_parse_failures w (gpt_request rq) sleep_time c texts k
                    n 0%nat Unbound Hall').
    + replace k with (k + 0)%nat at 1 by lia.
      rewrite (gpt_loop_parse_failures w (gpt_request rq) sleep_time c texts k
                 0%nat 0%nat Unbound Hall').
      unfold prepend; cbn [gpt_loop raise out_trace out_cache out_result raise_local].
      by rewrite app_nil_r.
  - intros max_retry t Hret. unfold get_gpt_output in Hret.
    apply gpt_loop_return_inv in Hret as (k & text' & _ & _ & Hnorm).
    rewrite Hj in Hnorm. unfold gpt_normalize, json_loads in Hnorm.
    by destruct (Json.loads (gpt_extract text')).
  - intros Hraw max_retry kwargs t. split.
    + by apply complete_text_claude_json_not_text.
    + by apply complete_text_gemini_json_not_text.
  - intros Hraw n kwargs r whole Hinit Hcall Htext.
    rewrite complete_text_claude_run, Hinit.
    rewrite (retry_loop_step _ _ _ _ _ _ _
               (fun cnt => claude_attempt_run w (claude_request rq kwargs)
                             (return_raw rq) cnt c)).
    unfold claude_fetch, response_text. rewrite Hcall, Hraw. cbn [negb].
    rewrite Htext, Hj. unfold parse_or_return, json_loads. cbn [andb negb].
    split.
    + intros Hloads. rewrite Hloads. unfold prepend; cbn [out_trace out_cache out_result].
      f_equal. rewrite <- !app_assoc. reflexivity.
    + intros j Hloads. rewrite Hloads. reflexivity.
  - intros Hraw n kwargs call r whole Hsetup Hshape Hcall Htext.
    rewrite complete_text_gemini_run by done.
    rewrite (retry_loop_step _ _ _ _ _ _ _
               (fun cnt => gemini_attempt_run_call w (model rq) (gemini_messages rq)
                             (max_tokens rq) (temperature rq) kwargs (return_raw rq)
                             cnt c call Hshape)).
    unfold gemini_fetch, response_text. rewrite Hcall, Hraw.
    rewrite Htext, Hj. unfold parse_or_return, json_loads. cbn [andb negb].
    split.
    + intros Hloads. rewrite Hloads. unfold prepend; cbn [out_trace out_cache out_result].
      f_equal. rewrite <- !app_assoc. reflexivity.
    + intros j Hloads. rewrite Hloads. reflexivity.
  - intros Hraw n cnt attempt tr whole e Hatt Hwhole.
    apply retry_loop_parse_raises with (result := VText whole); [done|].
    rewrite Hj, Hraw. unfold parse_or_return, json_loads. cbn. by rewrite Hwhole.
  - intros n kwargs tr c1 m t args text Hprep Hgen.
    rewrite (complete_text_hf_run _ _ _ _ _ _ _ _ _ _ _ _ _ _ _ Hprep).
    by rewrite (hf_loop_returns _ _ _ _ _ _ _ _ _ _ Hgen).
Qed.

(** C7 on a backend that answers "no braces" and then raises: the first
    attempt of [get_gpt_output] is consumed without a sleep and the second
    one is made. *)
Lemma C7_no_brace_pair_consumes_attempt_witness :
  let w := test_world (fun cnt => match cnt with
                                  | O => inr "no braces"
                                  | S _ => inl rate_limit
                                  end) in
  let rq := test_request "gpt-4-0125-preview" true in
  get_gpt_output w rq 2 60 ∅
  = mkOut [EvOpenAICreate 0 (gpt_request rq);
           EvPrintResult (VText "");
           EvPrintJsonError 0 (JSONDecodeError "");
           EvOpenAICreate 1 (gpt_request rq);
           EvPrintRetry 1 rate_limit 60;
           EvSleep 60]
      ∅ (Raise rate_limit).
Proof.
  intros w rq.
  destruct (C7_no_brace_pair_consumes_attempt w rq 60 ∅ eq_refl) as (_ & Hcall & _).
  destruct (Hcall 1%nat 1%nat (fun _ => "no braces")) as [Hrun _].
  - intros i Hi. assert (i = 0%nat) as -> by lia. split; [reflexivity | by left].
  - change (1 + 1)%nat with 2%nat in Hrun. rewrite Hrun. reflexivity.
Defined.

(** C7 as stated fails outside family A.  The response "42" holds no brace
    pair, and with [json_object] set [complete_text_claude] does not fail
    on it: the whole text parses, and the value 42 is returned from the
    first attempt.  The completion "no braces" is returned by
    [complete_text_hf] as it is, [json_object] being set. *)
Lemma C7_counterexample :
  PyStr.find "42" "{" = -1
  /\ complete_text_claude (test_world (fun _ => inr "42"))
       (test_request "claude-2.1" true) 3 0 [] ∅
     = mkOut [EvAnthropicInit (Some "a-key");
              EvAnthropicCreate 0 (claude_request (test_request "claude-2.1" true) [])]
         ∅ (Return (VJson (JInt 42)))
  /\ PyStr.find "no braces" "{" = -1
  /\ out_result
       (complete_text_hf (test_world (fun _ => inr "no braces")) (MsgStr "hi")
          "huggingface/codellama/CodeLlama-7b-hf" 2000 (1 # 2)%Q true 1 0 [] ∅)
     = Return (VText "no braces").
Proof.
  split; [reflexivity|]. split; [vm_compute; reflexivity|].
  split; [reflexivity|]. vm_compute. reflexivity.
Qed.

(** ** C10: return_raw in family A *)

(** C10.  [get_gpt_output] never reads [return_raw]: the run is the same
    for either value of the flag; a returned value is the text of the
    answer of some attempt when [json_object] is false and the value
    parsed from its slice when [json_object] is true, and never a raw
    response object. *)
Theorem C10_return_raw_ignored :
  forall (w : World) (rq : Request) (n sleep_time : nat)
         (c : gmap string (hf_model * hf_tokenizer)),
    (forall b,
       get_gpt_output w (with_return_raw b rq) n sleep_time c
       = get_gpt_output w rq n sleep_time c)
    /\
    (forall v,
       out_result (get_gpt_output w rq n sleep_time c) = Return v ->
       exists k text,
         (k < n)%nat
         /\ openai_create w k (gpt_request rq) = inr text
         /\ (if json_object rq
             then exists j, Json.loads (gpt_extract text) = Some j /\ v = VJson j
             else v = VText text))
    /\
    (forall r, out_result (get_gpt_output w rq n sleep_time c) <> Return (VRaw r)).
Proof.
  intros w rq n sleep_time c.
  assert (Hinv : forall v,
            out_result (get_gpt_output w rq n sleep_time c) = Return v ->
            exists k text,
              (k < n)%nat
              /\ openai_create w k (gpt_request rq) = inr text
              /\ (if json_object rq
                  then exists j, Json.loads (gpt_extract text) = Some j /\ v = VJson j
                  else v = VText text)).
  { intros v Hret. unfold get_gpt_output in Hret.
    apply gpt_loop_return_inv in Hret as (k & text & Hk & Hcall & Hnorm).
    exists k, text. split; [lia|]. split; [done|].
    unfold gpt_normalize, json_loads in Hnorm.
    destruct (json_object rq); [|congruence].
    destruct (Json.loads (gpt_extract text)) as [j|]; [|discriminate].
    exists j. split; congruence. }
  split; [|split].
  - intros b. reflexivity.
  - exact Hinv.
  - intros r Hret. destruct (Hinv _ Hret) as (k & text & _ & _ & Hv).
    destruct (json_object rq); [by destruct Hv as (j & _ & ?) | done].
Qed.

(** C10 on a request with [return_raw] set: the text of the answer comes
    back, as without the flag. *)
Lemma C10_return_raw_ignored_witness :
  let w := test_world raise_then_fine in
  let rq := test_request "gpt-4-0125-preview" false in
  out_result (get_gpt_output w (with_return_raw true rq) 5 60 ∅)
  = Return (VText "fine").
Proof.
  intros w rq.
  destruct (C10_return_raw_ignored w rq 5 60 ∅) as (Hsame & Hinv & _).
  rewrite (Hsame true).
  destruct (out_result (get_gpt_output w rq 5 60 ∅)) as [v|e] eqn:Hres.
  - destruct (Hinv v eq_refl) as (k & text & Hk & Hcall & Hv).
    cbn in Hv. subst v. destruct k as [|k]; [discriminate|].
    cbn in Hcall. congruence.
  - vm_compute in Hres. discriminate.
Defined.

(** * Further properties of api.py and of the demonstration script *)

(** ** The retry budget *)

Lemma total_sleep_app (l1 l2 : list event) :
  total_sleep (l1 ++ l2) = (total_sleep l1 + total_sleep l2)%nat.
Proof.
  induction l1 as [|ev l1 IH]; [reflexivity|].
  destruct ev; cbn [app total_sleep]; rewrite IH; lia.
Qed.

Lemma invocations_app (l1 l2 : list event) :
  invocations (l1 ++ l2) = (invocations l1 + invocations l2)%nat.
Proof. unfold invocations. by rewrite List.filter_app, length_app. Qed.

Lemma quiet_trace (tr : list event) :
  Forall (fun ev => is_sleep ev = false /\ is_invocation ev = false) tr ->
  total_sleep tr = 0%nat /\ invocations tr = 0%nat.
Proof.
  induction 1 as [|ev tr [Hs Hi] _ [IH1 IH2]]; [done|].
  unfold invocations in *. cbn [List.filter]. rewrite Hi.
  split; [|done]. by destruct ev.
Qed.

Lemma gpt_loop_budget w req json_object sleep_time c (n : nat) :
  forall (cnt : nat) (error : local_var),
    (total_sleep (out_trace (gpt_loop w req json_object sleep_time n cnt error c))
     <= n * sleep_time)%nat
    /\ (invocations (out_trace (gpt_loop w req json_object sleep_time n cnt error c))
        <= n)%nat.
Proof.
  induction n as [|n IH]; intros cnt error; [by split|].
  destruct (openai_create w cnt req) as [e|text] eqn:Hcall.
  - rewrite (gpt_loop_call_raises _ _ _ _ _ _ _ _ _ Hcall).
    destruct (IH (S cnt) (Bound e)) as [H1 H2].
    unfold prepend, invocations in *.
    cbn [out_trace app total_sleep List.filter is_invocation length]. lia.
  - destruct (gpt_normalize json_object text) as [e|v] eqn:Hnorm.
    + rewrite (gpt_loop_parse_raises _ _ _ _ _ _ _ _ _ _ Hcall Hnorm).
      destruct (IH (S cnt) error) as [H1 H2].
      unfold prepend, invocations in *.
      cbn [out_trace app total_sleep List.filter is_invocation length]. lia.
    + rewrite (gpt_loop_returns _ _ _ _ _ _ _ _ _ _ Hcall Hnorm).
      unfold invocations. cbn. lia.
Qed.

Lemma retry_loop_budget attempt json_object return_raw sleep_time c tr fetch :
  (forall cnt, attempt cnt c = mkOut (tr cnt) c (to_result (fetch cnt))) ->
  (forall cnt, total_sleep (tr cnt) = 0%nat /\ (invocations (tr cnt) <= 1)%nat) ->
  forall (n cnt : nat) (e : local_var),
    (total_sleep (out_trace (retry_loop attempt json_object return_raw sleep_time n cnt e c))
     <= n * sleep_time)%nat
    /\ (invocations (out_trace (retry_loop attempt json_object return_raw sleep_time n cnt e c))
        <= n)%nat.
Proof.
  intros Hrun Htr. induction n as [|n IH]; intros cnt e; [by split|].
  rewrite (retry_loop_step _ _ _ _ _ _ _ Hrun).
  destruct (Htr cnt) as [Hs Hi]. destruct (IH (S cnt) Unbound) as [H1 H2].
  destruct (fetch cnt) as [e1|result].
  - unfold prepend. cbn [out_trace].
    rewrite !total_sleep_app, !invocations_app, Hs.
    change (invocations [EvPrintRetry cnt e1 sleep_time; EvSleep sleep_time]) with 0%nat.
    cbn [total_sleep]. lia.
  - destruct (parse_or_return json_object return_raw result) as [e2|v].
    + unfold prepend. cbn [out_trace].
      rewrite !total_sleep_app, !invocations_app, Hs.
      change (invocations [EvPrintResult result; EvPrintJsonError cnt e2]) with 0%nat.
      cbn [total_sleep]. lia.
    + cbn [out_trace]. lia.
Qed.

Lemma hf_loop_budget w m t args sleep_time c (n : nat) :
  forall (cnt : nat) (e : local_var),
    (total_sleep (out_trace (hf_loop w m t args sleep_time n cnt e c))
     <= n * sleep_time)%nat
    /\ (invocations (out_trace (hf_loop w m t args sleep_time n cnt e c)) <= n)%nat.
Proof.
  induction n as [|n IH]; intros cnt e; [by split|].
  destruct (hf_generate w cnt m t args) as [e1|completion] eqn:Hg.
  - rewrite (hf_loop_generate_raises _ _ _ _ _ _ _ _ _ _ Hg).
    destruct (IH (S cnt) Unbound) as [H1 H2].
    unfold prepend, invocations in *.
    cbn [out_trace app total_sleep List.filter is_invocation length]. lia.
  - rewrite (hf_loop_returns _ _ _ _ _ _ _ _ _ _ Hg).
    unfold invocations. cbn. lia.
Qed.

Lemma gemini_setup_events (P : event -> Prop) w c :
  (forall key, P (EvGenaiConfigure key)) ->
  (forall e, P (EvPrintExn e)) ->
  (forall text, P (EvPrintStr text)) ->
  Forall P (out_trace (gemini_setup w c)).
Proof.
  intros Hc He Hs. unfold gemini_setup. run_monad.
  destruct (environ w "GEMINI_API_KEY") as [[|a k]|]; try by repeat constructor.
  destruct (genai_imported w); cbn; [|by repeat constructor].
  destruct (genai_configure w (String a k)); by repeat constructor.
Qed.

Lemma hf_prepare_events (P : event -> Prop) w message model max_tokens
    temperature json_object kwargs c :
  (forall ckpt d, P (EvLoadModel ckpt d)) ->
  (forall ckpt, P (EvLoadTokenizer ckpt)) ->
  (forall prompt, P (EvTokenize prompt)) ->
  Forall P (out_trace (hf_prepare w message model max_tokens temperature
                         json_object kwargs c)).
Proof.
  intros Hm Ht Hk. unfold hf_prepare, hf_lookup_or_load. run_monad.
  destruct (hf_prompt json_object message) as [e|prompt]; [constructor|].
  destruct (PyStr.split1_second model "/") as [checkpoint|]; [|constructor]. cbn.
  destruct (c !! checkpoint) as [[m t]|]; cbn.
  - destruct (hf_tokenize w t prompt (hf_device w)); by repeat constructor.
  - destruct (hf_load_model w checkpoint (hf_device w)) as [e|m]; cbn;
      [by repeat constructor|].
    destruct (hf_load_tokenizer w checkpoint) as [e|t]; cbn;
      [by repeat constructor|].
    destruct (hf_tokenize w t prompt (hf_device w)); by repeat constructor.
Qed.

Lemma get_gpt_output_budget w rq n sleep_time c :
  (total_sleep (out_trace (get_gpt_output w rq n sleep_time c)) <= n * sleep_time)%nat
  /\ (invocations (out_trace (get_gpt_output w rq n sleep_time c)) <= n)%nat.
Proof. apply gpt_loop_budget. Qed.

Lemma complete_text_claude_budget w rq n sleep_time kwargs c :
  (total_sleep (out_trace (complete_text_claude w rq n sleep_time kwargs c))
   <= n * sleep_time)%nat
  /\ (invocations (out_trace (complete_text_claude w rq n sleep_time kwargs c)) <= n)%nat.
Proof.
  rewrite complete_text_claude_run. cbn [prepend out_trace].
  rewrite total_sleep_app, invocations_app.
  assert (Hq : total_sleep (claude_setup_trace w) = 0%nat
               /\ invocations (claude_setup_trace w) = 0%nat).
  { apply quiet_trace. unfold claude_setup_trace.
    destruct (anthropic_init w (environ w "ANTHROPIC_API_KEY")); by repeat constructor. }
  destruct Hq as [-> ->].
  destruct (anthropic_init w (environ w "ANTHROPIC_API_KEY")).
  - apply retry_loop_budget
      with (tr := fun _ => []) (fetch := fun _ => inl (UnboundLocalError "anthropic_client"));
      [intros cnt; apply claude_attempt_unbound | intros cnt; cbn; lia].
  - apply retry_loop_budget
      with (tr := fun cnt => [EvAnthropicCreate cnt (claude_request rq kwargs)])
           (fetch := claude_fetch w (claude_request rq kwargs) (return_raw rq));
      [intros cnt; apply claude_attempt_run | intros cnt; cbn; lia].
Qed.

Lemma complete_text_gemini_budget w rq n sleep_time kwargs c :
  (total_sleep (out_trace (complete_text_gemini w rq n sleep_time kwargs c))
   <= n * sleep_time)%nat
  /\ (invocations (out_trace (complete_text_gemini w rq n sleep_time kwargs c)) <= n)%nat.
Proof.
  assert (Hq : total_sleep (out_trace (gemini_setup w c)) = 0%nat
               /\ invocations (out_trace (gemini_setup w c)) = 0%nat).
  { apply quiet_trace. by apply gemini_setup_events. }
  destruct Hq as [Hq1 Hq2].
  destruct (out_result (gemini_setup w c)) as [[]|e] eqn:Hs.
  - rewrite complete_text_gemini_run by done. cbn [prepend out_trace].
    rewrite total_sleep_app, invocations_app, Hq1, Hq2.
    eapply retry_loop_budget; [intros cnt; apply gemini_attempt_run|].
    intros cnt. cbv zeta. destruct (gemini_call_of _ _ _); cbn; lia.
  - unfold complete_text_gemini.
    rewrite (bind_raise _ _ c (out_trace (gemini_setup w c)) c e).
    + cbn [out_trace]. lia.
    + rewrite (outcome_eta (gemini_setup w c)) at 1.
      by rewrite Hs, gemini_setup_cache.
Qed.

Lemma complete_text_hf_budget w message model max_tokens temperature json_object
    n sleep_time kwargs c :
  let o := complete_text_hf w message model max_tokens temperature json_object
             n sleep_time kwargs c in
  (total_sleep (out_trace o) <= n * sleep_time)%nat
  /\ (invocations (out_trace o) <= n)%nat.
Proof.
  cbv zeta. rewrite complete_text_hf_outcome.
  assert (Hq : total_sleep (out_trace (hf_prepare w message model max_tokens
                                         temperature json_object kwargs c)) = 0%nat
               /\ invocations (out_trace (hf_prepare w message model max_tokens
                                            temperature json_object kwargs c)) = 0%nat).
  { apply quiet_trace. by apply hf_prepare_events. }
  destruct Hq as [Hq1 Hq2].
  destruct (out_result _) as [p|e]; cbn [prepend out_trace]; [|lia].
  rewrite total_sleep_app, invocations_app, Hq1, Hq2. apply hf_loop_budget.
Qed.

Lemma get_llm_output_tools_run w rq c :
  get_llm_output_tools w rq c
  = prepend (warning_trace (model rq))
      ((if PyStr.contains "gpt-4" (model rq) then
          get_gpt_output w rq MAX_OPENAI_RETRY OPENAI_SLEEP_TIME
        else if PyStr.contains "claude" (model rq) then
          complete_text_claude w rq MAX_CLAUDE_RETRY CLAUDE_SLEEP_TIME []
        else if (PyStr.contains "gemma" (model rq)
                 || PyStr.contains "gemini" (model rq))%bool then
          complete_text_gemini w rq MAX_GEMINI_RETRY GEMINI_SLEEP_TIME []
        else if PyStr.contains "huggingface" (model rq) then
          complete_text_hf w (message rq) (model rq) (max_tokens rq) (temperature rq)
            (json_object rq) 1 0 ["history"; "tools"; "return_raw"]
        else raise (ValueError ("Model " +:+ model rq +:+ " not recognized."))) c).
Proof.
  unfold get_llm_output_tools.
  by rewrite (bind_return _ _ _ _ _ _ (warn_unregistered_run (model rq) c)).
Qed.

(** X1.  No run makes more invocations than [max_retry] or sleeps longer
    than [max_retry * sleep_time] in total, in any of the four callers and
    whatever the backends do.  A call through the dispatcher therefore
    makes at most 100 invocations and sleeps at most 500 seconds. *)
Theorem X1_retry_budget :
  forall (w : World) (rq : Request) (n sleep_time : nat) (kwargs : list string)
         (c : gmap string (hf_model * hf_tokenizer)),
    ((total_sleep (out_trace (get_gpt_output w rq n sleep_time c)) <= n * sleep_time)%nat
     /\ (invocations (out_trace (get_gpt_output w rq n sleep_time c)) <= n)%nat)
    /\ ((total_sleep (out_trace (complete_text_claude w rq n sleep_time kwargs c))
         <= n * sleep_time)%nat
        /\ (invocations (out_trace (complete_text_claude w rq n sleep_time kwargs c))
            <= n)%nat)
    /\ ((total_sleep (out_trace (complete_text_gemini w rq n sleep_time kwargs c))
         <= n * sleep_time)%nat
        /\ (invocations (out_trace (complete_text_gemini w rq n sleep_time kwargs c))
            <= n)%nat)
    /\ ((total_sleep (out_trace (complete_text_hf w (message rq) (model rq)
                                   (max_tokens rq) (temperature rq) (json_object rq)
                                   n sleep_time kwargs c)) <= n * sleep_time)%nat
        /\ (invocations (out_trace (complete_text_hf w (message rq) (model rq)
                                      (max_tokens rq) (temperature rq) (json_object rq)
                                      n sleep_time kwargs c)) <= n)%nat)
    /\ ((total_sleep (out_trace (get_llm_output_tools w rq c)) <= 500)%nat
        /\ (invocations (out_trace (get_llm_output_tools w rq c)) <= 100)%nat).
Proof.
  intros w rq n sleep_time kwargs c.
  split; [apply get_gpt_output_budget|].
  split; [apply complete_text_claude_budget|].
  split; [apply complete_text_gemini_budget|].
  split; [apply complete_text_hf_budget|].
  rewrite get_llm_output_tools_run. cbn [prepend out_trace].
  rewrite total_sleep_app, invocations_app.
  assert (Hq : total_sleep (warning_trace (model rq)) = 0%nat
               /\ invocations (warning_trace (model rq)) = 0%nat).
  { apply quiet_trace. unfold warning_trace.
    destruct (registered (model rq)); by repeat constructor. }
  destruct Hq as [-> ->].
  destruct (PyStr.contains "gpt-4" (model rq)).
  { pose proof (get_gpt_output_budget w rq MAX_OPENAI_RETRY OPENAI_SLEEP_TIME c).
    unfold MAX_OPENAI_RETRY, OPENAI_SLEEP_TIME in *. lia. }
  destruct (PyStr.contains "claude" (model rq)).
  { pose proof (complete_text_claude_budget w rq MAX_CLAUDE_RETRY CLAUDE_SLEEP_TIME [] c).
    unfold MAX_CLAUDE_RETRY, CLAUDE_SLEEP_TIME in *. lia. }
  destruct (_ || _)%bool.
  { pose proof (complete_text_gemini_budget w rq MAX_GEMINI_RETRY GEMINI_SLEEP_TIME [] c).
    unfold MAX_GEMINI_RETRY, GEMINI_SLEEP_TIME in *. lia. }
  destruct (PyStr.contains "huggingface" (model rq)).
  { pose proof (complete_text_hf_budget w (message rq) (model rq) (max_tokens rq)
                  (temperature rq) (json_object rq) 1 0
                  ["history"; "tools"; "return_raw"] c) as H.
    cbv zeta in H. lia. }
  unfold raise, invocations. cbn. lia.
Qed.

(** ** Exhaustion *)

Lemma gpt_loop_all_raise_run w req json_object sleep_time c (ex : nat -> exn) (n : nat) :
  forall (cnt : nat) (error : local_var),
    (forall i, (i < n)%nat -> openai_create w (cnt + i) req = inl (ex (cnt + i)%nat)) ->
    gpt_loop w req json_object sleep_time n cnt error c
    = mkOut
        (flat_map (fun i => [EvOpenAICreate i req; EvPrintRetry i (ex i) sleep_time;
                             EvSleep sleep_time])
           (seq cnt n))
        c (Raise (match n with
                  | O => raise_local "error" error
                  | S n' => ex (cnt + n')%nat
                  end)).
Proof.
  induction n as [|n IH]; intros cnt error Hall; [reflexivity|].
  pose proof (Hall 0%nat ltac:(lia)) as H0. rewrite Nat.add_0_r in H0.
  rewrite (gpt_loop_call_raises _ _ _ _ _ _ _ _ _ H0), (IH (S cnt) (Bound (ex cnt))).
  - unfold prepend; cbn [out_trace out_cache out_result seq flat_map app].
    destruct n; cbn; [by rewrite Nat.add_0_r|]. by rewrite Nat.add_succ_r.
  - intros i Hi. specialize (Hall (S i) ltac:(lia)).
    by rewrite Nat.add_succ_r in Hall.
Qed.

Lemma hf_loop_all_raise_run w m t args sleep_time c (ex : nat -> exn) (n : nat) :
  forall (cnt : nat) (e : local_var),
    (forall i, (i < n)%nat -> hf_generate w (cnt + i) m t args = inl (ex (cnt + i)%nat)) ->
    hf_loop w m t args sleep_time n cnt e c
    = mkOut
        (flat_map (fun i => [EvHfGenerate i args; EvPrintHfRetry i (ex i);
                             EvSleep sleep_time])
           (seq cnt n))
        c (Raise (raise_local "e" (match n with O => e | S _ => Unbound end))).
Proof.
  induction n as [|n IH]; intros cnt e Hall; [reflexivity|].
  pose proof (Hall 0%nat ltac:(lia)) as H0. rewrite Nat.add_0_r in H0.
  rewrite (hf_loop_generate_raises _ _ _ _ _ _ _ _ _ _ H0), (IH (S cnt) Unbound).
  - unfold prepend; cbn [out_trace out_cache out_result seq flat_map app].
    by destruct n.
  - intros i Hi. specialize (Hall (S i) ltac:(lia)).
    by rewrite Nat.add_succ_r in Hall.
Qed.

(** X2.  When every invocation raises, a run is exactly [max_retry] rounds
    of invocation, print and sleep, and then the final raise: each caller
    sleeps [sleep_time] also after its last attempt, so the failure
    surfaces [max_retry * sleep_time] seconds after the time spent in the
    invocations.  (Families B and C with the client created and the set-up
    passed, family D with the checkpoint ready.) *)
Theorem X2_run_when_every_invocation_raises :
  forall (w : World) (rq : Request) (n sleep_time : nat) (kwargs : list string)
         (c : gmap string (hf_model * hf_tokenizer)) (ex : nat -> exn),
    ((forall i, (i < n)%nat -> openai_create w i (gpt_request rq) = inl (ex i)) ->
     get_gpt_output w rq n sleep_time c
     = mkOut
         (flat_map (fun i => [EvOpenAICreate i (gpt_request rq);
                              EvPrintRetry i (ex i) sleep_time; EvSleep sleep_time])
            (seq 0 n))
         c (Raise (match n with
                   | O => UnboundLocalError "error"
                   | S n' => ex n'
                   end)))
    /\
    (anthropic_init w (environ w "ANTHROPIC_API_KEY") = None ->
     (forall i, (i < n)%nat ->
        anthropic_create w i (claude_request rq kwargs) = inl (ex i)) ->
     complete_text_claude w rq n sleep_time kwargs c
     = mkOut
         (EvAnthropicInit (environ w "ANTHROPIC_API_KEY")
          :: flat_map (fun i => [EvAnthropicCreate i (claude_request rq kwargs);
                                 EvPrintRetry i (ex i) sleep_time; EvSleep sleep_time])
               (seq 0 n))
         c (Raise (raise_local "e" (match n with O => BoundNone | S _ => Unbound end))))
    /\
    (forall call,
       out_result (gemini_setup w c) = Return tt ->
       gemini_call_of (model rq) (gemini_messages rq)
         (gemini_generation_config (model rq) (max_tokens rq) (temperature rq) kwargs)
       = inr call ->
       (forall i, (i < n)%nat -> genai_call w i call = inl (ex i)) ->
       complete_text_gemini w rq n sleep_time kwargs c
       = mkOut
           (out_trace (gemini_setup w c)
            ++ flat_map (fun i => [EvGenaiCall i call;
                                   EvPrintRetry i (ex i) sleep_time; EvSleep sleep_time])
                 (seq 0 n))
           c (Raise (raise_local "e" (match n with O => BoundNone | S _ => Unbound end))))
    /\
    (forall tr c1 m t args,
       hf_prepare w (message rq) (model rq) (max_tokens rq) (temperature rq)
         (json_object rq) kwargs c = mkOut tr c1 (Return (m, t, args)) ->
       (forall i, (i < n)%nat -> hf_generate w i m t args = inl (ex i)) ->
       complete_text_hf w (message rq) (model rq) (max_tokens rq) (temperature rq)
         (json_object rq) n sleep_time kwargs c
       = mkOut
           (tr ++ flat_map (fun i => [EvHfGenerate i args; EvPrintHfRetry i (ex i);
                                      EvSleep sleep_time])
                    (seq 0 n))
           c1 (Raise (UnboundLocalError "e"))).
Proof.
  intros w rq n sleep_time kwargs c ex. split; [|split; [|split]].
  - intros Hall. unfold get_gpt_output.
    rewrite (gpt_loop_all_raise_run _ _ _ _ _ ex); [by destruct n | done].
  - intros Hinit Hall. rewrite complete_text_claude_run. unfold claude_setup_trace.
    rewrite Hinit.
    rewrite retry_loop_all_fetch_raise
      with (tr := fun cnt => [EvAnthropicCreate cnt (claude_request rq kwargs)])
           (fetch := claude_fetch w (claude_request rq kwargs) (return_raw rq))
           (ex := ex).
    + reflexivity.
    + intros cnt. apply claude_attempt_run.
    + intros i Hi. unfold claude_fetch. cbn. by rewrite (Hall i Hi).
  - intros call Hsetup Hcall Hall. rewrite complete_text_gemini_run by done.
    rewrite retry_loop_all_fetch_raise
      with (tr := fun cnt => [EvGenaiCall cnt call])
           (fetch := gemini_fetch w (inr call) (return_raw rq))
           (ex := ex).
    + reflexivity.
    + intros cnt. by apply gemini_attempt_run_call.
    + intros i Hi. unfold gemini_fetch. cbn. by rewrite (Hall i Hi).
  - intros tr c1 m t args Hprep Hall.
    rewrite (complete_text_hf_run _ _ _ _ _ _ _ _ _ _ _ _ _ _ _ Hprep).
    rewrite (hf_loop_all_raise_run _ _ _ _ _ _ ex); [by destruct n | done].
Qed.

(** X2 on two attempts of family A against a backend that always raises:
    two invocations and two sleeps of 60 seconds. *)
Lemma X2_run_when_every_invocation_raises_witness :
  let w := test_world (fun _ => inl rate_limit) in
  let rq := test_request "gpt-4-0125-preview" false in
  get_gpt_output w rq 2 60 ∅
  = mkOut [EvOpenAICreate 0 (gpt_request rq); EvPrintRetry 0 rate_limit 60; EvSleep 60;
           EvOpenAICreate 1 (gpt_request rq); EvPrintRetry 1 rate_limit 60; EvSleep 60]
      ∅ (Raise rate_limit).
Proof.
  intros w rq.
  destruct (X2_run_when_every_invocation_raises w rq 2 60 [] ∅ (fun _ => rate_limit))
    as (H & _).
  rewrite H; [reflexivity|]. intros i Hi. reflexivity.
Defined.

(** ** What a caller can raise *)

Lemma gpt_loop_raise_inv w req json_object sleep_time c (n : nat) :
  forall (cnt : nat) (error : local_var) (e : exn),
    out_result (gpt_loop w req json_object sleep_time n cnt error c) = Raise e ->
    (exists k, (cnt <= k < cnt + n)%nat
               /\ openai_create w k req = inl e
               /\ forall j, (k < j < cnt + n)%nat ->
                            exists text, openai_create w j req = inr text)
    \/ (e = raise_local "error" error
        /\ forall j, (cnt <= j < cnt + n)%nat ->
                     exists text, openai_create w j req = inr text).
Proof.
  induction n as [|n IH]; intros cnt error e Hr.
  - right. cbn in Hr. split; [congruence|]. intros j Hj. lia.
  - destruct (openai_create w cnt req) as [e0|text] eqn:Hcall.
    + rewrite (gpt_loop_call_raises _ _ _ _ _ _ _ _ _ Hcall) in Hr.
      cbn [prepend out_result] in Hr.
      destruct (IH _ _ _ Hr) as [(k & Hk & Hke & Hlater)|[He Hall]]; left.
      * exists k. split; [lia|]. split; [done|]. intros j Hj. apply Hlater. lia.
      * exists cnt. cbn in He. subst e. split; [lia|]. split; [done|].
        intros j Hj. apply Hall. lia.
    + destruct (gpt_normalize json_object text) as [e1|v] eqn:Hnorm.
      * rewrite (gpt_loop_parse_raises _ _ _ _ _ _ _ _ _ _ Hcall Hnorm) in Hr.
        cbn [prepend out_result] in Hr.
        destruct (IH _ _ _ Hr) as [(k & Hk & Hke & Hlater)|[He Hall]].
        -- left. exists k. split; [lia|]. split; [done|].
           intros j Hj. apply Hlater. lia.
        -- right. split; [done|]. intros j Hj.
           destruct (decide (j = cnt)) as [->|Hne]; [eauto|]. apply Hall. lia.
      * by rewrite (gpt_loop_returns _ _ _ _ _ _ _ _ _ _ Hcall Hnorm) in Hr.
Qed.

Lemma retry_loop_raise_inv attempt json_object return_raw sleep_time (n : nat) :
  forall (cnt : nat) (v : local_var) (c : gmap string (hf_model * hf_tokenizer))
         (e : exn),
    out_result (retry_loop attempt json_object return_raw sleep_time n cnt v c) = Raise e ->
    e = raise_local "e" (match n with O => v | S _ => Unbound end).
Proof.
  induction n as [|n IH]; intros cnt v c e Hr; [cbn in Hr; congruence|].
  destruct (attempt cnt c) as [tr c1 [result|e1]] eqn:Hatt.
  - destruct (parse_or_return json_object return_raw result) as [e2|v'] eqn:Hp.
    + rewrite (retry_loop_parse_raises _ _ _ _ _ _ _ _ _ _ _ _ Hatt Hp) in Hr.
      cbn [prepend out_result] in Hr. apply IH in Hr. by destruct n.
    + by rewrite (retry_loop_returns _ _ _ _ _ _ _ _ _ _ _ _ Hatt Hp) in Hr.
  - rewrite (retry_loop_attempt_raises _ _ _ _ _ _ _ _ _ _ _ Hatt) in Hr.
    cbn [prepend out_result] in Hr. apply IH in Hr. by destruct n.
Qed.

Lemma hf_loop_raise_inv w m t args sleep_time c (n : nat) :
  forall (cnt : nat) (v : local_var) (e : exn),
    out_result (hf_loop w m t args sleep_time n cnt v c) = Raise e ->
    e = raise_local "e" (match n with O => v | S _ => Unbound end).
Proof.
  induction n as [|n IH]; intros cnt v e Hr; [cbn in Hr; congruence|].
  destruct (hf_generate w cnt m t args) as [e1|completion] eqn:Hg.
  - rewrite (hf_loop_generate_raises _ _ _ _ _ _ _ _ _ _ Hg) in Hr.
    cbn [prepend out_result] in Hr. apply IH in Hr. by destruct n.
  - by rewrite (hf_loop_returns _ _ _ _ _ _ _ _ _ _ Hg) in Hr.
Qed.

(** X3.  Whatever the backend does, an exception raised by
    [get_gpt_output] is either the exception of the last attempt whose
    invocation raised (every later attempt having got an answer that failed
    the JSON step), or UnboundLocalError for [error] when no invocation
    raised at all.  A failure of the JSON step itself is never what the
    caller raises. *)
Theorem X3_gpt_raises_last_invocation_error :
  forall (w : World) (rq : Request) (n sleep_time : nat)
         (c : gmap string (hf_model * hf_tokenizer)) (e : exn),
    out_result (get_gpt_output w rq n sleep_time c) = Raise e ->
    (exists k, (k < n)%nat
               /\ openai_create w k (gpt_request rq) = inl e
               /\ forall j, (k < j < n)%nat ->
                    exists text,
                      openai_create w j (gpt_request rq) = inr text
                      /\ json_object rq = true
                      /\ Json.loads (gpt_extract text) = None)
    \/ (e = UnboundLocalError "error"
        /\ forall j, (j < n)%nat ->
             exists text,
               openai_create w j (gpt_request rq) = inr text
               /\ json_object rq = true
               /\ Json.loads (gpt_extract text) = None).
Proof.
  intros w rq n sleep_time c e Hr.
  assert (Hnot : forall v, out_result (get_gpt_output w rq n sleep_time c) <> Return v)
    by (intros v; congruence).
  assert (Hjson : forall j text, (j < n)%nat ->
            openai_create w j (gpt_request rq) = inr text ->
            (forall i, (i < j)%nat ->
               exists e0, gpt_attempt_outcome w (gpt_request rq) (json_object rq) i = inl e0) ->
            json_object rq = true /\ Json.loads (gpt_extract text) = None).
  { intros j text Hj Hcall Hbefore.
    destruct (gpt_attempt_outcome w (gpt_request rq) (json_object rq) j) as [e0|v] eqn:Ho.
    - unfold gpt_attempt_outcome in Ho. rewrite Hcall in Ho.
      unfold gpt_normalize, json_loads in Ho.
      destruct (json_object rq); [|discriminate]. split; [done|].
      by destruct (Json.loads (gpt_extract text)).
    - destruct (get_gpt_output_first_return w rq n sleep_time c j v Hbefore Ho Hj)
        as [pre Hpre].
      exfalso. apply (Hnot v). by rewrite Hpre. }
  assert (Hfails : forall j, (j < n)%nat ->
            exists e0, gpt_attempt_outcome w (gpt_request rq) (json_object rq) j = inl e0).
  { intros j. induction j as [j IHj] using lt_wf_ind. intros Hj.
    destruct (gpt_attempt_outcome w (gpt_request rq) (json_object rq) j) as [e0|v] eqn:Ho;
      [by eexists|].
    destruct (get_gpt_output_first_return w rq n sleep_time c j v) as [pre Hpre];
      [intros i Hi; apply IHj; lia | done | done |].
    exfalso. apply (Hnot v). by rewrite Hpre. }
  unfold get_gpt_output in Hr.
  apply gpt_loop_raise_inv in Hr as [(k & Hk & Hke & Hlater)|[He Hall]].
  - left. exists k. split; [lia|]. split; [done|]. intros j Hj.
    destruct (Hlater j ltac:(lia)) as [text Htext]. exists text. split; [done|].
    apply (Hjson j text); [lia | done |]. intros i Hi. apply Hfails. lia.
  - right. split; [done|]. intros j Hj.
    destruct (Hall j ltac:(lia)) as [text Htext]. exists text. split; [done|].
    apply (Hjson j text); [lia | done |]. intros i Hi. apply Hfails. lia.
Qed.

(** X3 on a backend that raises in attempt 0 and answers "nope" afterwards,
    with [json_object] set: the call raises the exception of attempt 0. *)
Lemma X3_gpt_raises_last_invocation_error_witness :
  let w := test_world (fun cnt => match cnt with
                                  | O => inl rate_limit
                                  | S _ => inr "nope"
                                  end) in
  let rq := test_request "gpt-4-0125-preview" true in
  out_result (get_gpt_output w rq 3 60 ∅) = Raise rate_limit
  /\ openai_create w 0 (gpt_request rq) = inl rate_limit.
Proof.
  intros w rq.
  assert (Hr : out_result (get_gpt_output w rq 3 60 ∅) = Raise rate_limit)
    by (vm_compute; reflexivity).
  split; [done|].
  destruct (X3_gpt_raises_last_invocation_error w rq 3 60 ∅ rate_limit Hr)
    as [(k & Hk & Hke & _)|[He _]]; [|discriminate].
  destruct k as [|k]; [exact Hke|]. cbn in Hke. discriminate.
Defined.

(** X4.  [complete_text_claude], [complete_text_gemini] and
    [complete_text_hf] never raise what a backend invocation raised or a
    JSON error: an exception of [complete_text_claude] is
    UnboundLocalError for [e] (or, with [max_retry] zero, the TypeError of
    [raise None]); [complete_text_gemini] adds the exception of its set-up;
    and [complete_text_hf] raises what the steps before its loop raise or
    UnboundLocalError for [e]. *)
Theorem X4_loops_raise_unbound_local :
  forall (w : World) (rq : Request) (n sleep_time : nat) (kwargs : list string)
         (c : gmap string (hf_model * hf_tokenizer)) (e : exn),
    (out_result (complete_text_claude w rq n sleep_time kwargs c) = Raise e ->
     e = UnboundLocalError "e"
     \/ (n = 0%nat /\ e = TypeError "exceptions must derive from BaseException"))
    /\
    (out_result (complete_text_gemini w rq n sleep_time kwargs c) = Raise e ->
     out_result (gemini_setup w c) = Raise e
     \/ e = UnboundLocalError "e"
     \/ (n = 0%nat /\ e = TypeError "exceptions must derive from BaseException"))
    /\
    (out_result (complete_text_hf w (message rq) (model rq) (max_tokens rq)
                   (temperature rq) (json_object rq) n sleep_time kwargs c) = Raise e ->
     out_result (hf_prepare w (message rq) (model rq) (max_tokens rq) (temperature rq)
                   (json_object rq) kwargs c) = Raise e
     \/ e = UnboundLocalError "e").
Proof.
  intros w rq n sleep_time kwargs c e. split; [|split].
  - intros Hr. rewrite complete_text_claude_run in Hr. cbn [prepend out_result] in Hr.
    apply retry_loop_raise_inv in Hr. destruct n; [right|left]; by subst.
  - intros Hr. destruct (out_result (gemini_setup w c)) as [[]|e0] eqn:Hs.
    + right. rewrite complete_text_gemini_run in Hr by done.
      cbn [prepend out_result] in Hr.
      apply retry_loop_raise_inv in Hr. destruct n; [right|left]; by subst.
    + left. unfold complete_text_gemini in Hr.
      rewrite (bind_raise _ _ c (out_trace (gemini_setup w c)) c e0) in Hr.
      * cbn in Hr. congruence.
      * rewrite (outcome_eta (gemini_setup w c)) at 1.
        by rewrite Hs, gemini_setup_cache.
  - intros Hr. rewrite complete_text_hf_outcome in Hr. cbv zeta in Hr.
    destruct (out_result (hf_prepare _ _ _ _ _ _ _ _)) as [p|e0]; [right|left].
    + cbn [prepend out_result] in Hr. apply hf_loop_raise_inv in Hr.
      destruct n; by subst.
    + cbn in Hr. congruence.
Qed.

(** X4 on a Claude backend whose answers never parse. *)
Lemma X4_loops_raise_unbound_local_witness :
  out_result (complete_text_claude (test_world (fun _ => inr "not json"))
                (test_request "claude-2.1" true) 2 0 [] ∅)
  = Raise (UnboundLocalError "e").
Proof.
  destruct (out_result (complete_text_claude (test_world (fun _ => inr "not json"))
                          (test_request "claude-2.1" true) 2 0 [] ∅)) as [v|e] eqn:Hr.
  - vm_compute in Hr. discriminate.
  - destruct (X4_loops_raise_unbound_local (test_world (fun _ => inr "not json"))
                (test_request "claude-2.1" true) 2 0 [] ∅ e) as (H & _).
    destruct (H Hr) as [->|[Hn _]]; [reflexivity | discriminate].
Defined.

(** ** A larger bound *)

Lemma gpt_loop_more w req json_object sleep_time c (d n : nat) :
  forall (cnt : nat) (error : local_var) (v : value),
    out_result (gpt_loop w req json_object sleep_time n cnt error c) = Return v ->
    gpt_loop w req json_object sleep_time (n + d) cnt error c
    = gpt_loop w req json_object sleep_time n cnt error c.
Proof.
  induction n as [|n IH]; intros cnt error v Hr; [discriminate|].
  rewrite Nat.add_succ_l.
  destruct (openai_create w cnt req) as [e|text] eqn:Hcall.
  - rewrite !(gpt_loop_call_raises _ _ _ _ _ _ _ _ _ Hcall) in *.
    cbn [prepend out_result] in Hr. by rewrite (IH _ _ _ Hr).
  - destruct (gpt_normalize json_object text) as [e|v'] eqn:Hnorm.
    + rewrite !(gpt_loop_parse_raises _ _ _ _ _ _ _ _ _ _ Hcall Hnorm) in *.
      cbn [prepend out_result] in Hr. by rewrite (IH _ _ _ Hr).
    + by rewrite !(gpt_loop_returns _ _ _ _ _ _ _ _ _ _ Hcall Hnorm).
Qed.

Lemma retry_loop_more attempt json_object return_raw sleep_time (d n : nat) :
  forall (cnt : nat) (e : local_var) (c : gmap string (hf_model * hf_tokenizer))
         (v : value),
    out_result (retry_loop attempt json_object return_raw sleep_time n cnt e c)
    = Return v ->
    retry_loop attempt json_object return_raw sleep_time (n + d) cnt e c
    = retry_loop attempt json_object return_raw sleep_time n cnt e c.
Proof.
  induction n as [|n IH]; intros cnt e c v Hr; [discriminate|].
  rewrite Nat.add_succ_l.
  destruct (attempt cnt c) as [tr c1 [result|e1]] eqn:Hatt.
  - destruct (parse_or_return json_object return_raw result) as [e2|v'] eqn:Hp.
    + rewrite !(retry_loop_parse_raises _ _ _ _ _ _ _ _ _ _ _ _ Hatt Hp) in *.
      cbn [prepend out_result] in Hr. by rewrite (IH _ _ _ _ Hr).
    + by rewrite !(retry_loop_returns _ _ _ _ _ _ _ _ _ _ _ _ Hatt Hp).
  - rewrite !(retry_loop_attempt_raises _ _ _ _ _ _ _ _ _ _ _ Hatt) in *.
    cbn [prepend out_result] in Hr. by rewrite (IH _ _ _ _ Hr).
Qed.

Lemma hf_loop_more w m t args sleep_time c (d n : nat) :
  forall (cnt : nat) (e : local_var) (v : value),
    out_result (hf_loop w m t args sleep_time n cnt e c) = Return v ->
    hf_loop w m t args sleep_time (n + d) cnt e c
    = hf_loop w m t args sleep_time n cnt e c.
Proof.
  induction n as [|n IH]; intros cnt e v Hr; [discriminate|].
  rewrite Nat.add_succ_l.
  destruct (hf_generate w cnt m t args) as [e1|completion] eqn:Hg.
  - rewrite !(hf_loop_generate_raises _ _ _ _ _ _ _ _ _ _ Hg) in *.
    cbn [prepend out_result] in Hr. by rewrite (IH _ _ _ Hr).
  - by rewrite !(hf_loop_returns _ _ _ _ _ _ _ _ _ _ Hg).
Qed.

(** X5.  A call that returns a value is not changed by a larger
    [max_retry]: with any bound at least as large, each of the four callers
    makes the same run, event for event, and returns the same value. *)
Theorem X5_larger_bound_same_run :
  forall (w : World) (rq : Request) (n n' sleep_time : nat) (kwargs : list string)
         (c : gmap string (hf_model * hf_tokenizer)) (v : value),
    (n <= n')%nat ->
    (out_result (get_gpt_output w rq n sleep_time c) = Return v ->
     get_gpt_output w rq n' sleep_time c = get_gpt_output w rq n sleep_time c)
    /\
    (out_result (complete_text_claude w rq n sleep_time kwargs c) = Return v ->
     complete_text_claude w rq n' sleep_time kwargs c
     = complete_text_claude w rq n sleep_time kwargs c)
    /\
    (out_result (complete_text_gemini w rq n sleep_time kwargs c) = Return v ->
     complete_text_gemini w rq n' sleep_time kwargs c
     = complete_text_gemini w rq n sleep_time kwargs c)
    /\
    (out_result (complete_text_hf w (message rq) (model rq) (max_tokens rq)
                   (temperature rq) (json_object rq) n sleep_time kwargs c) = Return v ->
     complete_text_hf w (message rq) (model rq) (max_tokens rq) (temperature rq)
       (json_object rq) n' sleep_time kwargs c
     = complete_text_hf w (message rq) (model rq) (max_tokens rq) (temperature rq)
         (json_object rq) n sleep_time kwargs c).
Proof.
  intros w rq n n' sleep_time kwargs c v Hle.
  replace n' with (n + (n' - n))%nat by lia. split; [|split; [|split]].
  - intros Hr. unfold get_gpt_output in *. by eapply gpt_loop_more.
  - intros Hr. rewrite !complete_text_claude_run in *.
    cbn [prepend out_result] in Hr. by rewrite (retry_loop_more _ _ _ _ _ _ _ _ _ _ Hr).
  - intros Hr. destruct (out_result (gemini_setup w c)) as [[]|e] eqn:Hs.
    + rewrite !complete_text_gemini_run in * by done.
      cbn [prepend out_result] in Hr. by rewrite (retry_loop_more _ _ _ _ _ _ _ _ _ _ Hr).
    + unfold complete_text_gemini in *.
      assert (Hrun : gemini_setup w c = mkOut (out_trace (gemini_setup w c)) c (Raise e)).
      { rewrite (outcome_eta (gemini_setup w c)) at 1.
        by rewrite Hs, gemini_setup_cache. }
      by rewrite !(bind_raise _ _ _ _ _ _ Hrun).
  - intros Hr. rewrite !complete_text_hf_outcome in *. cbv zeta in *.
    destruct (out_result (hf_prepare _ _ _ _ _ _ _ _)) as [p|e]; [|done].
    cbn [prepend out_result] in Hr. by rewrite (hf_loop_more _ _ _ _ _ _ _ _ _ _ _ Hr).
Qed.

(** X5 on a backend that raises once and then answers: the run with the
    bound 5 is the run with the bound 2. *)
Lemma X5_larger_bound_same_run_witness :
  let w := test_world raise_then_fine in
  let rq := test_request "gpt-4-0125-preview" false in
  get_gpt_output w rq 5 60 ∅ = get_gpt_output w rq 2 60 ∅.
Proof.
  intros w rq.
  destruct (X5_larger_bound_same_run w rq 2 5 60 [] ∅ (VText "fine") ltac:(lia))
    as (H & _).
  apply H. reflexivity.
Defined.

(** ** return_raw in families B and C *)

(** X6.  With [return_raw] set, [complete_text_claude] and
    [complete_text_gemini] return the response object of the first attempt
    whose invocation returns, whatever [json_object] is and whether or not
    the text of the response can be read; and they return nothing but
    such a response object. *)
Theorem X6_return_raw_returns_response :
  forall (w : World) (rq : Request) (n sleep_time : nat) (kwargs : list string)
         (c : gmap string (hf_model * hf_tokenizer)),
    return_raw rq = true ->
    (forall v,
       out_result (complete_text_claude w rq n sleep_time kwargs c) = Return v ->
       exists k r, (k < n)%nat
                   /\ anthropic_create w k (claude_request rq kwargs) = inr r
                   /\ v = VRaw r)
    /\
    (forall k r,
       anthropic_init w (environ w "ANTHROPIC_API_KEY") = None ->
       (k < n)%nat ->
       (forall i, (i < k)%nat ->
          exists e, anthropic_create w i (claude_request rq kwargs) = inl e) ->
       anthropic_create w k (claude_request rq kwargs) = inr r ->
       out_result (complete_text_claude w rq n sleep_time kwargs c) = Return (VRaw r))
    /\
    (forall v,
       out_result (complete_text_gemini w rq n sleep_time kwargs c) = Return v ->
       exists k call r, (k < n)%nat /\ genai_call w k call = inr r /\ v = VRaw r)
    /\
    (forall k call r,
       out_result (gemini_setup w c) = Return tt ->
       gemini_call_of (model rq) (gemini_messages rq)
         (gemini_generation_config (model rq) (max_tokens rq) (temperature rq) kwargs)
       = inr call ->
       (k < n)%nat ->
       (forall i, (i < k)%nat -> exists e, genai_call w i call = inl e) ->
       genai_call w k call = inr r ->
       out_result (complete_text_gemini w rq n sleep_time kwargs c) = Return (VRaw r)).
Proof.
  intros w rq n sleep_time kwargs c Hraw.
  assert (Hparse : forall r, parse_or_return (json_object rq) true (VRaw r) = inr (VRaw r)).
  { intros r. unfold parse_or_return. by rewrite andb_false_r. }
  split; [|split; [|split]].
  - intros v Hr. rewrite complete_text_claude_run in Hr. cbn [prepend out_result] in Hr.
    destruct (anthropic_init w (environ w "ANTHROPIC_API_KEY")).
    + apply retry_loop_return_inv
        with (tr := fun _ => []) (fetch := fun _ => inl (UnboundLocalError "anthropic_client"))
        in Hr as (k & _ & Hout); [done|].
      intros cnt. apply claude_attempt_unbound.
    + apply retry_loop_return_inv
        with (tr := fun cnt => [EvAnthropicCreate cnt (claude_request rq kwargs)])
             (fetch := claude_fetch w (claude_request rq kwargs) (return_raw rq))
        in Hr as (k & Hk & Hout); [|intros cnt; apply claude_attempt_run].
      unfold attempt_outcome, claude_fetch in Hout. rewrite Hraw in Hout. cbn in Hout.
      destruct (anthropic_create w k (claude_request rq kwargs)) as [e|r] eqn:Hc;
        [done|].
      rewrite Hparse in Hout. exists k, r. split; [lia|]. split; congruence.
  - intros k r Hinit Hk Hfail Hcall.
    destruct (complete_text_claude_first_return w rq n sleep_time kwargs c k (VRaw r))
      as [pre ->]; try done.
    + intros i Hi. destruct (Hfail i Hi) as [e He].
      exists e. unfold attempt_outcome, claude_fetch. by rewrite He.
    + unfold attempt_outcome, claude_fetch. rewrite Hcall, Hraw. cbn. apply Hparse.
  - intros v Hr. destruct (out_result (gemini_setup w c)) as [[]|e] eqn:Hs.
    + rewrite complete_text_gemini_run in Hr by done. cbn [prepend out_result] in Hr.
      eapply retry_loop_return_inv in Hr as (k & Hk & Hout);
        [|intros cnt; apply gemini_attempt_run].
      unfold attempt_outcome, gemini_attempt_fetch, gemini_fetch in Hout.
      rewrite Hraw in Hout.
      destruct (gemini_call_of _ _ _) as [e|call]; [done|].
      destruct (genai_call w k call) as [e|r] eqn:Hc; [done|].
      rewrite Hparse in Hout. exists k, call, r. split; [lia|]. split; congruence.
    + unfold complete_text_gemini in Hr.
      rewrite (bind_raise _ _ c (out_trace (gemini_setup w c)) c e) in Hr; [done|].
      rewrite (outcome_eta (gemini_setup w c)) at 1.
      by rewrite Hs, gemini_setup_cache.
  - intros k call r Hsetup Hshape Hk Hfail Hcall.
    destruct (complete_text_gemini_first_return w rq n sleep_time kwargs c k (VRaw r) call)
      as [pre ->]; try done.
    + intros i Hi. destruct (Hfail i Hi) as [e He].
      exists e. unfold attempt_outcome, gemini_fetch. by rewrite He.
    + unfold attempt_outcome, gemini_fetch. rewrite Hcall, Hraw. apply Hparse.
Qed.

(** X6 on a Claude response whose text cannot be read, with [json_object]
    and [return_raw] both set: the response object comes back. *)
Lemma X6_return_raw_returns_response_witness :
  let r := {| raw_body := "tool_use"; raw_text := inl (SdkError "KeyError" "text") |} in
  let w := {| environ := test_environ;
              openai_create := fun _ _ => inl rate_limit;
              anthropic_init := fun _ => None;
              anthropic_create := fun _ _ => inr r;
              genai_imported := true;
              genai_configure := fun _ => None;
              genai_call := fun _ _ => inl rate_limit;
              genai_prepare := fun _ _ _ _ => None;
              cuda_is_available := false;
              hf_load_model := fun _ _ => inl rate_limit;
              hf_load_tokenizer := fun _ => inl rate_limit;
              hf_tokenize := fun _ _ _ => inl rate_limit;
              hf_generate := fun _ _ _ _ => inl rate_limit |} in
  out_result (complete_text_claude w
                (with_return_raw true (test_request "claude-2.1" true)) 1 0 [] ∅)
  = Return (VRaw r).
Proof.
  intros r w.
  destruct (X6_return_raw_returns_response w
              (with_return_raw true (test_request "claude-2.1" true)) 1 0 [] ∅ eq_refl)
    as (_ & H & _).
  apply (H 0%nat r); [reflexivity | lia | intros i Hi; lia | reflexivity].
Defined.

(** ** The conversation of family C *)

(** X7.  The conversion of turns for the multimodal backend keeps, in
    order, exactly the turns whose role is "user" or "assistant", the
    latter renamed "model"; a turn of any other role (also "model" or
    "system") is dropped without notice.  It distributes over
    concatenation, never lengthens the list, and each of its turns has the
    role "user" or "model" and a one-element [parts] list. *)
Theorem X7_gemini_convert_keeps_known_roles :
  forall (l1 l2 : list Turn),
    gemini_convert l1 = map rename_role (List.filter known_roleb l1)
    /\ gemini_convert (l1 ++ l2) = gemini_convert l1 ++ gemini_convert l2
    /\ (length (gemini_convert l1) <= length l1)%nat
    /\ (length (gemini_convert l1) = length l1 <-> Forall known_role l1)
    /\ Forall (fun g => (g_role g = "user" \/ g_role g = "model")
                        /\ exists p, g_parts g = [p])
         (gemini_convert l1).
Proof.
  intros l1 l2. split; [apply gemini_convert_filter|].
  split; [apply gemini_convert_app|].
  split; [rewrite gemini_convert_filter, length_map; apply List.filter_length_le|].
  split; [|apply gemini_convert_shape].
  split.
  - induction l1 as [|t l IH]; intros Hlen; [constructor|].
    cbn [gemini_convert] in Hlen.
    assert (Hle : (length (gemini_convert l) <= length l)%nat)
      by (rewrite gemini_convert_filter, length_map; apply List.filter_length_le).
    destruct (String.eqb_spec (role t) "user") as [Hu|Hu].
    { cbn in Hlen. constructor; [by left | apply IH; lia]. }
    destruct (String.eqb_spec (role t) "assistant") as [Ha|Ha].
    { cbn in Hlen. constructor; [by right | apply IH; lia]. }
    cbn [length] in Hlen. lia.
  - intros Hk. by rewrite gemini_convert_known, length_map.
Qed.

(** X8.  The invocation of family C is decided by the converted
    conversation alone.  When it ends in a turn [t] after the turns [init],
    the call is [generate_content] on the text of [t] if [init] is empty
    and otherwise a chat seeded with [init] to which the text of [t] is sent
    (the role of [t] plays no part).  When the conversation is empty, no
    [generate_content] and no [send_message] is ever reached: in every
    attempt the model, the configuration and a chat on the empty history
    are built, and then [messages[-1]] raises IndexError; the attempt
    raises what the first of these raises, is printed and slept on, and
    the call ends by raising. *)
Theorem X8_gemini_call_shape :
  forall (w : World) (rq : Request) (n sleep_time : nat) (kwargs : list string)
         (c : gmap string (hf_model * hf_tokenizer)),
    (forall init t,
       gemini_messages rq = init ++ [t] ->
       exists p,
         g_parts t = [p]
         /\ gemini_call_of (model rq) (gemini_messages rq)
              (gemini_generation_config (model rq) (max_tokens rq) (temperature rq) kwargs)
            = inr (match init with
                   | [] => GenerateContent (model rq) p
                             {| max_output_tokens := max_tokens rq;
                                gc_temperature := temperature rq;
                                gc_kwargs := kwargs |}
                   | _ :: _ => SendMessage (model rq) init p
                                 {| max_output_tokens := max_tokens rq;
                                    gc_temperature := temperature rq;
                                    gc_kwargs := kwargs |}
                   end))
    /\
    (gemini_messages rq = [] ->
     out_result (gemini_setup w c) = Return tt ->
     complete_text_gemini w rq n sleep_time kwargs c
     = mkOut
         (out_trace (gemini_setup w c)
          ++ flat_map (fun i => [EvPrintRetry i
                                   (match genai_prepare w i (model rq)
                                            {| max_output_tokens := max_tokens rq;
                                               gc_temperature := temperature rq;
                                               gc_kwargs := kwargs |}
                                            (Some []) with
                                    | Some e => e
                                    | None => IndexError "list index out of range"
                                    end)
                                   sleep_time;
                                 EvSleep sleep_time])
               (seq 0 n))
         c (Raise (raise_local "e" (match n with O => BoundNone | S _ => Unbound end)))).
Proof.
  intros w rq n sleep_time kwargs c.
  set (cfg := {| max_output_tokens := max_tokens rq;
                 gc_temperature := temperature rq;
                 gc_kwargs := kwargs |}).
  assert (Hcfg : gemini_generation_config (model rq) (max_tokens rq) (temperature rq) kwargs
                 = cfg).
  { unfold gemini_generation_config. by destruct (PyStr.startswith "gemma" (model rq)). }
  split.
  - intros init t Hm.
    pose proof (gemini_messages_shape rq) as Hshape. rewrite Hm in Hshape.
    apply Forall_app in Hshape as [_ Ht]. inversion Ht as [|? ? [_ [p Hp]] _]; subst.
    exists p. split; [done|]. rewrite Hm, Hcfg.
    by apply gemini_call_of_snoc with (ps := []).
  - intros Hempty Hsetup. rewrite complete_text_gemini_run by done.
    rewrite retry_loop_all_fetch_raise
      with (tr := fun _ => [])
           (fetch := fun i => inl (match genai_prepare w i (model rq) cfg (Some []) with
                                   | Some e => e
                                   | None => IndexError "list index out of range"
                                   end))
           (ex := fun i => match genai_prepare w i (model rq) cfg (Some []) with
                           | Some e => e
                           | None => IndexError "list index out of range"
                           end); [reflexivity| |done].
    intros cnt. rewrite gemini_attempt_run. cbv zeta.
    unfold gemini_attempt_fetch. by rewrite Hempty, Hcfg.
Qed.

(** X8 on the worked conversation [user:A, assistant:B] + "C" (a chat
    seeded with two turns, "C" sent), and on a message that is an empty
    list of turns, in a world whose [GenerationConfig] rejects its
    arguments in the first attempt: that exception is the one of attempt 0,
    IndexError the one of attempt 1, and no invocation is made. *)
Lemma X8_gemini_call_shape_witness :
  let w := {| environ := test_environ;
              openai_create := fun _ _ => inl rate_limit;
              anthropic_init := fun _ => None;
              anthropic_create := fun _ _ => inl rate_limit;
              genai_imported := true;
              genai_configure := fun _ => None;
              genai_call := fun _ _ => inr (text_response "never reached");
              genai_prepare := fun cnt _ _ _ =>
                match cnt with
                | O => Some (SdkError "TypeError" "unexpected keyword argument")
                | S _ => None
                end;
              cuda_is_available := false;
              hf_load_model := fun _ _ => inl rate_limit;
              hf_load_tokenizer := fun _ => inl rate_limit;
              hf_tokenize := fun _ _ _ => inl rate_limit;
              hf_generate := fun _ _ _ _ => inl rate_limit |} in
  gemini_call_of (model request_ABC) (gemini_messages request_ABC)
    (gemini_generation_config (model request_ABC) (max_tokens request_ABC)
       (temperature request_ABC) [])
  = inr (SendMessage "gpt-4-0125-preview"
           [ {| g_role := "user"; g_parts := ["A"] |};
             {| g_role := "model"; g_parts := ["B"] |} ]
           "C"
           {| max_output_tokens := 2048; gc_temperature := 1%Q; gc_kwargs := [] |})
  /\ complete_text_gemini w
       (with_message (MsgTurns []) (test_request "gemini-1.5-flash" false)) 2 30 [] ∅
     = mkOut [EvGenaiConfigure "g-key";
              EvPrintRetry 0 (SdkError "TypeError" "unexpected keyword argument") 30;
              EvSleep 30;
              EvPrintRetry 1 (IndexError "list index out of range") 30; EvSleep 30]
         ∅ (Raise (UnboundLocalError "e")).
Proof.
  intros w. split.
  - destruct (X8_gemini_call_shape w request_ABC 0 0 [] ∅) as (H & _).
    destruct (H [ {| g_role := "user"; g_parts := ["A"] |};
                  {| g_role := "model"; g_parts := ["B"] |} ]
                {| g_role := "user"; g_parts := ["C"] |} eq_refl) as (p & Hp & Hcall).
    injection Hp as <-. exact Hcall.
  - destruct (X8_gemini_call_shape w
                (with_message (MsgTurns []) (test_request "gemini-1.5-flash" false))
                2 30 [] ∅) as (_ & H).
    rewrite H; reflexivity.
Defined.

(** X9.  The set-up of [complete_text_gemini] passes exactly when
    GEMINI_API_KEY holds a non-empty string, the generative-AI library was
    imported and [genai.configure] does not raise.  An empty key is treated
    as a missing one, and an exception of [genai.configure] is printed and
    raised again as it is; in both cases no attempt is made. *)
Theorem X9_gemini_setup :
  forall (w : World) (rq : Request) (n sleep_time : nat) (kwargs : list string)
         (c : gmap string (hf_model * hf_tokenizer)),
    (out_result (gemini_setup w c) = Return tt <->
     exists a key, environ w "GEMINI_API_KEY" = Some (String a key)
                   /\ genai_imported w = true
                   /\ genai_configure w (String a key) = None)
    /\
    (environ w "GEMINI_API_KEY" = Some "" ->
     complete_text_gemini w rq n sleep_time kwargs c
     = mkOut [EvPrintExn (ValueError "GEMINI_API_KEY environment variable not found.");
              EvPrintStr "Gemini API setup failed."]
         c (Raise (ValueError "GEMINI_API_KEY environment variable not found.")))
    /\
    (forall a key e,
       environ w "GEMINI_API_KEY" = Some (String a key) ->
       genai_imported w = true ->
       genai_configure w (String a key) = Some e ->
       complete_text_gemini w rq n sleep_time kwargs c
       = mkOut [EvGenaiConfigure (String a key); EvPrintExn e;
                EvPrintStr "Gemini API setup failed."]
           c (Raise e)).
Proof.
  intros w rq n sleep_time kwargs c. split; [|split].
  - unfold gemini_setup. run_monad.
    destruct (environ w "GEMINI_API_KEY") as [[|a k]|] eqn:Hkey.
    + split; [done|]. by intros (a & key & ? & _).
    + destruct (genai_imported w) eqn:Himp; cbn.
      * destruct (genai_configure w (String a k)) as [e|] eqn:Hc; cbn.
        -- split; [done|]. intros (a' & key & Heq & _ & Hcfg). congruence.
        -- split; [|done]. intros _. by exists a, k.
      * split; [done|]. by intros (a' & key & _ & ? & _).
    + split; [done|]. by intros (a & key & ? & _).
  - intros Hkey. unfold complete_text_gemini, gemini_setup. run_monad. by rewrite Hkey.
  - intros a key e Hkey Himp Hc. unfold complete_text_gemini, gemini_setup. run_monad.
    by rewrite Hkey, Himp, Hc.
Qed.

(** X9 on a world whose [genai.configure] rejects the key. *)
Lemma X9_gemini_setup_witness :
  let w := {| environ := test_environ;
              openai_create := fun _ _ => inl rate_limit;
              anthropic_init := fun _ => None;
              anthropic_create := fun _ _ => inl rate_limit;
              genai_imported := true;
              genai_configure := fun _ => Some (SdkError "ValueError" "bad key");
              genai_call := fun _ _ => inr (text_response "never reached");
              genai_prepare := fun _ _ _ _ => None;
              cuda_is_available := false;
              hf_load_model := fun _ _ => inl rate_limit;
              hf_load_tokenizer := fun _ => inl rate_limit;
              hf_tokenize := fun _ _ _ => inl rate_limit;
              hf_generate := fun _ _ _ _ => inl rate_limit |} in
  complete_text_gemini w (test_request "gemini-1.5-flash" false) 5 30 [] ∅
  = mkOut [EvGenaiConfigure "g-key"; EvPrintExn (SdkError "ValueError" "bad key");
           EvPrintStr "Gemini API setup failed."]
      ∅ (Raise (SdkError "ValueError" "bad key")).
Proof.
  intros w.
  destruct (X9_gemini_setup w (test_request "gemini-1.5-flash" false) 5 30 [] ∅)
    as (_ & _ & H).
  exact (H "g"%char "-key" _ eq_refl eq_refl eq_refl).
Defined.

(** ** The local caller before its loop *)

Section HfBeforeLoop.
Variables (w : World) (message : Message) (model : string) (max_tokens : Z)
  (temperature : Q) (json_object : bool) (kwargs : list string).

Lemma hf_prepare_cases (c : gmap string (hf_model * hf_tokenizer)) :
  out_cache (hf_prepare w message model max_tokens temperature json_object kwargs c) = c
  \/ exists checkpoint m t,
       PyStr.split1_second model "/" = Some checkpoint
       /\ c !! checkpoint = None
       /\ hf_load_model w checkpoint (hf_device w) = inr m
       /\ hf_load_tokenizer w checkpoint = inr t
       /\ out_cache (hf_prepare w message model max_tokens temperature json_object
                       kwargs c)
          = <[checkpoint := (m, t)]> c.
Proof.
  unfold hf_prepare, hf_lookup_or_load. run_monad.
  destruct (hf_prompt json_object message) as [e|prompt]; [by left|].
  destruct (PyStr.split1_second model "/") as [checkpoint|]; [|by left]. cbn.
  destruct (c !! checkpoint) as [[m t]|] eqn:Hc; cbn.
  - left. by destruct (hf_tokenize w t prompt (hf_device w)).
  - destruct (hf_load_model w checkpoint (hf_device w)) as [e|m] eqn:Hm; [by left|]. cbn.
    destruct (hf_load_tokenizer w checkpoint) as [e|t] eqn:Ht; [by left|]. cbn.
    right. exists checkpoint, m, t.
    by destruct (hf_tokenize w t prompt (hf_device w)).
Qed.

Lemma hf_prepare_no_slash (c : gmap string (hf_model * hf_tokenizer)) prompt :
  hf_prompt json_object message = inr prompt ->
  PyStr.split1_second model "/" = None ->
  hf_prepare w message model max_tokens temperature json_object kwargs c
  = mkOut [] c (Raise (IndexError "list index out of range")).
Proof. intros Hp Hs. unfold hf_prepare. run_monad. by rewrite Hp, Hs. Qed.

Lemma hf_prepare_model_fails (c : gmap string (hf_model * hf_tokenizer))
    prompt checkpoint e :
  hf_prompt json_object message = inr prompt ->
  PyStr.split1_second model "/" = Some checkpoint ->
  c !! checkpoint = None ->
  hf_load_model w checkpoint (hf_device w) = inl e ->
  hf_prepare w message model max_tokens temperature json_object kwargs c
  = mkOut [EvLoadModel checkpoint (hf_device w)] c (Raise e).
Proof.
  intros Hp Hs Hc Hm. unfold hf_prepare, hf_lookup_or_load. run_monad.
  by rewrite Hp, Hs, Hc, Hm.
Qed.

Lemma hf_prepare_tokenizer_fails (c : gmap string (hf_model * hf_tokenizer))
    prompt checkpoint m e :
  hf_prompt json_object message = inr prompt ->
  PyStr.split1_second model "/" = Some checkpoint ->
  c !! checkpoint = None ->
  hf_load_model w checkpoint (hf_device w) = inr m ->
  hf_load_tokenizer w checkpoint = inl e ->
  hf_prepare w message model max_tokens temperature json_object kwargs c
  = mkOut [EvLoadModel checkpoint (hf_device w); EvLoadTokenizer checkpoint] c (Raise e).
Proof.
  intros Hp Hs Hc Hm Ht. unfold hf_prepare, hf_lookup_or_load. run_monad.
  by rewrite Hp, Hs, Hc, Hm, Ht.
Qed.

End HfBeforeLoop.

Lemma complete_text_hf_raise_before_loop w message model max_tokens temperature
    json_object max_retry sleep_time kwargs c tr c1 e :
  hf_prepare w message model max_tokens temperature json_object kwargs c
  = mkOut tr c1 (Raise e) ->
  complete_text_hf w message model max_tokens temperature json_object
    max_retry sleep_time kwargs c
  = mkOut tr c1 (Raise e).
Proof. intros H. rewrite complete_text_hf_outcome. by rewrite H. Qed.

(** X10.  In [complete_text_hf] nothing that precedes the loop is guarded:
    a failure there ends the call at once, whatever [max_retry] is, with no
    print, no sleep and no call of [generate].  A message that is a list
    together with [json_object] raises TypeError; an identifier without "/"
    raises IndexError before anything is loaded; the exception of either
    loader is raised as it is and leaves [loaded_hf_models] unchanged (a
    model whose tokenizer failed to load is not kept); a tokenizer that
    raises on the prompt ends the call after the pair was stored. *)
Theorem X10_hf_failure_before_loop_not_retried :
  forall (w : World) (message : Message) (model : string) (max_tokens : Z)
         (temperature : Q) (json_object : bool) (n sleep_time : nat)
         (kwargs : list string) (c : gmap string (hf_model * hf_tokenizer)),
    let run := complete_text_hf w message model max_tokens temperature json_object
                 n sleep_time kwargs c in
    (forall l, message = MsgTurns l -> json_object = true ->
       run = mkOut [] c
               (Raise (TypeError ("can only concatenate str (not " +:+ dq +:+ "list"
                                  +:+ dq +:+ ") to str"))))
    /\
    (forall prompt,
       hf_prompt json_object message = inr prompt ->
       (PyStr.split1_second model "/" = None ->
        run = mkOut [] c (Raise (IndexError "list index out of range")))
       /\
       (forall checkpoint, PyStr.split1_second model "/" = Some checkpoint ->
          c !! checkpoint = None ->
          (forall e, hf_load_model w checkpoint (hf_device w) = inl e ->
             run = mkOut [EvLoadModel checkpoint (hf_device w)] c (Raise e))
          /\
          (forall m e, hf_load_model w checkpoint (hf_device w) = inr m ->
             hf_load_tokenizer w checkpoint = inl e ->
             run = mkOut [EvLoadModel checkpoint (hf_device w);
                          EvLoadTokenizer checkpoint] c (Raise e))
          /\
          (forall m t e, hf_load_model w checkpoint (hf_device w) = inr m ->
             hf_load_tokenizer w checkpoint = inr t ->
             hf_tokenize w t prompt (hf_device w) = inl e ->
             run = mkOut [EvLoadModel checkpoint (hf_device w);
                          EvLoadTokenizer checkpoint; EvTokenize prompt]
                     (<[checkpoint := (m, t)]> c) (Raise e))))
    /\
    (forall e,
       out_result (hf_prepare w message model max_tokens temperature json_object
                     kwargs c) = Raise e ->
       out_result run = Raise e
       /\ total_sleep (out_trace run) = 0%nat
       /\ invocations (out_trace run) = 0%nat).
Proof.
  intros w message model max_tokens temperature json_object n sleep_time kwargs c run.
  subst run. split; [|split].
  - intros l -> ->. apply complete_text_hf_raise_before_loop.
    unfold hf_prepare. by run_monad.
  - intros prompt Hp. split.
    + intros Hs. apply complete_text_hf_raise_before_loop.
      by apply hf_prepare_no_slash with (prompt := prompt).
    + intros checkpoint Hs Hc. split; [|split].
      * intros e Hm. apply complete_text_hf_raise_before_loop.
        by apply hf_prepare_model_fails with (prompt := prompt).
      * intros m e Hm Ht. apply complete_text_hf_raise_before_loop.
        by apply hf_prepare_tokenizer_fails with (prompt := prompt) (m := m).
      * intros m t e Hm Ht Hk. apply complete_text_hf_raise_before_loop.
        rewrite (hf_prepare_miss _ _ _ _ _ _ _ _ _ _ m t Hp Hs Hc Hm Ht).
        unfold hf_prepared. by rewrite Hk.
  - intros e He. rewrite complete_text_hf_outcome. cbv zeta. rewrite He.
    cbn [out_result out_trace]. split; [done|].
    apply quiet_trace. by apply hf_prepare_events.
Qed.

(** X10 on a checkpoint whose tokenizer cannot be loaded: with a bound of
    three attempts the call ends after the two loads, and the cache stays
    empty. *)
Lemma X10_hf_failure_before_loop_not_retried_witness :
  complete_text_hf offline_world (MsgStr "hi") "huggingface/codellama/CodeLlama-7b-hf"
    2000 (1 # 2)%Q false 3 0 [] ∅
  = mkOut [EvLoadModel "codellama/CodeLlama-7b-hf" Cpu;
           EvLoadTokenizer "codellama/CodeLlama-7b-hf"]
      ∅ (Raise (SdkError "OSError" "tokenizer files not found")).
Proof.
  destruct (X10_hf_failure_before_loop_not_retried offline_world (MsgStr "hi")
              "huggingface/codellama/CodeLlama-7b-hf" 2000 (1 # 2)%Q false 3 0 [] ∅)
    as (_ & H & _).
  destruct (H (MsgStr "hi") eq_refl) as (_ & H1).
  destruct (H1 "codellama/CodeLlama-7b-hf" eq_refl eq_refl) as (_ & H2 & _).
  exact (H2 {| model_handle := 7 |} (SdkError "OSError" "tokenizer files not found")
           eq_refl eq_refl).
Defined.

(** X11.  A call changes [loaded_hf_models] by at most one entry.  After
    [complete_text_hf], and after any call through the dispatcher, the
    cache is the one before the call, or the one before the call with the
    pair that the two loaders returned stored under the checkpoint name,
    which was absent before.  The callers of families A, B and C never
    touch it. *)
Theorem X11_cache_grows_by_at_most_one_entry :
  forall (w : World) (rq : Request) (n sleep_time : nat) (kwargs : list string)
         (c : gmap string (hf_model * hf_tokenizer)),
    let grows (c' : gmap string (hf_model * hf_tokenizer)) :=
      c' = c
      \/ exists checkpoint m t,
           PyStr.split1_second (model rq) "/" = Some checkpoint
           /\ c !! checkpoint = None
           /\ hf_load_model w checkpoint (hf_device w) = inr m
           /\ hf_load_tokenizer w checkpoint = inr t
           /\ c' = <[checkpoint := (m, t)]> c in
    grows (out_cache (complete_text_hf w (message rq) (model rq) (max_tokens rq)
                        (temperature rq) (json_object rq) n sleep_time kwargs c))
    /\ grows (out_cache (get_llm_output_tools w rq c))
    /\ out_cache (get_gpt_output w rq n sleep_time c) = c
    /\ out_cache (complete_text_claude w rq n sleep_time kwargs c) = c
    /\ out_cache (complete_text_gemini w rq n sleep_time kwargs c) = c.
Proof.
  intros w rq n sleep_time kwargs c grows. subst grows. cbv beta.
  split; [|split; [|split; [|split]]].
  - rewrite complete_text_hf_cache. apply hf_prepare_cases.
  - rewrite get_llm_output_tools_run. cbn [prepend out_cache].
    destruct (PyStr.contains "gpt-4" (model rq)); [left; apply get_gpt_output_cache|].
    destruct (PyStr.contains "claude" (model rq));
      [left; apply complete_text_claude_cache|].
    destruct (_ || _)%bool; [left; apply complete_text_gemini_cache|].
    destruct (PyStr.contains "huggingface" (model rq)); [|by left].
    rewrite complete_text_hf_cache. apply hf_prepare_cases.
  - apply get_gpt_output_cache.
  - apply complete_text_claude_cache.
  - apply complete_text_gemini_cache.
Qed.

(** ** The slices of line 75 and of line 258 *)

Lemma append_assoc (a b c : string) : (a +:+ b) +:+ c = a +:+ b +:+ c.
Proof. induction a as [|x a IH]; [reflexivity|]. rewrite !append_cons. by rewrite IH. Qed.

Lemma append_empty_r (a : string) : a +:+ "" = a.
Proof. induction a as [|x a IH]; [reflexivity|]. rewrite append_cons. by rewrite IH. Qed.

Lemma len_cons (a : ascii) (s : string) : PyStr.len (String a s) = 1 + PyStr.len s.
Proof. unfold PyStr.len. cbn [String.length]. lia. Qed.

Lemma len_app (a b : string) : PyStr.len (a +:+ b) = PyStr.len a + PyStr.len b.
Proof.
  induction a as [|x a IH]; [reflexivity|].
  rewrite append_cons, !len_cons, IH. lia.
Qed.

Lemma len_nonneg (s : string) : 0 <= PyStr.len s.
Proof. unfold PyStr.len. lia. Qed.

Lemma substring_prefix (mid post : string) :
  String.substring 0 (String.length mid) (mid +:+ post) = mid.
Proof.
  induction mid as [|x mid IH]; [apply substring_zero_len|].
  rewrite append_cons. cbn [String.length String.substring]. by rewrite IH.
Qed.

Lemma substring_app_mid (pre mid post : string) :
  String.substring (String.length pre) (String.length mid) (pre +:+ mid +:+ post) = mid.
Proof.
  induction pre as [|x pre IH];
    [rewrite append_empty; exact (substring_prefix mid post)|].
  rewrite append_cons. cbn [String.length String.substring]. apply IH.
Qed.

Lemma slice_mid (pre mid post : string) :
  PyStr.slice (pre +:+ mid +:+ post) (PyStr.len pre) (PyStr.len pre + PyStr.len mid) = mid.
Proof.
  unfold PyStr.slice. cbv zeta. rewrite !len_app.
  pose proof (len_nonneg pre). pose proof (len_nonneg mid). pose proof (len_nonneg post).
  assert (Ha : PyStr.clamp (PyStr.len pre + (PyStr.len mid + PyStr.len post)) (PyStr.len pre)
               = PyStr.len pre).
  { unfold PyStr.clamp. destruct (Z.ltb_spec (PyStr.len pre) 0); lia. }
  assert (Hb : PyStr.clamp (PyStr.len pre + (PyStr.len mid + PyStr.len post))
                 (PyStr.len pre + PyStr.len mid)
               = PyStr.len pre + PyStr.len mid).
  { unfold PyStr.clamp. destruct (Z.ltb_spec (PyStr.len pre + PyStr.len mid) 0); lia. }
  rewrite Ha, Hb.
  replace (PyStr.len pre + PyStr.len mid - PyStr.len pre) with (PyStr.len mid) by lia.
  unfold PyStr.len. rewrite !Nat2Z.id. apply substring_app_mid.
Qed.

Lemma contains_char_cons (ch a : ascii) (s : string) :
  PyStr.contains (String ch "") (String a s) = false ->
  Ascii.eqb ch a = false /\ PyStr.contains (String ch "") s = false.
Proof.
  cbn [PyStr.contains PyStr.startswith]. by destruct (Ascii.eqb ch a).
Qed.

Lemma find_from_char (ch : ascii) (pre rest : string) :
  forall i : Z,
    PyStr.contains (String ch "") pre = false ->
    PyStr.find_from (String ch "") (pre +:+ String ch rest) i = i + PyStr.len pre.
Proof.
  induction pre as [|a pre IH]; intros i Hno.
  - rewrite append_empty. cbn [PyStr.find_from PyStr.startswith].
    rewrite Ascii.eqb_refl. unfold PyStr.len. cbn. lia.
  - apply contains_char_cons in Hno as [Hne Hno].
    rewrite append_cons. cbn [PyStr.find_from PyStr.startswith]. rewrite Hne.
    rewrite IH by done. rewrite len_cons. lia.
Qed.

Lemma find_from_absent (sub s : string) :
  forall i : Z, PyStr.contains sub s = false -> PyStr.find_from sub s i = -1.
Proof.
  induction s as [|a s IH]; intros i; cbn [PyStr.contains PyStr.find_from].
  - by destruct (PyStr.startswith sub "").
  - destruct (PyStr.startswith sub (String a s)); [done | apply IH].
Qed.

Lemma find_from_present (sub s : string) :
  forall i : Z, 0 <= i -> PyStr.contains sub s = true -> 0 <= PyStr.find_from sub s i.
Proof.
  induction s as [|a s IH]; intros i Hi; cbn [PyStr.contains PyStr.find_from].
  - by destruct (PyStr.startswith sub "").
  - destruct (PyStr.startswith sub (String a s)); [done|]. apply IH. lia.
Qed.

Lemma rfind_from_absent (ch : ascii) (s : string) :
  forall i : Z,
    PyStr.contains (String ch "") s = false -> PyStr.rfind_from (String ch "") s i = -1.
Proof.
  induction s as [|a s IH]; intros i Hno; [reflexivity|].
  apply contains_char_cons in Hno as [Hne Hno].
  cbn [PyStr.rfind_from PyStr.startswith]. rewrite IH by done. by rewrite Hne.
Qed.

Lemma rfind_from_char (ch : ascii) (pre post : string) :
  forall i : Z,
    0 <= i ->
    PyStr.contains (String ch "") post = false ->
    PyStr.rfind_from (String ch "") (pre +:+ String ch post) i = i + PyStr.len pre.
Proof.
  induction pre as [|a pre IH]; intros i Hi Hno.
  - rewrite append_empty. cbn [PyStr.rfind_from PyStr.startswith].
    rewrite rfind_from_absent by done. rewrite Ascii.eqb_refl.
    unfold PyStr.len. cbn. lia.
  - rewrite append_cons. cbn [PyStr.rfind_from]. cbv zeta.
    rewrite IH by (done || lia).
    pose proof (len_nonneg pre).
    destruct (Z.leb_spec 0 (i + 1 + PyStr.len pre)); [|lia].
    rewrite len_cons. lia.
Qed.

Lemma gpt_extract_pair (pre body post : string) :
  PyStr.contains "{" pre = false ->
  PyStr.contains "}" post = false ->
  gpt_extract (pre +:+ "{" +:+ body +:+ "}" +:+ post) = "{" +:+ body +:+ "}".
Proof.
  intros Hpre Hpost. unfold gpt_extract, PyStr.find, PyStr.rfind.
  assert (Hf : PyStr.find_from "{" (pre +:+ "{" +:+ body +:+ "}" +:+ post) 0
               = PyStr.len pre).
  { rewrite (append_cons "{" "" (body +:+ "}" +:+ post)), append_empty.
    rewrite find_from_char by done. lia. }
  assert (Hr : PyStr.rfind_from "}" (pre +:+ "{" +:+ body +:+ "}" +:+ post) 0
               = PyStr.len pre + (1 + PyStr.len body)).
  { replace (pre +:+ "{" +:+ body +:+ "}" +:+ post)
      with ((pre +:+ "{" +:+ body) +:+ String "}" post)
      by (by rewrite !append_assoc).
    rewrite rfind_from_char by (done || lia).
    rewrite !len_app. change (PyStr.len "{") with 1. lia. }
  rewrite Hf, Hr.
  replace (pre +:+ "{" +:+ body +:+ "}" +:+ post)
    with (pre +:+ ("{" +:+ body +:+ "}") +:+ post)
    by (by rewrite !append_assoc).
  replace (PyStr.len pre + (1 + PyStr.len body) + 1)
    with (PyStr.len pre + PyStr.len ("{" +:+ body +:+ "}")).
  - apply slice_mid.
  - rewrite !len_app. change (PyStr.len "{") with 1. change (PyStr.len "}") with 1.
    lia.
Qed.

(** X12.  The slice of line 75 is the text from the first "{" to the last
    "}".  For a response of the form [pre { body } post], where [pre] holds
    no opening and [post] no closing brace, it is exactly "{" body "}",
    whatever braces [body] holds: with [json_object] set, [get_gpt_output]
    parses that text, so the parsed value does not depend on [pre] and
    [post], and a response that is an object by itself is parsed whole. *)
Theorem X12_gpt_extract_first_to_last_brace :
  forall (pre body post : string),
    ~ Substring "{" pre ->
    ~ Substring "}" post ->
    gpt_extract (pre +:+ "{" +:+ body +:+ "}" +:+ post) = "{" +:+ body +:+ "}"
    /\ gpt_extract ("{" +:+ body +:+ "}") = "{" +:+ body +:+ "}"
    /\ gpt_normalize true (pre +:+ "{" +:+ body +:+ "}" +:+ post)
       = gpt_normalize true ("{" +:+ body +:+ "}").
Proof.
  intros pre body post Hpre Hpost.
  apply not_contains_Substring in Hpre, Hpost.
  assert (H1 : gpt_extract (pre +:+ "{" +:+ body +:+ "}" +:+ post) = "{" +:+ body +:+ "}")
    by (by apply gpt_extract_pair).
  assert (H2 : gpt_extract ("{" +:+ body +:+ "}") = "{" +:+ body +:+ "}").
  { pose proof (gpt_extract_pair "" body "" eq_refl eq_refl) as H.
    by rewrite append_empty, append_empty_r in H. }
  split; [done|]. split; [done|].
  unfold gpt_normalize. by rewrite H1, H2.
Qed.

(** X12 on the response [Sure! {"a": 1} Thanks] of the worked example. *)
Lemma X12_gpt_extract_first_to_last_brace_witness :
  gpt_extract ("Sure! " +:+ "{" +:+ (dq +:+ "a" +:+ dq +:+ ": 1") +:+ "}" +:+ " Thanks")
  = "{" +:+ (dq +:+ "a" +:+ dq +:+ ": 1") +:+ "}".
Proof.
  assert (Hpre : ~ Substring "{" "Sure! ") by (by apply not_contains_Substring).
  assert (Hpost : ~ Substring "}" " Thanks") by (by apply not_contains_Substring).
  exact (proj1 (X12_gpt_extract_first_to_last_brace "Sure! "
                  (dq +:+ "a" +:+ dq +:+ ": 1") " Thanks" Hpre Hpost)).
Defined.

Lemma split1_second_none (s sep : string) :
  PyStr.split1_second s sep = None <-> ~ Substring sep s.
Proof.
  rewrite <- not_contains_Substring. unfold PyStr.split1_second, PyStr.find. cbv zeta.
  destruct (PyStr.contains sep s) eqn:Hc.
  - pose proof (find_from_present sep s 0 ltac:(lia) Hc).
    destruct (Z.ltb_spec (PyStr.find_from sep s 0) 0); [lia|]. by split.
  - rewrite find_from_absent by done. by split.
Qed.

Lemma split1_second_slash (pre rest : string) :
  PyStr.contains "/" pre = false ->
  PyStr.split1_second (pre +:+ "/" +:+ rest) "/" = Some rest.
Proof.
  intros Hpre. unfold PyStr.split1_second, PyStr.find. cbv zeta.
  rewrite (append_cons "/" "" rest), append_empty.
  rewrite find_from_char by done.
  pose proof (len_nonneg pre).
  destruct (Z.ltb_spec (0 + PyStr.len pre) 0); [lia|]. f_equal.
  unfold PyStr.slice_from. change (PyStr.len "/") with 1.
  replace (pre +:+ String "/" rest) with ((pre +:+ "/") +:+ rest +:+ "")
    by (by rewrite append_assoc, append_empty_r).
  replace (0 + PyStr.len pre + 1) with (PyStr.len (pre +:+ "/"))
    by (rewrite len_app; change (PyStr.len "/") with 1; lia).
  replace (PyStr.len ((pre +:+ "/") +:+ rest +:+ ""))
    with (PyStr.len (pre +:+ "/") + PyStr.len rest)
    by (rewrite !len_app; change (PyStr.len "") with 0; lia).
  apply slice_mid.
Qed.

(** X13.  The checkpoint of [complete_text_hf] is what follows the first
    "/" of the model identifier: for an identifier [pre/rest] with no "/"
    in [pre] the entry looked up in [loaded_hf_models], and loaded on a
    miss, is [rest] (so "huggingface/codellama/CodeLlama-7b-hf" stands for
    the checkpoint "codellama/CodeLlama-7b-hf").  The IndexError of line
    258 is raised exactly for the identifiers that hold no "/". *)
Theorem X13_hf_checkpoint_after_first_slash :
  forall (w : World) (message : Message) (model : string) (max_tokens : Z)
         (temperature : Q) (json_object : bool) (kwargs : list string)
         (c : gmap string (hf_model * hf_tokenizer)) (prompt : Message),
    hf_prompt json_object message = inr prompt ->
    (out_result (hf_prepare w message model max_tokens temperature json_object kwargs c)
     = Raise (IndexError "list index out of range")
     /\ out_trace (hf_prepare w message model max_tokens temperature json_object kwargs c)
        = []
     <-> ~ Substring "/" model)
    /\
    (forall pre rest,
       model = pre +:+ "/" +:+ rest ->
       ~ Substring "/" pre ->
       PyStr.split1_second model "/" = Some rest
       /\ (forall m t, c !! rest = Some (m, t) ->
             hf_prepare w message model max_tokens temperature json_object kwargs c
             = mkOut [EvTokenize prompt] c
                 (hf_prepared w max_tokens temperature kwargs m t prompt))
       /\ (c !! rest = None ->
           exists tr,
             out_trace (hf_prepare w message model max_tokens temperature json_object
                          kwargs c)
             = EvLoadModel rest (hf_device w) :: tr)).
Proof.
  intros w message model max_tokens temperature json_object kwargs c prompt Hp.
  split.
  - rewrite <- split1_second_none. split.
    + intros [Hres Htr]. unfold hf_prepare, hf_lookup_or_load in Hres, Htr.
      revert Hres Htr. run_monad. rewrite Hp.
      destruct (PyStr.split1_second model "/") as [checkpoint|]; [|done]. cbn.
      destruct (c !! checkpoint) as [[m t]|]; cbn.
      * by destruct (hf_tokenize w t prompt (hf_device w)).
      * destruct (hf_load_model w checkpoint (hf_device w)) as [e|m]; [done|]. cbn.
        destruct (hf_load_tokenizer w checkpoint) as [e|t]; [done|]. cbn.
        by destruct (hf_tokenize w t prompt (hf_device w)).
    + intros Hs.
      by rewrite (hf_prepare_no_slash w message model max_tokens temperature json_object
                    kwargs c prompt Hp Hs).
  - intros pre rest -> Hpre. apply not_contains_Substring in Hpre.
    pose proof (split1_second_slash pre rest Hpre) as Hs.
    split; [done|]. split.
    + intros m t Hc. by apply hf_prepare_hit with (checkpoint := rest).
    + intros Hc. unfold hf_prepare, hf_lookup_or_load. run_monad.
      rewrite Hp, Hs. cbn. rewrite Hc. cbn.
      destruct (hf_load_model w rest (hf_device w)) as [e|m]; cbn; [by eexists|].
      destruct (hf_load_tokenizer w rest) as [e|t]; cbn; [by eexists|].
      destruct (hf_tokenize w t prompt (hf_device w)); by eexists.
Qed.

(** X13 on the default identifier of the local caller and an empty cache. *)
Lemma X13_hf_checkpoint_after_first_slash_witness :
  PyStr.split1_second "huggingface/codellama/CodeLlama-7b-hf" "/"
  = Some "codellama/CodeLlama-7b-hf"
  /\ exists tr,
       out_trace (hf_prepare (test_world (fun _ => inr "ok")) (MsgStr "hi")
                    "huggingface/codellama/CodeLlama-7b-hf" 2000 (1 # 2)%Q false [] ∅)
       = EvLoadModel "codellama/CodeLlama-7b-hf" Cpu :: tr.
Proof.
  assert (Hpre : ~ Substring "/" "huggingface") by (by apply not_contains_Substring).
  destruct (X13_hf_checkpoint_after_first_slash (test_world (fun _ => inr "ok"))
              (MsgStr "hi") "huggingface/codellama/CodeLlama-7b-hf" 2000 (1 # 2)%Q
              false [] ∅ (MsgStr "hi") eq_refl) as (_ & H).
  destruct (H "huggingface" "codellama/CodeLlama-7b-hf" eq_refl Hpre) as (Hs & _ & Hl).
  split; [exact Hs | exact (Hl eq_refl)].
Defined.

(** ** The JSON instruction of family A *)

Lemma lower_app (a b : string) :
  PyStr.lower (a +:+ b) = PyStr.lower a +:+ PyStr.lower b.
Proof.
  induction a as [|x a IH]; [reflexivity|].
  rewrite append_cons. cbn [PyStr.lower]. by rewrite IH, append_cons.
Qed.

Lemma instruction_mentions_json (s : string) :
  PyStr.contains "json" (PyStr.lower (gpt_json_instruction +:+ s)) = true.
Proof.
  apply contains_Substring. rewrite lower_app.
  exists "you are a helpful assistant designed to output ", (". " +:+ PyStr.lower s).
  reflexivity.
Qed.

(** X14.  With [json_object] set and a message that is a string,
    [get_gpt_output] always sends a single user turn whose text mentions
    "json" in some letter case: the message itself when it does, and
    otherwise the instruction of line 47 followed by the message.  The
    step does nothing on a message it has already treated, and a message
    that is a list of turns is sent as it is, with no instruction even
    when none of its turns mentions JSON. *)
Theorem X14_gpt_json_instruction :
  forall (rq : Request),
    json_object rq = true ->
    (forall s, message rq = MsgStr s ->
       exists text,
         gpt_message rq = MsgStr text
         /\ PyStr.contains "json" (PyStr.lower text) = true
         /\ (text = s \/ text = gpt_json_instruction +:+ s)
         /\ (text = s <-> PyStr.contains "json" (PyStr.lower s) = true)
         /\ gpt_messages (with_history None rq) = [user_turn text])
    /\ (forall l, message rq = MsgTurns l -> gpt_message rq = MsgTurns l)
    /\ gpt_message (with_message (gpt_message rq) rq) = gpt_message rq.
Proof.
  intros rq Hj. split; [|split].
  - intros s Hm. unfold gpt_messages, gpt_message. cbn [history with_history
      json_object message]. rewrite Hj, Hm.
    destruct (PyStr.contains "json" (PyStr.lower s)) eqn:Hc; cbn [negb].
    + exists s. by repeat split; auto.
    + exists (gpt_json_instruction +:+ s).
      split; [done|]. split; [apply instruction_mentions_json|].
      split; [by right|]. split; [|done]. split; [|done].
      intros Heq. apply (f_equal PyStr.len) in Heq. rewrite len_app in Heq.
      change (PyStr.len gpt_json_instruction) with 53 in Heq. lia.
  - intros l Hm. unfold gpt_message. by rewrite Hj, Hm.
  - unfold gpt_message. cbn [json_object message with_message]. rewrite Hj.
    destruct (message rq) as [s|l]; [|done].
    destruct (PyStr.contains "json" (PyStr.lower s)) eqn:Hc; cbn [negb].
    + by rewrite Hc.
    + fold gpt_json_instruction. by rewrite instruction_mentions_json.
Qed.

(** X14 on the message "hi", which gets the instruction, and on a message
    that asks for JSON itself, which is left as it is. *)
Lemma X14_gpt_json_instruction_witness :
  (exists text,
     gpt_message (test_request "gpt-4-turbo" true) = MsgStr text
     /\ PyStr.contains "json" (PyStr.lower text) = true
     /\ (text = "hi" \/ text = gpt_json_instruction +:+ "hi")
     /\ (text = "hi" <-> PyStr.contains "json" (PyStr.lower "hi") = true)
     /\ gpt_messages (with_history None (test_request "gpt-4-turbo" true))
        = [user_turn text])
  /\ gpt_message (with_message (MsgStr "Answer in JSON.") (test_request "gpt-4-turbo" true))
     = MsgStr "Answer in JSON.".
Proof.
  split.
  - exact (proj1 (X14_gpt_json_instruction (test_request "gpt-4-turbo" true) eq_refl)
             "hi" eq_refl).
  - destruct (X14_gpt_json_instruction
                (with_message (MsgStr "Answer in JSON.") (test_request "gpt-4-turbo" true))
                eq_refl) as (H & _).
    destruct (H "Answer in JSON." eq_refl) as (text & Hm & _ & _ & Hiff & _).
    rewrite Hm. f_equal. apply Hiff. reflexivity.
Defined.

(** ** The demonstration script *)

Lemma test_gemini_api_run w c a key :
  environ w "GEMINI_API_KEY" = Some (String a key) ->
  test_gemini_api w None c
  = mkOut
      ([EvPrintStr "Testing Gemini text completion...";
        EvPrintStr "Input: What is the capital of France?"]
       ++ out_trace (complete_text_gemini w test_request_gemma 5 30 [] c)
       ++ match out_result (complete_text_gemini w test_request_gemma 5 30 [] c) with
          | Return response => [EvPrintResult response]
          | Raise api_error =>
              [EvPrintExn api_error;
               EvPrintStr "✓ Gemini integration is properly configured (function exists and can be called)"]
          end)
      c (Return true).
Proof.
  intros Hkey. unfold test_gemini_api. rewrite Hkey. run_monad.
  pose proof (complete_text_gemini_cache w test_request_gemma 5 30 [] c) as Hc.
  destruct (complete_text_gemini w test_request_gemma 5 30 [] c) as [tr c1 [v|e]];
    cbn in Hc |- *; subst c1; by rewrite ?app_nil_r.
Qed.

(** X15.  [test_gemini_api] of the demonstration script returns False,
    after two prints and without touching the backend, when GEMINI_API_KEY
    is unset or empty.  With a non-empty key and a module that imports it
    returns True whatever the backend does: a response is printed, and an
    exception of [complete_text_gemini] (a missing library, a rejected key,
    five failed attempts) is printed as an expected failure.  It makes at
    most five invocations.  An ImportError of the import is reported with
    False; any other exception of the import leaves the function. *)
Theorem X15_test_gemini_api_outcome :
  forall (w : World) (import_api : option exn)
         (c : gmap string (hf_model * hf_tokenizer)),
    (environ w "GEMINI_API_KEY" = None \/ environ w "GEMINI_API_KEY" = Some "" ->
     test_gemini_api w import_api c
     = mkOut [EvPrintStr "❌ GEMINI_API_KEY environment variable not set.";
              EvPrintStr "Please set it with: export GEMINI_API_KEY=your_api_key_here"]
         c (Return false))
    /\
    (forall a key,
       environ w "GEMINI_API_KEY" = Some (String a key) ->
       (import_api = None ->
        out_result (test_gemini_api w import_api c) = Return true
        /\ out_cache (test_gemini_api w import_api c) = c
        /\ (invocations (out_trace (test_gemini_api w import_api c)) <= 5)%nat
        /\ (total_sleep (out_trace (test_gemini_api w import_api c)) <= 150)%nat
        /\ (forall api_error,
              out_result (complete_text_gemini w test_request_gemma 5 30 [] c)
              = Raise api_error ->
              exists tr,
                out_trace (test_gemini_api w import_api c)
                = tr ++ [EvPrintExn api_error;
                         EvPrintStr "✓ Gemini integration is properly configured (function exists and can be called)"]))
       /\
       (forall text, import_api = Some (ImportError text) ->
          test_gemini_api w import_api c
          = mkOut [EvPrintExn (ImportError text);
                   EvPrintStr "Make sure google-generativeai is installed: pip install google-generativeai"]
              c (Return false))
       /\
       (forall e, import_api = Some e -> (forall text, e <> ImportError text) ->
          test_gemini_api w import_api c = mkOut [] c (Raise e))).
Proof.
  intros w import_api c. split.
  - intros [Hkey|Hkey]; unfold test_gemini_api; by rewrite Hkey.
  - intros a key Hkey. split; [|split].
    + intros ->. rewrite (test_gemini_api_run _ _ _ _ Hkey). cbn [out_result out_cache out_trace].
      split; [done|]. split; [done|].
      destruct (complete_text_gemini_budget w test_request_gemma 5 30 [] c) as [Hs Hi].
      assert (Hq : forall o : result value,
                total_sleep match o with
                            | Return response => [EvPrintResult response]
                            | Raise api_error =>
                                [EvPrintExn api_error;
                                 EvPrintStr "✓ Gemini integration is properly configured (function exists and can be called)"]
                            end = 0%nat
                /\ invocations match o with
                               | Return response => [EvPrintResult response]
                               | Raise api_error =>
                                   [EvPrintExn api_error;
                                    EvPrintStr "✓ Gemini integration is properly configured (function exists and can be called)"]
                               end = 0%nat)
        by (by intros [v|e]).
      destruct (Hq (out_result (complete_text_gemini w test_request_gemma 5 30 [] c)))
        as [Hq1 Hq2].
      split; [|split].
      * rewrite !invocations_app, Hq2.
        change (invocations [EvPrintStr "Testing Gemini text completion...";
                             EvPrintStr "Input: What is the capital of France?"])
          with 0%nat. lia.
      * rewrite !total_sleep_app, Hq1.
        change (total_sleep [EvPrintStr "Testing Gemini text completion...";
                             EvPrintStr "Input: What is the capital of France?"])
          with 0%nat. lia.
      * intros api_error Herr. rewrite Herr.
        eexists. by rewrite app_assoc.
    + intros text ->. unfold test_gemini_api. rewrite Hkey. by run_monad.
    + intros e -> Hne. unfold test_gemini_api. rewrite Hkey. run_monad.
      destruct e; try done. by destruct (Hne text).
Qed.

(** X15 in a world that holds the key but lacks the generative-AI
    library: the set-up of [complete_text_gemini] raises ImportError, and
    the test still returns True. *)
Lemma X15_test_gemini_api_outcome_witness :
  out_result (test_gemini_api (keyed_world (fun _ => inl rate_limit)) None ∅)
  = Return true
  /\ out_result (complete_text_gemini (keyed_world (fun _ => inl rate_limit))
                   test_request_gemma 5 30 [] ∅)
     = Raise (ImportError "google-generativeai package not installed. Please install it with: pip install google-generativeai")
  /\ test_gemini_api (bare_world (fun _ => inl rate_limit)) None ∅
     = mkOut [EvPrintStr "❌ GEMINI_API_KEY environment variable not set.";
              EvPrintStr "Please set it with: export GEMINI_API_KEY=your_api_key_here"]
         ∅ (Return false).
Proof.
  split; [|split].
  - destruct (X15_test_gemini_api_outcome (keyed_world (fun _ => inl rate_limit)) None ∅)
      as (_ & H).
    destruct (H "g"%char "-key" eq_refl) as (H1 & _).
    exact (proj1 (H1 eq_refl)).
  - reflexivity.
  - destruct (X15_test_gemini_api_outcome (bare_world (fun _ => inl rate_limit)) None ∅)
      as (H & _).
    exact (H (or_introl eq_refl)).
Defined.

(** ** The registry and the dispatcher *)

Lemma registered_In (m : string) :
  registered m = true <-> In m registered_text_completion_llms.
Proof.
  unfold registered. rewrite existsb_exists. split.
  - intros (x & Hin & Heq). apply String.eqb_eq in Heq. by subst.
  - intros Hin. exists m. split; [done | apply String.eqb_refl].
Qed.

Lemma registered_route (m : string) :
  In m registered_text_completion_llms ->
  (PyStr.contains "gpt-4" m = true)
  \/ (PyStr.contains "gpt-4" m = false /\ PyStr.contains "claude" m = true)
  \/ (PyStr.contains "gpt-4" m = false /\ PyStr.contains "claude" m = false
      /\ (PyStr.contains "gemma" m || PyStr.contains "gemini" m)%bool = true)
  \/ (PyStr.contains "gpt-4" m = false /\ PyStr.contains "claude" m = false
      /\ (PyStr.contains "gemma" m || PyStr.contains "gemini" m)%bool = false
      /\ m = "huggingface/codellama/CodeLlama-7b-hf").
Proof.
  intros Hin. cbn [registered_text_completion_llms In] in Hin.
  repeat (destruct Hin as [<-|Hin];
          [vm_compute; first [ by left
                             | by right; left
                             | by right; right; left
                             | by right; right; right ]|]).
  done.
Qed.

(** X16.  The dispatcher warns exactly for the identifiers outside the
    registry, and every identifier of the registry is served: its call is
    the call of [get_gpt_output], [complete_text_claude],
    [complete_text_gemini] or [complete_text_hf], with no warning and never
    the ValueError of the last branch.  The identifiers that the
    demonstration script lists as models of the multimodal family, and the
    two it reports as routed to [complete_text_gemini], are registered and
    are routed there.  Because of the comma missing in line 23,
    "gpt-4-turbo-2024-04-09" is not in the registry: it is served by
    [get_gpt_output] after a warning. *)
Theorem X16_registered_models_are_served :
  forall (w : World) (rq : Request) (c : gmap string (hf_model * hf_tokenizer)),
    (warning_trace (model rq) = [] <-> In (model rq) registered_text_completion_llms)
    /\
    (In (model rq) registered_text_completion_llms ->
     (PyStr.contains "gpt-4" (model rq) = true
      /\ get_llm_output_tools w rq c = get_gpt_output w rq 5 60 c)
     \/ (PyStr.contains "claude" (model rq) = true
         /\ get_llm_output_tools w rq c = complete_text_claude w rq 100 5 [] c)
     \/ ((PyStr.contains "gemma" (model rq) || PyStr.contains "gemini" (model rq))%bool
         = true
         /\ get_llm_output_tools w rq c = complete_text_gemini w rq 5 30 [] c)
     \/ (model rq = "huggingface/codellama/CodeLlama-7b-hf"
         /\ get_llm_output_tools w rq c
            = complete_text_hf w (message rq) (model rq) (max_tokens rq)
                (temperature rq) (json_object rq) 1 0
                ["history"; "tools"; "return_raw"] c))
    /\
    (In (model rq) gemini_models \/ In (model rq) test_models ->
     In (model rq) registered_text_completion_llms
     /\ get_llm_output_tools w rq c = complete_text_gemini w rq 5 30 [] c)
    /\
    (model rq = "gpt-4-turbo-2024-04-09" ->
     get_llm_output_tools w rq c
     = prepend [EvWarn "Model gpt-4-turbo-2024-04-09 is not registered. You may still be able to use it."]
         (get_gpt_output w rq 5 60 c)).
Proof.
  intros w rq c.
  assert (Hserved :
    In (model rq) registered_text_completion_llms ->
    (PyStr.contains "gpt-4" (model rq) = true
     /\ get_llm_output_tools w rq c = get_gpt_output w rq 5 60 c)
    \/ (PyStr.contains "claude" (model rq) = true
        /\ get_llm_output_tools w rq c = complete_text_claude w rq 100 5 [] c)
    \/ ((PyStr.contains "gemma" (model rq) || PyStr.contains "gemini" (model rq))%bool
        = true
        /\ PyStr.contains "gpt-4" (model rq) = false
        /\ PyStr.contains "claude" (model rq) = false
        /\ get_llm_output_tools w rq c = complete_text_gemini w rq 5 30 [] c)
    \/ (model rq = "huggingface/codellama/CodeLlama-7b-hf"
        /\ get_llm_output_tools w rq c
           = complete_text_hf w (message rq) (model rq) (max_tokens rq)
               (temperature rq) (json_object rq) 1 0
               ["history"; "tools"; "return_raw"] c)).
  { intros Hin. rewrite get_llm_output_tools_run.
    assert (Hw : warning_trace (model rq) = []).
    { unfold warning_trace. apply registered_In in Hin. by rewrite Hin. }
    rewrite Hw, prepend_nil.
    destruct (registered_route _ Hin)
      as [Ha | [(Ha & Hb) | [(Ha & Hb & Hc) | (Ha & Hb & Hc & Hd)]]].
    - left. by rewrite Ha.
    - right; left. by rewrite Ha, Hb.
    - right; right; left. by rewrite Ha, Hb, Hc.
    - right; right; right. rewrite Ha, Hb, Hc. split; [done|].
      assert (Hh : PyStr.contains "huggingface" (model rq) = true) by (by rewrite Hd).
      by rewrite Hh. }
  split; [|split; [|split]].
  - rewrite <- registered_In. unfold warning_trace.
    by destruct (registered (model rq)).
  - intros Hin. destruct (Hserved Hin) as [H | [H | [(H1 & _ & _ & H2) | H]]]; auto.
  - intros Hin.
    assert (Hreg : In (model rq) registered_text_completion_llms
                   /\ (PyStr.contains "gemma" (model rq)
                       || PyStr.contains "gemini" (model rq))%bool = true
                   /\ PyStr.contains "gpt-4" (model rq) = false
                   /\ PyStr.contains "claude" (model rq) = false).
    { destruct Hin as [Hin|Hin].
      - unfold gemini_models in Hin. apply List.filter_In in Hin as [Hin Hg].
        split; [done|]. split; [done|].
        destruct (registered_route _ Hin)
          as [Ha | [(Ha & Hb) | [(Ha & Hb & Hc) | (Ha & Hb & Hc & Hd)]]];
          [| |done|congruence];
          cbn [registered_text_completion_llms In] in Hin;
          repeat (destruct Hin as [Heq|Hin];
                  [rewrite <- Heq in Ha, Hg; vm_compute in Ha, Hg; try discriminate|]);
          try done; rewrite <- Heq in Hb; vm_compute in Hb; discriminate.
      - cbn [test_models In] in Hin.
        destruct Hin as [<-|[<-|[]]]; vm_compute; intuition. }
    destruct Hreg as (Hin' & Hg & Ha & Hb). split; [done|].
    rewrite get_llm_output_tools_run.
    assert (Hw : warning_trace (model rq) = []).
    { unfold warning_trace. apply registered_In in Hin'. by rewrite Hin'. }
    by rewrite Hw, prepend_nil, Ha, Hb, Hg.
  - intros Hm. rewrite get_llm_output_tools_run, Hm. reflexivity.
Qed.

(** X16 on "gemini-1.5-flash", one of the two identifiers the script
    reports as routed to [complete_text_gemini]. *)
Lemma X16_registered_models_are_served_witness :
  In "gemini-1.5-flash" registered_text_completion_llms
  /\ get_llm_output_tools (test_world (fun _ => inr "Paris"))
       (test_request "gemini-1.5-flash" false) ∅
     = complete_text_gemini (test_world (fun _ => inr "Paris"))
         (test_request "gemini-1.5-flash" false) 5 30 [] ∅.
Proof.
  destruct (X16_registered_models_are_served (test_world (fun _ => inr "Paris"))
              (test_request "gemini-1.5-flash" false) ∅) as (_ & _ & H & _).
  apply H. right. cbn [test_models test_request model In]. right. by left.
Defined.
